(** * next-ai-draw-io: the chat proxy route and the configuration store

    A shallow embedding of
    - [src/app/api/chat/route.ts]: the [POST] handler that validates the
      request, binds a provider, augments the message list and calls the
      upstream model;
    - [src/components/api-config-dialog.tsx]: loading and saving of the
      provider configuration in [localStorage], and the form of the
      dialog: the provider buttons, the fetch of a provider's model
      list, the search over it and the Save button.

    JavaScript values are embedded as an inductive type with the dynamic
    operations the two files use (truthiness, property reads, optional
    chaining, [||]).  The handler runs in a small monad that threads the
    effect trace and the block-scoped binding [enhancedMessages], and whose
    computations complete normally, by [return] or by [throw].  What the
    runtime and the imported libraries do ([JSON], [fetch],
    [convertToModelMessages]) is a parameter of the model; the modules
    [Mock] and [FormMock] give one concrete runtime for the examples. *)

From Stdlib Require Import String Ascii List ZArith Bool Lia.
From Stdlib Require Import PrimFloat FloatOps SpecFloat Uint63 DecimalString.
Import ListNotations.
Open Scope string_scope.

(* ================================================================== *)
(** * JavaScript values *)
(* ================================================================== *)

Module Js.

(** What [JSON.parse] and [req.json()] produce, plus [undefined], which
    property reads yield.  Numbers are IEEE binary64.  A string is the
    sequence of its UTF-8 bytes.  An object is the list of its own
    properties in insertion order; the first binding of a key is the
    effective one. *)
#[warnings="-register-all"]
Inductive value : Type :=
| VUndefined
| VNull
| VBool (b : bool)
| VNum (n : float)
| VStr (s : string)
| VArr (items : list value)
| VObj (props : list (string * value)).

(** [v == null] *)
Definition nullish (v : value) : bool :=
  match v with
  | VUndefined | VNull => true
  | _ => false
  end.

(** ToBoolean *)
Definition truthy (v : value) : bool :=
  match v with
  | VUndefined | VNull => false
  | VBool b => b
  | VNum n => negb (PrimFloat.is_zero n || PrimFloat.is_nan n)
  | VStr EmptyString => false
  | VStr (String _ _) => true
  | VArr _ | VObj _ => true
  end.

(** [a || b] *)
Definition or_else (a b : value) : value := if truthy a then a else b.

(** [v === "lit"] against a string literal *)
Definition strict_eq_str (v : value) (lit : string) : bool :=
  match v with
  | VStr s => String.eqb s lit
  | _ => false
  end.

(** [typeof v === 'string'] *)
Definition is_string (v : value) : bool :=
  match v with
  | VStr _ => true
  | _ => false
  end.

(** Own property lookup in a property list. *)
Fixpoint own (props : list (string * value)) (key : string) : value :=
  match props with
  | [] => VUndefined
  | (k, v) :: rest => if String.eqb k key then v else own rest key
  end.

(** Whether a property list has the own property [key]. *)
Definition has_own (props : list (string * value)) (key : string) : bool :=
  existsb (fun binding => String.eqb (fst binding) key) props.

(** [v.key] on a value known not to be null or undefined.  The keys the
    two files read ([apiConfig], [apiKey], [provider], [model], [parts],
    [type], [text], [url], [mediaType], [error], [message], [choices],
    [content]) are defined on no prototype, so primitives and arrays
    answer [undefined] and objects answer their own property. *)
Definition field (v : value) (key : string) : value :=
  match v with
  | VObj props => own props key
  | _ => VUndefined
  end.

(** [v?.key] *)
Definition opt_field (v : value) (key : string) : value :=
  if nullish v then VUndefined else field v key.

(** [obj.key = x] on an object: an existing key keeps its place. *)
Fixpoint set_own (props : list (string * value)) (key : string) (x : value)
  : list (string * value) :=
  match props with
  | [] => [(key, x)]
  | (k, v) :: rest =>
      if String.eqb k key then (k, x) :: rest else (k, v) :: set_own rest key x
  end.

(** What a [throw] carries: an [Error] instance or any other value. *)
Inductive thrown : Type :=
| Error (name message : string)
| Thrown (v : value).

Definition TypeError : string -> thrown := Error "TypeError".
Definition ReferenceError : string -> thrown := Error "ReferenceError".
Definition SyntaxError : string -> thrown := Error "SyntaxError".

(** [v.key], which throws on [null] and [undefined]. *)
Definition get (v : value) (key : string) : thrown + value :=
  if nullish v
  then inl (TypeError ("Cannot read properties of null or undefined: " ++ key))
  else inr (field v key).

(** Completion of a statement list inside a function body. *)
Inductive completion (R A : Type) : Type :=
| Normal (a : A)
| Return (r : R)
| Throw (e : thrown).

Arguments Normal {R A} a.
Arguments Return {R A} r.
Arguments Throw {R A} e.

(** Computations over a state [S] inside a function returning [R]. *)
Definition Exec (S R A : Type) : Type := S -> completion R A * S.

Definition ret {S R A} (a : A) : Exec S R A := fun s => (Normal a, s).

Definition bind {S R A B} (m : Exec S R A) (k : A -> Exec S R B) : Exec S R B :=
  fun s =>
    match m s with
    | (Normal a, s') => k a s'
    | (Return r, s') => (Return r, s')
    | (Throw e, s') => (Throw e, s')
    end.

Definition return_ {S R A} (r : R) : Exec S R A := fun s => (Return r, s).

Definition throw {S R A} (e : thrown) : Exec S R A := fun s => (Throw e, s).

(** An expression that may throw, as a statement. *)
Definition lift {S R A} (x : thrown + A) : Exec S R A :=
  match x with
  | inl e => throw e
  | inr a => ret a
  end.

End Js.

Import Js.

Declare Scope exec_scope.
Delimit Scope exec_scope with exec.
Notation "x <- m ;; k" := (bind m (fun x => k))
  (at level 61, m at next level, right associativity) : exec_scope.
Notation "m ;; k" := (bind m (fun _ => k))
  (at level 61, right associativity) : exec_scope.

(* ================================================================== *)
(** * The chat proxy: [src/app/api/chat/route.ts] *)
(* ================================================================== *)

Module Route.

(** The double quote character, for the string constants below. *)
Definition dq : string := String "034"%char EmptyString.

(** ** Data *)

(** [ModelMessage] of the streaming library: a role, a content (a string
    or an array of parts) and whatever else the library attaches. *)
Record ModelMessage : Type := {
  role : string;
  content : value;
  others : list (string * value)
}.

(** [{ ...m, content: c }] *)
Definition with_content (m : ModelMessage) (c : value) : ModelMessage :=
  {| role := role m; content := c; others := others m |}.

(** The provider bindings the [switch] constructs. *)
Inductive LanguageModel : Type :=
| openai (modelId : value)
| openrouter (apiKey modelId : value)
| googleProvider (apiKey modelId : value).

(** The [zod] schemas of the two tools. *)
#[warnings="-register-all"]
Inductive zod : Type :=
| z_string (describe : string)
| z_array (item : zod) (describe : string)
| z_object (shape : list (string * zod)).

Record Tool : Type := {
  description : string;
  inputSchema : zod
}.

(** The argument of [streamText]. *)
Record StreamTextArgs : Type := {
  system : string;
  model : LanguageModel;
  messages : list ModelMessage;
  tools : list (string * Tool);
  temperature : Z
}.

(** The argument of [fetch] and what it resolves to. *)
Record FetchRequest : Type := {
  url : string;
  method : string;
  headers : list (string * string);
  body : string
}.

Record FetchResponse : Type := {
  status : Z;
  statusText : string;
  json : thrown + value
}.

(** [response.ok] *)
Definition ok (r : FetchResponse) : bool :=
  (200 <=? status r)%Z && (status r <=? 299)%Z.

(** The responses the handler builds. *)
Inductive Response : Type :=
| Response_json (data : value) (status : Z)
| Response_new (body : string) (headers : list (string * string))
| toUIMessageStreamResponse (result : StreamTextArgs) (onError : thrown -> string).

(** Lines 27-30, 117-120 and 294-297: the three fixed error responses. *)
Definition config_missing : Response :=
  Response_json (VObj [("error", VStr "API 配置缺失，请先配置 AI 提供商")]) 400.

Definition unsupported_provider : Response :=
  Response_json (VObj [("error", VStr "不支持的 AI 提供商")]) 400.

Definition internal_server_error : Response :=
  Response_json (VObj [("error", VStr "Internal server error")]) 500.

Definition status_of (r : Response) : Z :=
  match r with
  | Response_json _ st => st
  | Response_new _ _ => 200
  | toUIMessageStreamResponse _ _ => 200
  end.

(** The JSON body of a response built by [Response.json]. *)
Definition json_body (r : Response) : option value :=
  match r with
  | Response_json data _ => Some data
  | _ => None
  end.

(** [r] has status [st] and a JSON body that is an object with the one
    field [error], holding [message]. *)
Definition error_response (r : Response) (st : Z) (message : string) : Prop :=
  status_of r = st /\ json_body r = Some (VObj [("error", VStr message)]).

(** Observable effects, in program order. *)
Inductive event : Type :=
| console_log (label : string)
| console_error (label : string)
| fetch_call (req : FetchRequest)
| streamText_call (args : StreamTextArgs).

(** Calls that reach a vendor. *)
Definition is_upstream (e : event) : bool :=
  match e with
  | fetch_call _ | streamText_call _ => true
  | console_log _ | console_error _ => false
  end.

Definition upstream_calls (trace : list event) : list event :=
  filter is_upstream trace.

(** The incoming request: what [await req.json()] settles to. *)
Record Request : Type := {
  req_json : thrown + value
}.

(** What the runtime and the imported libraries supply. *)
Record Platform : Type := {
  (** [JSON.stringify], on the values the handler passes to it (never
      [undefined]) *)
  JSON_stringify : value -> string;
  (** [Number.prototype.toString] *)
  Number_toString : float -> string;
  (** [convertToModelMessages] of the streaming library *)
  convertToModelMessages : value -> thrown + list ModelMessage;
  (** the network behind [fetch] *)
  fetch : FetchRequest -> thrown + FetchResponse;
  (** [m[m.length - 1]] when [m] is a string or a plain object *)
  index_by_length : value -> value
}.

(** ** Constants of the handler *)

Definition systemMessage : string :=
  "
You are an expert diagram creation assistant specializing in draw.io XML generation.
Your primary function is crafting clear, well-organized visual diagrams through precise XML specifications.
You can see the image that user uploaded.
Note that when you need to generate diagram about aws architecture, use **AWS 2025 icons**.

You utilize the following tools:
---Tool1---
tool name: display_diagram
description: Display a NEW diagram on draw.io. Use this when creating a diagram from scratch or when major structural changes are needed.
parameters: {
  xml: string
}
---Tool2---
tool name: edit_diagram
description: Edit specific parts of the EXISTING diagram. Use this when making small targeted changes like adding/removing elements, changing labels, or adjusting properties. This is more efficient than regenerating the entire XML.
parameters: {
  edits: Array<{search: string, replace: string}>
}
---End of tools---

IMPORTANT: Choose the right tool:
- Use display_diagram for: Creating new diagrams, major restructuring, or when the current diagram XML is empty
- Use edit_diagram for: Small modifications, adding/removing elements, changing text/colors, repositioning items

Core capabilities:
- Generate valid, well-formed XML strings for draw.io diagrams
- Create professional flowcharts, mind maps, entity diagrams, and technical illustrations
- Convert user descriptions into visually appealing diagrams using basic shapes and connectors
- Apply proper spacing, alignment and visual hierarchy in diagram layouts
- Adapt artistic concepts into abstract diagram representations using available shapes
- Optimize element positioning to prevent overlapping and maintain readability
- Structure complex systems into clear, organized visual components

Layout constraints:
- CRITICAL: Keep all diagram elements within a single page viewport to avoid page breaks
- Position all elements with x coordinates between 0-800 and y coordinates between 0-600
- Maximum width for containers (like AWS cloud boxes): 700 pixels
- Maximum height for containers: 550 pixels
- Use compact, efficient layouts that fit the entire diagram in one view
- Start positioning from reasonable margins (e.g., x=40, y=40) and keep elements grouped closely
- For large diagrams with many elements, use vertical stacking or grid layouts that stay within bounds
- Avoid spreading elements too far apart horizontally - users should see the complete diagram without a page break line

Note that:
- Focus on producing clean, professional diagrams that effectively communicate the intended information through thoughtful layout and design choices.
- When artistic drawings are requested, creatively compose them using standard diagram shapes and connectors while maintaining visual clarity.
- Return XML only via tool calls, never in text responses.
- If user asks you to replicate a diagram based on an image, remember to match the diagram style and layout as closely as possible. Especially, pay attention to the lines and shapes, for example, if the lines are straight or curved, and if the shapes are rounded or square.
- Note that when you need to generate diagram about aws architecture, use **AWS 2025 icons**.

When using edit_diagram tool:
- Keep edits minimal - only include the specific line being changed plus 1-2 surrounding lines for context if needed
- Example GOOD edit: {" ++ dq ++ "search" ++ dq ++ ": " ++ dq ++ "  <mxCell id=" ++ dq ++ "2" ++ dq ++ " value=" ++ dq ++ "Old Text" ++ dq ++ ">" ++ dq ++ ", " ++ dq ++ "replace" ++ dq ++ ": " ++ dq ++ "  <mxCell id=" ++ dq ++ "2" ++ dq ++ " value=" ++ dq ++ "New Text" ++ dq ++ ">" ++ dq ++ "}
- Example BAD edit: Including 10+ unchanged lines just to change one attribute
- For multiple changes, use separate edits: [{" ++ dq ++ "search" ++ dq ++ ": " ++ dq ++ "line1" ++ dq ++ ", " ++ dq ++ "replace" ++ dq ++ ": " ++ dq ++ "new1" ++ dq ++ "}, {" ++ dq ++ "search" ++ dq ++ ": " ++ dq ++ "line2" ++ dq ++ ", " ++ dq ++ "replace" ++ dq ++ ": " ++ dq ++ "new2" ++ dq ++ "}]
- CRITICAL: If edit_diagram fails because the search pattern cannot be found, fall back to using display_diagram to regenerate the entire diagram with your changes. Do NOT keep trying edit_diagram with different search patterns.
".

Definition display_diagram_description : string :=
  "Display a diagram on draw.io. You only need to pass the nodes inside the <root> tag (including the <root> tag itself) in the XML string.
          For example:
          <root>
            <mxCell id=" ++ dq ++ "0" ++ dq ++ "/>
            <mxCell id=" ++ dq ++ "1" ++ dq ++ " parent=" ++ dq ++ "0" ++ dq ++ "/>
            <mxGeometry x=" ++ dq ++ "20" ++ dq ++ " y=" ++ dq ++ "20" ++ dq ++ " width=" ++ dq ++ "100" ++ dq ++ " height=" ++ dq ++ "100" ++ dq ++ " as=" ++ dq ++ "geometry" ++ dq ++ "/>
            <mxCell id=" ++ dq ++ "2" ++ dq ++ " value=" ++ dq ++ "Hello, World!" ++ dq ++ " style=" ++ dq ++ "shape=rectangle" ++ dq ++ " parent=" ++ dq ++ "1" ++ dq ++ ">
              <mxGeometry x=" ++ dq ++ "20" ++ dq ++ " y=" ++ dq ++ "20" ++ dq ++ " width=" ++ dq ++ "100" ++ dq ++ " height=" ++ dq ++ "100" ++ dq ++ " as=" ++ dq ++ "geometry" ++ dq ++ "/>
            </mxCell>
          </root>
          - Note that when you need to generate diagram about aws architecture, use **AWS 2025 icons**.
          ".

Definition edit_diagram_description : string :=
  "Edit specific parts of the current diagram by replacing exact line matches. Use this tool to make targeted fixes without regenerating the entire XML.
IMPORTANT: Keep edits concise:
- Only include the lines that are changing, plus 1-2 surrounding lines for context if needed
- Break large changes into multiple smaller edits
- Each search must contain complete lines (never truncate mid-line)
- First match only - be specific enough to target the right element".


(** [z.string().describe(...)] and friends, as the handler writes them. *)
Definition display_diagram : Tool :=
  {| description := display_diagram_description;
     inputSchema :=
       z_object [("xml", z_string "XML string to be displayed on draw.io")] |}.

Definition edit_diagram : Tool :=
  {| description := edit_diagram_description;
     inputSchema :=
       z_object
         [("edits",
           z_array
             (z_object
                [("search",
                  z_string "Exact lines to search for (including whitespace and indentation)");
                 ("replace", z_string "Replacement lines")])
             "Array of search/replace pairs to apply sequentially")] |}.

Definition siliconflow_endpoint : string :=
  "https://api.siliconflow.cn/v1/chat/completions".

Definition sse_headers : list (string * string) :=
  [("Content-Type", "text/event-stream");
   ("Cache-Control", "no-cache");
   ("Connection", "keep-alive")].

(** ** Dynamic operations of the handler *)

Section Dynamic.

Variable w : Platform.

(** ToString, as template literals apply it.  An object is converted
    by the inherited [toString]; an own property [toString] of a value
    read from JSON is not callable and hides it, and the inherited
    [valueOf] returns the object itself, so the conversion throws.  An
    array is joined with commas, [null] and [undefined] entries giving
    the empty string, and throws where the conversion of an entry does. *)
Fixpoint ToString (v : value) : thrown + string :=
  match v with
  | VUndefined => inr "undefined"
  | VNull => inr "null"
  | VBool true => inr "true"
  | VBool false => inr "false"
  | VNum n => inr (Number_toString w n)
  | VStr s => inr s
  | VArr items =>
      (fix join (entries : list value) : thrown + string :=
         match entries with
         | [] => inr EmptyString
         | x :: rest =>
             match (if nullish x then inr EmptyString else ToString x) with
             | inl e => inl e
             | inr text =>
                 match rest with
                 | [] => inr text
                 | _ :: _ =>
                     match join rest with
                     | inl e => inl e
                     | inr texts => inr (text ++ "," ++ texts)
                     end
                 end
             end
         end) items
  | VObj props =>
      if has_own props "toString"
      then inl (TypeError "Cannot convert object to primitive value")
      else inr "[object Object]"
  end.

(** [messages[messages.length - 1]] *)
Definition last_element (messages : value) : thrown + value :=
  match messages with
  | VUndefined | VNull =>
      inl (TypeError "Cannot read properties of undefined (reading 'length')")
  | VArr items => inr (last items VUndefined)
  | VBool _ | VNum _ => inr VUndefined
  | VStr _ | VObj _ => inr (index_by_length w messages)
  end.

(** The callback [(part) => part.type === ty]. *)
Definition part_has_type (ty : string) (part : value) : thrown + bool :=
  match get part "type" with
  | inl e => inl e
  | inr t => inr (strict_eq_str t ty)
  end.

(** [items.find((part) => part.type === ty)] *)
Fixpoint find_by_type (ty : string) (items : list value) : thrown + value :=
  match items with
  | [] => inr VUndefined
  | part :: rest =>
      match part_has_type ty part with
      | inl e => inl e
      | inr true => inr part
      | inr false => find_by_type ty rest
      end
  end.

(** [items.filter((part) => part.type === ty)] *)
Fixpoint filter_by_type (ty : string) (items : list value) : thrown + list value :=
  match items with
  | [] => inr []
  | part :: rest =>
      match part_has_type ty part with
      | inl e => inl e
      | inr keep =>
          match filter_by_type ty rest with
          | inl e => inl e
          | inr kept => inr (if keep then part :: kept else kept)
          end
      end
  end.

(** [parts?.find((part) => part.type === 'text')?.text]: only an array
    has a [find] method. *)
Definition find_text (parts : value) : thrown + value :=
  match parts with
  | VUndefined | VNull => inr VUndefined
  | VArr items =>
      match find_by_type "text" items with
      | inl e => inl e
      | inr found => inr (opt_field found "text")
      end
  | _ => inl (TypeError "lastMessage.parts.find is not a function")
  end.

(** [parts?.filter((part) => part.type === 'file') || []] *)
Definition filter_files (parts : value) : thrown + list value :=
  match parts with
  | VUndefined | VNull => inr []
  | VArr items => filter_by_type "file" items
  | _ => inl (TypeError "lastMessage.parts.filter is not a function")
  end.

(** The text of the template literal [formattedTextContent], given
    the texts of its two holes. *)
Definition template (xml_text user_text : string) : string :=
  "
Current diagram XML:
" ++ dq ++ dq ++ dq ++ "xml
" ++ xml_text ++ "
" ++ dq ++ dq ++ dq ++ "
User input:
" ++ dq ++ dq ++ dq ++ "md
" ++ user_text ++ "
" ++ dq ++ dq ++ dq.

(** The template literal [formattedTextContent]: the hole [xml || '']
    is converted first, [lastMessageText] second. *)
Definition formattedTextContent (xml lastMessageText : value) : thrown + string :=
  match ToString (or_else xml (VStr EmptyString)) with
  | inl e => inl e
  | inr xml_text =>
      match ToString lastMessageText with
      | inl e => inl e
      | inr user_text => inr (template xml_text user_text)
      end
  end.

(** [contentParts] after the loop over [fileParts]. *)
Definition contentParts (formatted : string) (fileParts : list value) : list value :=
  VObj [("type", VStr "text"); ("text", VStr formatted)]
  :: map (fun filePart =>
            VObj [("type", VStr "image");
                  ("image", field filePart "url");
                  ("mimeType", field filePart "mediaType")])
         fileParts.

(** [errorHandler] *)
Definition errorHandler (error : thrown) : string :=
  match error with
  | Thrown VUndefined | Thrown VNull => "unknown error"
  | Thrown (VStr s) => s
  | Error _ message => message
  | Thrown v => JSON_stringify w v
  end.


(** ** The fenced-block pattern of the SiliconFlow path

    [content.match(/```xml\s*([\s\S]*?)\s*```/)]: strings are UTF-8 byte
    strings here, so the white space class [\s] is recognised on one, two
    and three byte sequences. *)

Definition byte (c : ascii) : nat := nat_of_ascii c.

(** TAB, LF, VT, FF, CR, SPACE *)
Definition ws1 (a : ascii) : bool :=
  (((9 <=? byte a) && (byte a <=? 13)) || (byte a =? 32))%nat.

(** U+00A0 *)
Definition ws2 (a b : ascii) : bool :=
  ((byte a =? 194) && (byte b =? 160))%nat.

(** U+1680, U+2000..U+200A, U+2028, U+2029, U+202F, U+205F, U+3000, U+FEFF *)
Definition ws3 (a b c : ascii) : bool :=
  (((byte a =? 225) && (byte b =? 154) && (byte c =? 128))
   || ((byte a =? 226) && (byte b =? 128)
       && (((128 <=? byte c) && (byte c <=? 138))
           || (byte c =? 168) || (byte c =? 169) || (byte c =? 175)))
   || ((byte a =? 226) && (byte b =? 129) && (byte c =? 159))
   || ((byte a =? 227) && (byte b =? 128) && (byte c =? 128))
   || ((byte a =? 239) && (byte b =? 187) && (byte c =? 191)))%nat.

(** Greedy [\s*]: the rest of the string after its leading white space. *)
Fixpoint skip_ws (s : string) : string :=
  match s with
  | EmptyString => s
  | String a r1 =>
      if ws1 a then skip_ws r1
      else
        match r1 with
        | EmptyString => s
        | String b r2 =>
            if ws2 a b then skip_ws r2
            else
              match r2 with
              | EmptyString => s
              | String c r3 => if ws3 a b c then skip_ws r3 else s
              end
        end
  end.

Definition fence : string := "```".

(** Lazy [([\s\S]*?)] followed by [\s*```]: the shortest prefix after
    which white space and a fence follow. *)
Fixpoint capture_until_fence (s : string) : option string :=
  if String.prefix fence (skip_ws s) then Some EmptyString
  else
    match s with
    | EmptyString => None
    | String c rest => option_map (String c) (capture_until_fence rest)
    end.

Fixpoint string_drop (n : nat) (s : string) : string :=
  match n, s with
  | O, _ => s
  | S n', String _ rest => string_drop n' rest
  | S _, EmptyString => EmptyString
  end.

(** A match that starts at the head of [s]; the result is group 1. *)
Definition match_fence_here (s : string) : option string :=
  if String.prefix "```xml" s
  then capture_until_fence (skip_ws (string_drop 6 s))
  else None.

(** The leftmost match anywhere in [s]. *)
Fixpoint match_xml_fence (s : string) : option string :=
  match match_fence_here s with
  | Some xml => Some xml
  | None =>
      match s with
      | EmptyString => None
      | String _ rest => match_xml_fence rest
      end
  end.

(** [content.match(...)]: only a string has a [match] method. *)
Definition content_match (content : value) : thrown + option string :=
  match content with
  | VStr s => inr (match_xml_fence s)
  | _ => inl (TypeError "content.match is not a function")
  end.

(** [choices?.[0]] *)
Definition opt_index0 (choices : value) : value :=
  match choices with
  | VArr items => hd VUndefined items
  | VObj props => own props "0"
  | VStr (String c _) => VStr (String c EmptyString)
  | _ => VUndefined
  end.

(** ** The handler *)

(** The block scope of the [try] body, as far as the handler's control
    flow depends on it, and the effects so far.  [enhancedMessages] is
    declared by [let] at line 202: it exists from the start of the block
    and holds no value until that line has run. *)
Record Scope : Type := {
  enhancedMessages : option (list ModelMessage);
  trace : list event
}.

Definition initial_scope : Scope :=
  {| enhancedMessages := None; trace := [] |}.

Definition Handler : Type -> Type := Exec Scope Response.

Definition emit (e : event) : Handler unit :=
  fun s =>
    (Normal tt, {| enhancedMessages := enhancedMessages s; trace := trace s ++ [e] |}).

(** A read of the variable: a [ReferenceError] before its declaration
    has been evaluated. *)
Definition read_enhancedMessages : Handler (list ModelMessage) :=
  fun s =>
    match enhancedMessages s with
    | Some ms => (Normal ms, s)
    | None =>
        (Throw (ReferenceError "Cannot access 'enhancedMessages' before initialization"), s)
    end.

(** The declaration and later assignments. *)
Definition assign_enhancedMessages (ms : list ModelMessage) : Handler unit :=
  fun s => (Normal tt, {| enhancedMessages := Some ms; trace := trace s |}).

Definition nl : string := String "010"%char EmptyString.

Local Open Scope exec_scope.

(** Lines 57-60: one entry of [siliconflowMessages]. *)
Definition siliconflow_message (msg : ModelMessage) : value :=
  VObj [("role", VStr (role msg));
        ("content",
         if is_string (content msg) then content msg
         else VStr (JSON_stringify w (content msg)))].

(** Lines 63-74: the request sent to SiliconFlow.  The template
    literal of the [Authorization] header converts [apiKey]. *)
Definition siliconflow_request (apiKey model : value) (enhanced : list ModelMessage)
  : thrown + FetchRequest :=
  match ToString apiKey with
  | inl e => inl e
  | inr token =>
      inr {| url := siliconflow_endpoint;
             method := "POST";
             headers := [("Authorization", "Bearer " ++ token);
                         ("Content-Type", "application/json")];
             body :=
               JSON_stringify w
                 (VObj [("model", or_else model (VStr "Qwen/Qwen2.5-72B-Instruct"));
                        ("messages", VArr (map siliconflow_message enhanced));
                        ("temperature", VNum 0%float)]) |}
  end.

(** Lines 92-102 and 105-115: the two-frame event stream. *)
Definition sse_response (payload : value) : Response :=
  Response_new
    ("data: " ++ JSON_stringify w payload ++ nl ++ nl ++ "data: [DONE]" ++ nl ++ nl)
    sse_headers.

(** Lines 54-115: the [case 'siliconflow'] clause.  Every path through
    it leaves the handler. *)
Definition siliconflow {A : Type} (apiKey model : value) : Handler A :=
  emit (console_log "SiliconFlow: Direct API call to chat/completions") ;;
  enhanced <- read_enhancedMessages ;;
  request <- lift (siliconflow_request apiKey model enhanced) ;;
  emit (fetch_call request) ;;
  siliconflowResponse <- lift (fetch w request) ;;
  if negb (ok siliconflowResponse) then
    errorData <- lift (json siliconflowResponse) ;;
    emit (console_error "SiliconFlow API error:") ;;
    error <- lift (get errorData "error") ;;
    message <- lift (ToString (or_else (opt_field error "message")
                                       (VStr (statusText siliconflowResponse)))) ;;
    return_
      (Response_json
         (VObj [("error", VStr ("SiliconFlow API错误: " ++ message))])
         (status siliconflowResponse))
  else
    result <- lift (json siliconflowResponse) ;;
    choices <- lift (get result "choices") ;;
    let content :=
      or_else (opt_field (opt_field (opt_index0 choices) "message") "content")
              (VStr EmptyString) in
    toolCallMatch <- lift (content_match content) ;;
    match toolCallMatch with
    | Some xml =>
        return_
          (sse_response
             (VObj [("type", VStr "text"); ("text", VStr xml);
                    ("tool", VStr "display_diagram")]))
    | None =>
        return_ (sse_response (VObj [("type", VStr "text"); ("text", content)]))
    end.


(** Lines 38-121: the [switch] over the provider.  It completes normally
    with [selectedModel], or leaves the handler. *)
Definition select_model (provider apiKey model : value) : Handler LanguageModel :=
  if strict_eq_str provider "openai" then
    ret (openai (or_else model (VStr "gpt-4")))
  else if strict_eq_str provider "openrouter" then
    ret (openrouter apiKey (or_else model (VStr "openai/gpt-4o")))
  else if strict_eq_str provider "google" then
    ret (googleProvider apiKey (or_else model (VStr "gemini-1.5-pro")))
  else if strict_eq_str provider "siliconflow" then
    siliconflow apiKey model
  else
    return_ unsupported_provider.

(** Lines 182-227: the context assembly.  It initialises
    [enhancedMessages] and rewrites its last entry.  The source reads
    [lastMessage.parts] at line 185 and again at line 188; the two reads
    yield the same value and the first one decides whether the read
    throws. *)
Definition assemble_context (messages xml : value) : Handler unit :=
  lastMessage <- lift (last_element messages) ;;
  parts <- lift (get lastMessage "parts") ;;
  text <- lift (find_text parts) ;;
  let lastMessageText := or_else text (VStr EmptyString) in
  fileParts <- lift (filter_files parts) ;;
  formatted <- lift (formattedTextContent xml lastMessageText) ;;
  modelMessages <- lift (convertToModelMessages w messages) ;;
  assign_enhancedMessages modelMessages ;;
  enhanced <- read_enhancedMessages ;;
  if (1 <=? length enhanced)%nat then
    match nth_error enhanced (length enhanced - 1) with
    | Some lastModelMessage =>
        if String.eqb (role lastModelMessage) "user" then
          assign_enhancedMessages
            (removelast enhanced
             ++ [with_content lastModelMessage
                   (VArr (contentParts formatted fileParts))])
        else ret tt
    | None => ret tt
    end
  else ret tt.

Definition declared_tools : list (string * Tool) :=
  [("display_diagram", display_diagram); ("edit_diagram", edit_diagram)].

(** Lines 229-291: the streaming call and the response built from it. *)
Definition respond (selectedModel : LanguageModel) : Handler Response :=
  emit (console_log "Enhanced messages:") ;;
  enhanced <- read_enhancedMessages ;;
  let args :=
    {| system := systemMessage;
       model := selectedModel;
       messages := enhanced;
       tools := declared_tools;
       temperature := 0 |} in
  emit (streamText_call args) ;;
  ret (toUIMessageStreamResponse args errorHandler).

(** Lines 23-291: the body of the [try] block. *)
Definition POST_try (req : Request) : Handler Response :=
  body <- lift (req_json req) ;;
  messages <- lift (get body "messages") ;;
  let xml := field body "xml" in
  let apiConfig := field body "apiConfig" in
  if negb (truthy apiConfig)
     || negb (truthy (field apiConfig "apiKey"))
     || negb (truthy (field apiConfig "provider"))
  then
    return_ config_missing
  else
    let provider := field apiConfig "provider" in
    let apiKey := field apiConfig "apiKey" in
    let model := field apiConfig "model" in
    selectedModel <- select_model provider apiKey model ;;
    assemble_context messages xml ;;
    respond selectedModel.

(** Lines 21-299: the handler.  It answers with a response and leaves
    the trace of its effects. *)
Definition POST (req : Request) : Response * list event :=
  match POST_try req initial_scope with
  | (Normal response, s) => (response, trace s)
  | (Return response, s) => (response, trace s)
  | (Throw error, s) =>
      (internal_server_error,
       (trace s ++ [console_error "Error in chat route:"])%list)
  end.

End Dynamic.

End Route.

(* ================================================================== *)
(** * The configuration store: [src/components/api-config-dialog.tsx] *)
(* ================================================================== *)

Module ApiConfigDialog.

Record ProviderInfo : Type := {
  id : string;
  name : string;
  models : list string;
  defaultModel : string;
  placeholder : string;
  apiUrl : string;
  modelsUrl : string;
  getModelsApi : option string
}.

Definition providers : list ProviderInfo :=
  [ {| id := "openai";
       name := "OpenAI";
       models := ["gpt-4"; "gpt-4-turbo"; "gpt-3.5-turbo"];
       defaultModel := "gpt-4";
       placeholder := "sk-...";
       apiUrl := "https://platform.openai.com/api-keys";
       modelsUrl := "https://platform.openai.com/docs/models";
       getModelsApi := None |};
    {| id := "openrouter";
       name := "OpenRouter";
       models := ["openai/gpt-4o"; "openai/gpt-4-turbo";
                  "anthropic/claude-3.5-sonnet"; "moonshotai/kimi-k2:free"];
       defaultModel := "openai/gpt-4o";
       placeholder := "sk-or-...";
       apiUrl := "https://openrouter.ai/keys";
       modelsUrl := "https://openrouter.ai/models";
       getModelsApi := Some "https://openrouter.ai/api/v1/models" |};
    {| id := "google";
       name := "Google Gemini";
       models := ["gemini-1.5-pro"; "gemini-1.5-flash"];
       defaultModel := "gemini-1.5-pro";
       placeholder := "AIza...";
       apiUrl := "https://aistudio.google.com/app/apikey";
       modelsUrl := "https://ai.google.dev/gemini-api/docs/models/gemini";
       getModelsApi := None |};
    {| id := "siliconflow";
       name := "SiliconFlow (硅基流动)";
       models := ["Qwen/Qwen2.5-72B-Instruct"; "Qwen/Qwen2.5-Coder-32B-Instruct";
                  "deepseek-chat"; "deepseek-coder"];
       defaultModel := "Qwen/Qwen2.5-72B-Instruct";
       placeholder := "sk-...";
       apiUrl := "https://cloud.siliconflow.cn/me/account/ak";
       modelsUrl := "https://docs.siliconflow.cn/cn/userguide/introduction";
       getModelsApi := Some "https://api.siliconflow.cn/v1/models" |} ].

(** [interface ApiConfig] *)
Record ApiConfig : Type := {
  provider : string;
  apiKey : string;
  model : option string
}.

(** The object a config is at run time; an absent [model] is no property. *)
Definition config_value (c : ApiConfig) : value :=
  VObj ([("provider", VStr (provider c)); ("apiKey", VStr (apiKey c))]
        ++ match model c with
           | Some m => [("model", VStr m)]
           | None => []
           end)%list.

(** The initial state of [config] (lines 84-88). *)
Definition default_config : ApiConfig :=
  {| provider := "openai"; apiKey := EmptyString; model := Some "gpt-4" |}.

(** What the browser supplies. *)
Record Browser : Type := {
  JSON_parse : string -> thrown + value;
  JSON_stringify : value -> string
}.

(** [localStorage]: keys with their strings. *)
Definition Storage : Type := list (string * string).

Fixpoint getItem (storage : Storage) (key : string) : option string :=
  match storage with
  | [] => None
  | (k, v) :: rest => if String.eqb k key then Some v else getItem rest key
  end.

Fixpoint setItem (storage : Storage) (key text : string) : Storage :=
  match storage with
  | [] => [(key, text)]
  | (k, v) :: rest =>
      if String.eqb k key then (k, text) :: rest else (k, v) :: setItem rest key text
  end.

Definition storage_key : string := "ai-draw-config".

(** [parsed.model = x]: reached only when [parsed] is an object. *)
Definition assign_model (parsed x : value) : thrown + value :=
  match parsed with
  | VObj props => inr (VObj (set_own props "model" x))
  | _ => inl (TypeError "Cannot create property 'model'")
  end.

(** [JSON.parse] reads back what [JSON.stringify] wrote for [v], a text
    that is not empty. *)
Definition round_trips (browser : Browser) (v : value) : Prop :=
  JSON_stringify browser v <> EmptyString
  /\ JSON_parse browser (JSON_stringify browser v) = inr v.

(** [cfg] with its [model] replaced. *)
Definition with_model (cfg : ApiConfig) (m : string) : ApiConfig :=
  {| provider := provider cfg; apiKey := apiKey cfg; model := Some m |}.

Section Store.

Variable browser : Browser.

(** Lines 100-108: the body of the [try] block; the result is the
    argument of [setConfig]. *)
Definition load_try (savedConfig : string) : thrown + value :=
  match JSON_parse browser savedConfig with
  | inl error => inl error
  | inr parsed =>
      match get parsed "model" with
      | inl error => inl error
      | inr m =>
          if negb (truthy m) then
            match find (fun p => strict_eq_str (field parsed "provider") (id p))
                       providers with
            | Some provider => assign_model parsed (VStr (defaultModel provider))
            | None => inr parsed
            end
          else inr parsed
      end
  end.

(** Lines 96-113: the mount effect.  The result is the [config] state
    after it and what it wrote with [console.error]. *)
Definition load (storage : Storage) : value * list (string * thrown) :=
  match getItem storage storage_key with
  | None => (config_value default_config, [])
  | Some EmptyString => (config_value default_config, [])
  | Some savedConfig =>
      match load_try savedConfig with
      | inr parsed => (parsed, [])
      | inl error =>
          (config_value default_config, [("Failed to parse saved config:", error)])
      end
  end.

(** Lines 166-172: [handleSave] writes the config; the page reload that
    follows mounts the dialog again. *)
Definition handleSave (config : value) (storage : Storage) : Storage :=
  setItem storage storage_key (JSON_stringify browser config).

End Store.

End ApiConfigDialog.

(* ================================================================== *)
(** * A test platform *)
(* ================================================================== *)

(** A concrete runtime for the examples: JSON texts over null, booleans,
    integral numbers, strings, arrays and objects, a message conversion
    that keeps roles and parts, and an upstream that answers every
    [fetch] with one prepared response. *)
Module Mock.

Import Route.

Definition bs : string := String "092"%char EmptyString.

Definition hex (n : nat) : string :=
  String (ascii_of_nat (if (n <? 10)%nat then 48 + n else 87 + n)) EmptyString.

Definition escape (c : ascii) : string :=
  let n := nat_of_ascii c in
  if (n =? 34)%nat then bs ++ dq
  else if (n =? 92)%nat then bs ++ bs
  else if (n =? 8)%nat then bs ++ "b"
  else if (n =? 9)%nat then bs ++ "t"
  else if (n =? 10)%nat then bs ++ "n"
  else if (n =? 12)%nat then bs ++ "f"
  else if (n =? 13)%nat then bs ++ "r"
  else if (n <? 32)%nat then bs ++ "u00" ++ hex (n / 16) ++ hex (n mod 16)
  else String c EmptyString.

Fixpoint escape_string (s : string) : string :=
  match s with
  | EmptyString => EmptyString
  | String c rest => escape c ++ escape_string rest
  end.

Definition quote (s : string) : string := dq ++ escape_string s ++ dq.

(** Decimal text of a number; a fraction prints as its integral part. *)
Definition number_text (n : float) : string :=
  match Prim2SF n with
  | S754_zero _ => "0"
  | S754_infinity _ => "null"
  | S754_nan => "null"
  | S754_finite negative m e =>
      let z := if (0 <=? e)%Z then (Zpos m * 2 ^ e)%Z else (Zpos m / 2 ^ (- e))%Z in
      (if negative then "-" else EmptyString)
      ++ NilEmpty.string_of_uint (N.to_uint (Z.to_N z))
  end.

Fixpoint stringify (v : value) : string :=
  match v with
  | VUndefined | VNull => "null"
  | VBool true => "true"
  | VBool false => "false"
  | VNum n => number_text n
  | VStr s => quote s
  | VArr items => "[" ++ String.concat "," (map stringify items) ++ "]"
  | VObj props =>
      "{"
      ++ String.concat ","
           ((fix members (ps : list (string * value)) : list string :=
               match ps with
               | [] => []
               | (_, VUndefined) :: rest => members rest
               | (k, x) :: rest => (quote k ++ ":" ++ stringify x) :: members rest
               end) props)
      ++ "}"
  end.

Definition is_char (c : ascii) (n : nat) : bool := (nat_of_ascii c =? n)%nat.

Fixpoint skip_blank (s : string) : string :=
  match s with
  | String c rest =>
      if is_char c 32 || is_char c 9 || is_char c 10 || is_char c 13
      then skip_blank rest else s
  | EmptyString => s
  end.

Definition hex_value (c : ascii) : option nat :=
  let n := nat_of_ascii c in
  if ((48 <=? n) && (n <=? 57))%nat then Some (n - 48)
  else if ((97 <=? n) && (n <=? 102))%nat then Some (n - 87)
  else if ((65 <=? n) && (n <=? 70))%nat then Some (n - 55)
  else None.

(** The rest of a string literal after its opening quote. *)
Fixpoint parse_string (s : string) : option (string * string) :=
  match s with
  | EmptyString => None
  | String c rest =>
      if is_char c 34 then Some (EmptyString, rest)
      else if is_char c 92 then
        match rest with
        | String e rest' =>
            let plain (x : nat) :=
              option_map (fun r => (String (ascii_of_nat x) (fst r), snd r))
                         (parse_string rest') in
            if is_char e 34 then plain 34
            else if is_char e 92 then plain 92
            else if is_char e 47 then plain 47
            else if is_char e 98 then plain 8
            else if is_char e 116 then plain 9
            else if is_char e 110 then plain 10
            else if is_char e 102 then plain 12
            else if is_char e 114 then plain 13
            else if is_char e 117 then
              match rest' with
              | String h1 (String h2 (String h3 (String h4 rest''))) =>
                  match hex_value h1, hex_value h2, hex_value h3, hex_value h4 with
                  | Some 0, Some 0, Some a, Some b =>
                      if (a <? 8)%nat then
                        option_map
                          (fun r => (String (ascii_of_nat (16 * a + b)) (fst r), snd r))
                          (parse_string rest'')
                      else None
                  | _, _, _, _ => None
                  end
              | _ => None
              end
            else None
        | EmptyString => None
        end
      else if (nat_of_ascii c <? 32)%nat then None
      else option_map (fun r => (String c (fst r), snd r)) (parse_string rest)
  end.

Definition is_digit (c : ascii) : bool :=
  ((48 <=? nat_of_ascii c) && (nat_of_ascii c <=? 57))%nat.

Fixpoint parse_digits (acc : Z) (s : string) : Z * string :=
  match s with
  | String c rest =>
      if is_digit c
      then parse_digits (10 * acc + Z.of_nat (nat_of_ascii c - 48))%Z rest
      else (acc, s)
  | EmptyString => (acc, s)
  end.

Fixpoint parse_value (fuel : nat) (s : string) : option (value * string) :=
  match fuel with
  | O => None
  | S fuel' =>
      match skip_blank s with
      | EmptyString => None
      | String c rest as s' =>
          if is_char c 123 then
            match skip_blank rest with
            | String c' rest' =>
                if is_char c' 125 then Some (VObj [], rest')
                else option_map (fun r => (VObj (fst r), snd r))
                                (parse_members fuel' rest)
            | EmptyString => None
            end
          else if is_char c 91 then
            match skip_blank rest with
            | String c' rest' =>
                if is_char c' 93 then Some (VArr [], rest')
                else option_map (fun r => (VArr (fst r), snd r))
                                (parse_elements fuel' rest)
            | EmptyString => None
            end
          else if is_char c 34 then
            option_map (fun r => (VStr (fst r), snd r)) (parse_string rest)
          else if String.prefix "true" s' then Some (VBool true, string_drop 4 s')
          else if String.prefix "false" s' then Some (VBool false, string_drop 5 s')
          else if String.prefix "null" s' then Some (VNull, string_drop 4 s')
          else if is_digit c then
            let '(z, rest') := parse_digits 0 s' in
            Some (VNum (PrimFloat.of_uint63 (Uint63.of_Z z)), rest')
          else None
      end
  end

with parse_members (fuel : nat) (s : string) : option (list (string * value) * string) :=
  match fuel with
  | O => None
  | S fuel' =>
      match skip_blank s with
      | String c rest =>
          if is_char c 34 then
            match parse_string rest with
            | Some (key, after_key) =>
                match skip_blank after_key with
                | String colon after_colon =>
                    if is_char colon 58 then
                      match parse_value fuel' after_colon with
                      | Some (x, after_value) =>
                          match skip_blank after_value with
                          | String sep after_sep =>
                              if is_char sep 125 then Some ([(key, x)], after_sep)
                              else if is_char sep 44 then
                                option_map (fun r => ((key, x) :: fst r, snd r))
                                           (parse_members fuel' after_sep)
                              else None
                          | EmptyString => None
                          end
                      | None => None
                      end
                    else None
                | EmptyString => None
                end
            | None => None
            end
          else None
      | EmptyString => None
      end
  end

with parse_elements (fuel : nat) (s : string) : option (list value * string) :=
  match fuel with
  | O => None
  | S fuel' =>
      match parse_value fuel' s with
      | Some (x, after_value) =>
          match skip_blank after_value with
          | String sep after_sep =>
              if is_char sep 93 then Some ([x], after_sep)
              else if is_char sep 44 then
                option_map (fun r => (x :: fst r, snd r)) (parse_elements fuel' after_sep)
              else None
          | EmptyString => None
          end
      | None => None
      end
  end.

Definition parse (text : string) : thrown + value :=
  match parse_value (2 * String.length text + 2) text with
  | Some (v, rest) =>
      match skip_blank rest with
      | EmptyString => inr v
      | String _ _ => inl (SyntaxError "Unexpected non-whitespace character after JSON")
      end
  | None => inl (SyntaxError "Unexpected token in JSON")
  end.

Definition browser : ApiConfigDialog.Browser :=
  {| ApiConfigDialog.JSON_parse := parse;
     ApiConfigDialog.JSON_stringify := stringify |}.

(** A conversion that keeps each message's role and takes its parts as
    the content. *)
Definition convert (messages : value) : thrown + list ModelMessage :=
  match messages with
  | VArr items =>
      inr (map (fun m =>
                  {| role := match field m "role" with
                             | VStr r => r
                             | _ => EmptyString
                             end;
                     content := field m "parts";
                     others := [] |})
               items)
  | _ => inl (TypeError "messages.map is not a function")
  end.

(** The platform whose upstream answers every [fetch] with [upstream]. *)
Definition platform (upstream : thrown + FetchResponse) : Platform :=
  {| JSON_stringify := stringify;
     Number_toString := number_text;
     convertToModelMessages := convert;
     fetch := fun _ => upstream;
     index_by_length := fun _ => VUndefined |}.

(** An upstream that is down. *)
Definition offline : thrown + FetchResponse :=
  inl (TypeError "fetch failed").

(** The body of a chat request. *)
Definition chat_body (messages : list value) (xml : string) (apiConfig : value)
  : value :=
  VObj [("messages", VArr messages);
        ("xml", VStr xml);
        ("apiConfig", apiConfig)].

Definition api_config (provider apiKey : string) : value :=
  VObj [("provider", VStr provider); ("apiKey", VStr apiKey)].

(** A user message as the chat UI posts it: a step marker, a text and
    an image. *)
Definition hello : value :=
  VObj [("id", VStr "m1");
        ("role", VStr "user");
        ("parts",
         VArr [VObj [("type", VStr "step-start")];
               VObj [("type", VStr "text"); ("text", VStr "Draw a cat")];
               VObj [("type", VStr "file");
                     ("mediaType", VStr "image/png");
                     ("url", VStr "data:image/png;base64,AAAA")]])].

(** The same message with its parts written in another order of keys
    and with keys the handler does not read. *)
Definition hello_again : value :=
  VObj [("parts",
         VArr [VObj [("text", VStr "Draw a cat"); ("state", VStr "done");
                     ("type", VStr "text")];
               VObj [("url", VStr "data:image/png;base64,AAAA");
                     ("filename", VStr "cat.png");
                     ("type", VStr "file");
                     ("mediaType", VStr "image/png")]]);
        ("metadata", VNull);
        ("role", VStr "user");
        ("id", VStr "m1")].

(** A user message one of whose parts is [null]. *)
Definition torn : value :=
  VObj [("id", VStr "m1");
        ("role", VStr "user");
        ("parts",
         VArr [VObj [("type", VStr "text"); ("text", VStr "Draw a cat")]; VNull])].

(** An assistant message. *)
Definition done : value :=
  VObj [("id", VStr "m2");
        ("role", VStr "assistant");
        ("parts", VArr [VObj [("type", VStr "text"); ("text", VStr "Done.")]])].

Definition request (body : value) : Request := {| req_json := inr body |}.

(** A request whose API key is empty. *)
Definition request_without_key : Request :=
  request (chat_body [hello] "<root/>" (api_config "openai" EmptyString)).

(** A request for a provider the handler does not know. *)
Definition request_for_unknown : Request :=
  request (chat_body [hello] "<root/>" (api_config "anthropic" "sk-test")).

(** A request for SiliconFlow. *)
Definition request_for_siliconflow : Request :=
  request (chat_body [hello] "<root/>" (api_config "siliconflow" "sk-test")).

(** A request for OpenAI, no model configured. *)
Definition request_for_openai : Request :=
  request (chat_body [hello] "<root/>" (api_config "openai" "sk-test")).

(** A request whose body is the JSON text [null]. *)
Definition request_null : Request := request VNull.

(** A chat completion whose first choice carries [content]. *)
Definition completion_of (content : string) : value :=
  VObj [("choices",
         VArr [VObj [("message",
                      VObj [("role", VStr "assistant");
                            ("content", VStr content)])]])].

Definition upstream_ok (content : string) : thrown + FetchResponse :=
  inr {| status := 200; statusText := "OK"; json := inr (completion_of content) |}.

Definition upstream_error (code : Z) (reason message : string)
  : thrown + FetchResponse :=
  inr {| status := code;
         statusText := reason;
         json := inr (VObj [("error", VObj [("message", VStr message)])]) |}.

(** Configs for the examples. *)
Definition gemini_without_model : ApiConfigDialog.ApiConfig :=
  {| ApiConfigDialog.provider := "google";
     ApiConfigDialog.apiKey := "AIza-test";
     ApiConfigDialog.model := None |}.

Definition openai_with_empty_model : ApiConfigDialog.ApiConfig :=
  {| ApiConfigDialog.provider := "openai";
     ApiConfigDialog.apiKey := "sk-test";
     ApiConfigDialog.model := Some EmptyString |}.

(** The reply of the spec's example: a fenced block labelled [xml]. *)
Definition fenced_reply : string :=
  "```xml" ++ nl ++ "<root/>" ++ nl ++ "```".

End Mock.

(* ================================================================== *)
(** * The form of the dialog: [src/components/api-config-dialog.tsx] *)
(* ================================================================== *)

(** The rest of the component: the provider buttons, the model list
    with its remote fetch and its search box, and the Save button.  The
    keys read here ([data], [id], [name], [description],
    [context_length], [pricing]) are defined on no prototype of a JSON
    value either.  [fetchModels] is asynchronous; it is modelled as one
    step, from the state it was called in to the state its updates
    leave, with the effects in program order. *)
Module ConfigForm.

(** [interface ModelInfo], with the fields as the fetch fills them. *)
Record ModelInfo : Type := {
  id : value;
  name : value;
  description : value;
  context_length : value;
  pricing : value
}.

(** The component's state (lines 83-93). *)
Record State : Type := {
  isOpen : bool;
  config : value;
  availableModels : list ModelInfo;
  isLoadingModels : bool;
  modelSearchQuery : string
}.

(** What a handler does besides returning the next state; [alert]
    carries the key handed to the translation function [t]. *)
Inductive effect : Type :=
| setIsLoadingModels (loading : bool)
| fetch_call (request : Route.FetchRequest)
| console_error (label : string) (error : thrown)
| alert (key : string).

(** What the browser supplies to the form. *)
Record Runtime : Type := {
  (** the network behind [fetch] *)
  fetch : Route.FetchRequest -> thrown + Route.FetchResponse;
  (** ToString, as a template literal applies it to a value that is
      no string *)
  ToString : value -> thrown + string;
  (** [String.prototype.toLowerCase] *)
  toLowerCase : string -> string;
  (** the own properties [{...s}] copies from a string [s] *)
  string_entries : string -> list (string * value)
}.

(** [s.includes(sub)] *)
Fixpoint includes (s sub : string) : bool :=
  String.prefix sub s
  || match s with
     | EmptyString => false
     | String _ rest => includes rest sub
     end.

(** The end of [s.trim()]: a string that is white space only is
    dropped, anything else keeps its first byte. *)
Fixpoint trim_end (s : string) : string :=
  match Route.skip_ws s with
  | EmptyString => EmptyString
  | String _ _ =>
      match s with
      | EmptyString => EmptyString
      | String c rest => String c (trim_end rest)
      end
  end.

(** [s.trim()] *)
Definition trim (s : string) : string := trim_end (Route.skip_ws s).

(** The own properties [{...items}] copies from an array. *)
Fixpoint array_entries (index : nat) (items : list value) : list (string * value) :=
  match items with
  | [] => []
  | x :: rest =>
      (NilEmpty.string_of_uint (Nat.to_uint index), x) :: array_entries (S index) rest
  end.

(** [setX(v)] on the state. *)
Definition with_config (st : State) (c : value) : State :=
  {| isOpen := isOpen st; config := c; availableModels := availableModels st;
     isLoadingModels := isLoadingModels st; modelSearchQuery := modelSearchQuery st |}.

Definition with_availableModels (st : State) (ms : list ModelInfo) : State :=
  {| isOpen := isOpen st; config := config st; availableModels := ms;
     isLoadingModels := isLoadingModels st; modelSearchQuery := modelSearchQuery st |}.

Definition with_isLoadingModels (st : State) (loading : bool) : State :=
  {| isOpen := isOpen st; config := config st; availableModels := availableModels st;
     isLoadingModels := loading; modelSearchQuery := modelSearchQuery st |}.

(** Line 115: [providers.find(p => p.id === config.provider)] *)
Definition selectedProvider (config : value) : option ApiConfigDialog.ProviderInfo :=
  find (fun p => strict_eq_str (field config "provider") (ApiConfigDialog.id p))
       ApiConfigDialog.providers.

(** Lines 138-144: one entry of [data.data.map(...)]. *)
Definition model_info (model : value) : thrown + ModelInfo :=
  match get model "id" with
  | inl error => inl error
  | inr model_id =>
      inr {| id := model_id;
             name := or_else (field model "name") (field model "id");
             description := field model "description";
             context_length := field model "context_length";
             pricing := field model "pricing" |}
  end.

Fixpoint map_model_info (items : list value) : thrown + list ModelInfo :=
  match items with
  | [] => inr []
  | model :: rest =>
      match model_info model with
      | inl error => inl error
      | inr info =>
          match map_model_info rest with
          | inl error => inl error
          | inr infos => inr (info :: infos)
          end
      end
  end.

(** Lines 138-144: [data.data?.map(...) || []]; only an array has a
    [map] method. *)
Definition models_of (data : value) : thrown + list ModelInfo :=
  match get data "data" with
  | inl error => inl error
  | inr VUndefined | inr VNull => inr []
  | inr (VArr items) => map_model_info items
  | inr _ => inl (TypeError "data.data.map is not a function")
  end.

Section Form.

Variable rt : Runtime.

(** A template literal's hole. *)
Definition interpolate (v : value) : thrown + string :=
  match v with
  | VStr s => inr s
  | _ => ToString rt v
  end.

(** Lines 126-131: the request for the model list, given the text of
    the key. *)
Definition models_request (api token : string) : Route.FetchRequest :=
  {| Route.url := api;
     Route.method := "GET";
     Route.headers := [("Authorization", "Bearer " ++ token);
                       ("Content-Type", "application/json")];
     Route.body := EmptyString |}.

(** Lines 126-146: the [try] block from the call of [fetch], up to the
    argument of [setAvailableModels]. *)
Definition fetchModels_try (request : Route.FetchRequest) : thrown + list ModelInfo :=
  match fetch rt request with
  | inl error => inl error
  | inr response =>
      if negb (Route.ok response) then
        inl (Error "Error" ("Failed to fetch models: " ++ Route.statusText response))
      else
        match Route.json response with
        | inl error => inl error
        | inr data => models_of data
        end
  end.

(** What the [catch] and the [finally] leave. *)
Definition fetchModels_failed (st : State) (sent : list effect) (error : thrown)
  : State * list effect :=
  (with_isLoadingModels st false,
   [setIsLoadingModels true] ++ sent
   ++ [console_error "Error fetching models:" error;
       alert "message.fetchModelsError";
       setIsLoadingModels false])%list.

(** Lines 118-153: [fetchModels].  The headers are built, and the key
    converted, before [fetch] is called. *)
Definition fetchModels (st : State) : State * list effect :=
  match selectedProvider (config st) with
  | Some {| ApiConfigDialog.getModelsApi := Some (String c api') |} =>
      let api := String c api' in
      match interpolate (field (config st) "apiKey") with
      | inl error => fetchModels_failed st [] error
      | inr token =>
          let request := models_request api token in
          match fetchModels_try request with
          | inr models =>
              (with_isLoadingModels (with_availableModels st models) false,
               [setIsLoadingModels true; fetch_call request; setIsLoadingModels false])
          | inl error => fetchModels_failed st [fetch_call request] error
          end
      end
  | _ => (st, [alert "message.fetchModelsUnsupported"])
  end.

(** [text.toLowerCase().includes(query.toLowerCase())]: only a string
    has a [toLowerCase] method. *)
Definition lower_includes (text : value) (query : string) : thrown + bool :=
  match text with
  | VStr s => inr (includes (toLowerCase rt s) (toLowerCase rt query))
  | VUndefined | VNull =>
      inl (TypeError "Cannot read properties of null or undefined: toLowerCase")
  | _ => inl (TypeError "toLowerCase is not a function")
  end.

(** Lines 157-158: the predicate of the filter. *)
Definition matches (query : string) (model : ModelInfo) : thrown + bool :=
  match lower_includes (name model) query with
  | inl error => inl error
  | inr true => inr true
  | inr false =>
      if nullish (description model) then inr false
      else lower_includes (description model) query
  end.

(** Lines 156-159: [filteredModels]. *)
Fixpoint filteredModels (query : string) (models : list ModelInfo)
  : thrown + list ModelInfo :=
  match models with
  | [] => inr []
  | model :: rest =>
      match matches query model with
      | inl error => inl error
      | inr keep =>
          match filteredModels query rest with
          | inl error => inl error
          | inr kept => inr (if keep then model :: kept else kept)
          end
      end
  end.

(** What the filter keeps when every name is a string and every
    description a string or absent: [text] is a string that contains
    the query, both in lower case. *)
Definition mentions (query : string) (text : value) : bool :=
  match text with
  | VStr s => includes (toLowerCase rt s) (toLowerCase rt query)
  | _ => false
  end.

(** Lines 156-164: [displayModels], as one render computes it. *)
Definition displayModels (st : State) : thrown + list value :=
  match filteredModels (modelSearchQuery st) (availableModels st) with
  | inl error => inl error
  | inr filtered =>
      inr (if (0 <? length (availableModels st))%nat then map id filtered
           else match selectedProvider (config st) with
                | Some provider => map VStr (ApiConfigDialog.models provider)
                | None => []
                end)
  end.

(** What [{...config}] copies. *)
Definition spread (config : value) : list (string * value) :=
  match config with
  | VObj props => props
  | VArr items => array_entries 0 items
  | VStr s => string_entries rt s
  | _ => []
  end.

(** Lines 174-183: [handleProviderChange]. *)
Definition handleProviderChange (st : State) (providerId : string) : State :=
  match find (fun p => String.eqb (ApiConfigDialog.id p) providerId)
             ApiConfigDialog.providers with
  | Some provider =>
      with_config st
        (VObj (set_own (set_own (spread (config st)) "provider" (VStr providerId))
                       "model" (VStr (ApiConfigDialog.defaultModel provider))))
  | None => st
  end.

(** Line 234: the [onChange] of the key input. *)
Definition handleApiKeyChange (st : State) (text : string) : State :=
  with_config st (VObj (set_own (spread (config st)) "apiKey" (VStr text))).

(** Line 306: the [onChange] of the model select. *)
Definition handleModelChange (st : State) (text : string) : State :=
  with_config st (VObj (set_own (spread (config st)) "model" (VStr text))).

End Form.

(** Line 322: [!config.apiKey.trim()], the [disabled] of the Save
    button; only a string has a [trim] method. *)
Definition save_disabled (config : value) : thrown + bool :=
  match field config "apiKey" with
  | VStr key =>
      inr match trim key with
          | EmptyString => true
          | String _ _ => false
          end
  | VUndefined | VNull =>
      inl (TypeError "Cannot read properties of null or undefined: trim")
  | _ => inl (TypeError "config.apiKey.trim is not a function")
  end.


(** The state the component starts with. *)
Definition initial_state : State :=
  {| isOpen := false;
     config := ApiConfigDialog.config_value ApiConfigDialog.default_config;
     availableModels := [];
     isLoadingModels := false;
     modelSearchQuery := EmptyString |}.

End ConfigForm.

(* ================================================================== *)
(** * A test browser for the form *)
(* ================================================================== *)

(** Lower case and string spreading over ASCII, a network with one
    canned answer, and sample states. *)
Module FormMock.

Definition lower (c : ascii) : ascii :=
  let n := nat_of_ascii c in
  if ((65 <=? n) && (n <=? 90))%nat then ascii_of_nat (n + 32) else c.

Fixpoint toLowerCase (s : string) : string :=
  match s with
  | EmptyString => EmptyString
  | String c rest => String (lower c) (toLowerCase rest)
  end.

Fixpoint string_entries (index : nat) (s : string) : list (string * value) :=
  match s with
  | EmptyString => []
  | String c rest =>
      (NilEmpty.string_of_uint (Nat.to_uint index), VStr (String c EmptyString))
        :: string_entries (S index) rest
  end.

(** The browser whose network answers every [fetch] with [network]. *)
Definition runtime (network : thrown + Route.FetchResponse) : ConfigForm.Runtime :=
  {| ConfigForm.fetch := fun _ => network;
     ConfigForm.ToString := Route.ToString (Mock.platform Mock.offline);
     ConfigForm.toLowerCase := toLowerCase;
     ConfigForm.string_entries := string_entries 0 |}.

(** Entries of the provider table. *)
Definition no_provider : ApiConfigDialog.ProviderInfo :=
  {| ApiConfigDialog.id := EmptyString;
     ApiConfigDialog.name := EmptyString;
     ApiConfigDialog.models := [];
     ApiConfigDialog.defaultModel := EmptyString;
     ApiConfigDialog.placeholder := EmptyString;
     ApiConfigDialog.apiUrl := EmptyString;
     ApiConfigDialog.modelsUrl := EmptyString;
     ApiConfigDialog.getModelsApi := None |}.

Definition openai_entry : ApiConfigDialog.ProviderInfo :=
  nth 0 ApiConfigDialog.providers no_provider.

Definition openrouter_entry : ApiConfigDialog.ProviderInfo :=
  nth 1 ApiConfigDialog.providers no_provider.

Definition google_entry : ApiConfigDialog.ProviderInfo :=
  nth 2 ApiConfigDialog.providers no_provider.

Definition siliconflow_entry : ApiConfigDialog.ProviderInfo :=
  nth 3 ApiConfigDialog.providers no_provider.

(** The dialog after the user has typed [key] for [provider]. *)
Definition state_for (provider key model : string) : ConfigForm.State :=
  {| ConfigForm.isOpen := true;
     ConfigForm.config :=
       VObj [("provider", VStr provider); ("apiKey", VStr key); ("model", VStr model)];
     ConfigForm.availableModels := [];
     ConfigForm.isLoadingModels := false;
     ConfigForm.modelSearchQuery := EmptyString |}.

(** A config whose key is an object with a [toString] property of its
    own, as a stored text can hold one. *)
Definition odd_key : ConfigForm.State :=
  {| ConfigForm.isOpen := true;
     ConfigForm.config :=
       VObj [("provider", VStr "siliconflow");
             ("apiKey", VObj [("toString", VNum 1%float)]);
             ("model", VStr "deepseek-chat")];
     ConfigForm.availableModels := [];
     ConfigForm.isLoadingModels := false;
     ConfigForm.modelSearchQuery := EmptyString |}.

Definition qwen : value :=
  VObj [("id", VStr "Qwen/Qwen2.5-72B-Instruct");
        ("name", VStr "Qwen 2.5 72B");
        ("description", VStr "Instruction tuned chat model")].

Definition deepseek : value := VObj [("id", VStr "deepseek-chat")].

Definition nameless : value := VObj [("object", VStr "model")].

Definition reply (data : value) : thrown + Route.FetchResponse :=
  inr {| Route.status := 200; Route.statusText := "OK"; Route.json := inr data |}.

Definition models_reply : thrown + Route.FetchResponse :=
  reply (VObj [("data", VArr [qwen; deepseek])]).

Definition unauthorized : thrown + Route.FetchResponse :=
  inr {| Route.status := 401;
         Route.statusText := "Unauthorized";
         Route.json := inr (VObj [("error", VStr "bad key")]) |}.

(** Two fetched entries, as [fetchModels] stores them. *)
Definition fetched : list ConfigForm.ModelInfo :=
  [ {| ConfigForm.id := VStr "Qwen/Qwen2.5-72B-Instruct";
       ConfigForm.name := VStr "Qwen 2.5 72B";
       ConfigForm.description := VStr "Instruction tuned chat model";
       ConfigForm.context_length := VUndefined;
       ConfigForm.pricing := VUndefined |};
    {| ConfigForm.id := VStr "deepseek-chat";
       ConfigForm.name := VStr "deepseek-chat";
       ConfigForm.description := VUndefined;
       ConfigForm.context_length := VUndefined;
       ConfigForm.pricing := VUndefined |} ].

End FormMock.

(* ================================================================== *)
(** * Proof automation *)
(* ================================================================== *)

(** Closes a goal about the upstream calls in the trace of a finished
    run of the SiliconFlow clause. *)
Ltac only_fetch :=
  unfold return_, throw, ret; cbn [fst snd Route.trace];
  unfold Route.upstream_calls;
  rewrite ?filter_app; cbn [filter Route.is_upstream];
  rewrite ?app_nil_r; reflexivity.

(* ================================================================== *)
(** * Properties of the chat proxy *)
(* ================================================================== *)

Import Route.

(** ** Running the monad *)

Lemma bind_normal {S R A B} (m : Exec S R A) (k : A -> Exec S R B) s a s' :
  m s = (Normal a, s') -> bind m k s = k a s'.
Proof. intros H; unfold bind; now rewrite H. Qed.

Lemma bind_return {S R A B} (m : Exec S R A) (k : A -> Exec S R B) s r s' :
  m s = (Return r, s') -> bind m k s = (Return r, s').
Proof. intros H; unfold bind; now rewrite H. Qed.

Lemma bind_throw {S R A B} (m : Exec S R A) (k : A -> Exec S R B) s e s' :
  m s = (Throw e, s') -> bind m k s = (Throw e, s').
Proof. intros H; unfold bind; now rewrite H. Qed.

Lemma get_not_nullish v key : nullish v = false -> get v key = inr (field v key).
Proof. intros H; unfold get; now rewrite H. Qed.

(** A value some property of which is truthy is an object. *)
Lemma truthy_field_object v key :
  truthy (field v key) = true -> exists props, v = VObj props.
Proof. destruct v; simpl; try discriminate; eauto. Qed.

(** The request is read, and the validation is reached, whenever the
    body is not [null]. *)
Lemma POST_try_validation (w : Platform) (body : value) (s : Scope) :
  nullish body = false ->
  truthy (field body "apiConfig")
  && truthy (field (field body "apiConfig") "apiKey")
  && truthy (field (field body "apiConfig") "provider") = false ->
  POST_try w {| req_json := inr body |} s = (Return config_missing, s).
Proof.
  intros Hbody Hcfg.
  unfold POST_try; cbn [req_json lift bind ret].
  rewrite get_not_nullish by exact Hbody.
  cbn [lift bind ret].
  rewrite <- !negb_andb, Hcfg.
  reflexivity.
Qed.

(** C1, as the code has it.  A request whose body is a JSON value
    other than [null] and has no [apiConfig], or whose
    [apiConfig.apiKey] or [apiConfig.provider] is absent or empty (any
    falsy value), is answered with status 400 and a JSON body with an
    [error] field, and the handler has no effect at all: no upstream call
    is made.  The body is what [req.json()] produced. *)
Theorem POST_rejects_missing_config (w : Platform) (body : value) :
  nullish body = false ->
  truthy (field body "apiConfig") = false
  \/ truthy (field (field body "apiConfig") "apiKey") = false
  \/ truthy (field (field body "apiConfig") "provider") = false ->
  error_response (fst (POST w {| req_json := inr body |})) 400
                 "API 配置缺失，请先配置 AI 提供商"
  /\ upstream_calls (snd (POST w {| req_json := inr body |})) = []
  /\ snd (POST w {| req_json := inr body |}) = [].
Proof.
  intros Hbody Hmissing.
  unfold POST.
  rewrite POST_try_validation; trivial.
  - repeat split.
  - destruct Hmissing as [H | [H | H]]; rewrite H;
      rewrite ?andb_false_r; reflexivity.
Qed.

Lemma POST_rejects_missing_config_witness :
  error_response (fst (POST (Mock.platform Mock.offline) Mock.request_without_key))
                 400 "API 配置缺失，请先配置 AI 提供商"
  /\ upstream_calls (snd (POST (Mock.platform Mock.offline) Mock.request_without_key)) = []
  /\ snd (POST (Mock.platform Mock.offline) Mock.request_without_key) = [].
Proof.
  apply POST_rejects_missing_config.
  - reflexivity.
  - right; left; reflexivity.
Defined.

(** C1 as stated fails on two bodies that lack [apiConfig]: the JSON
    text [null], and a body that is no JSON.  The destructuring at line
    23 throws
    before the validation is reached, and the answer is the fixed 500
    with a line on the console, not a 400. *)
Lemma POST_rejects_missing_config_counterexample :
  (POST (Mock.platform Mock.offline) Mock.request_null
   = (internal_server_error, [console_error "Error in chat route:"])
   /\ status_of (fst (POST (Mock.platform Mock.offline) Mock.request_null)) <> 400%Z
   /\ snd (POST (Mock.platform Mock.offline) Mock.request_null) <> [])
  /\ (POST (Mock.platform Mock.offline)
           {| req_json := inl (SyntaxError "Unexpected end of JSON input") |}
      = (internal_server_error, [console_error "Error in chat route:"])
      /\ status_of
           (fst (POST (Mock.platform Mock.offline)
                   {| req_json := inl (SyntaxError "Unexpected end of JSON input") |}))
         <> 400%Z).
Proof.
  repeat split; discriminate.
Qed.

(** ** Provider binding *)

Lemma strict_eq_str_true v lit : strict_eq_str v lit = true <-> v = VStr lit.
Proof.
  destruct v; simpl; split; try discriminate.
  - intros H; apply String.eqb_eq in H; now subst.
  - intros H; injection H as ->; apply String.eqb_refl.
Qed.

Lemma strict_eq_str_false v lit : v <> VStr lit -> strict_eq_str v lit = false.
Proof.
  intros H; destruct (strict_eq_str v lit) eqn:E; trivial.
  apply strict_eq_str_true in E; contradiction.
Qed.

(** Past the validation the handler runs the [switch]. *)
Lemma POST_try_validated (w : Platform) (body : value) (s : Scope) :
  truthy (field (field body "apiConfig") "apiKey") = true ->
  truthy (field (field body "apiConfig") "provider") = true ->
  POST_try w {| req_json := inr body |} s
  = bind (select_model w (field (field body "apiConfig") "provider")
                         (field (field body "apiConfig") "apiKey")
                         (field (field body "apiConfig") "model"))
         (fun selectedModel =>
            bind (assemble_context w (field body "messages") (field body "xml"))
                 (fun _ => respond w selectedModel))
         s.
Proof.
  intros Hkey Hprovider.
  destruct (truthy_field_object _ _ Hkey) as [cfg Hcfg].
  assert (Hconfig : truthy (field body "apiConfig") = true) by now rewrite Hcfg.
  destruct (truthy_field_object _ _ Hconfig) as [props ->].
  unfold POST_try; cbn [req_json lift bind ret get nullish].
  cbn [lift bind ret].
  rewrite Hconfig, Hkey, Hprovider.
  reflexivity.
Qed.

(** The four providers the [switch] knows. *)
Lemma select_model_default (w : Platform) (provider apiKey model : value) (s : Scope) :
  ~ In provider (map VStr ["openai"; "openrouter"; "google"; "siliconflow"]) ->
  select_model w provider apiKey model s = (Return unsupported_provider, s).
Proof.
  intros Hnot.
  unfold select_model.
  rewrite !strict_eq_str_false; [reflexivity | ..];
    intros ->; apply Hnot; simpl; tauto.
Qed.

(** C2. A request with a non-empty API key whose provider is none of
    [openai], [openrouter], [google], [siliconflow] is answered with
    status 400 and an [error] field, and no upstream call is made.  When
    the provider is present and not empty the message is the one of the
    [default] clause, "unsupported provider"; an absent or empty provider
    is refused by the validation before the [switch], with its message. *)
Theorem POST_rejects_unknown_provider (w : Platform) (body : value) :
  truthy (field (field body "apiConfig") "apiKey") = true ->
  ~ In (field (field body "apiConfig") "provider")
       (map VStr ["openai"; "openrouter"; "google"; "siliconflow"]) ->
  (exists message,
      error_response (fst (POST w {| req_json := inr body |})) 400 message)
  /\ (truthy (field (field body "apiConfig") "provider") = true ->
      error_response (fst (POST w {| req_json := inr body |})) 400
                     "不支持的 AI 提供商")
  /\ upstream_calls (snd (POST w {| req_json := inr body |})) = []
  /\ snd (POST w {| req_json := inr body |}) = [].
Proof.
  intros Hkey Hnot.
  destruct (truthy (field (field body "apiConfig") "provider")) eqn:Hprovider.
  - assert (E : POST w {| req_json := inr body |} = (unsupported_provider, [])).
    { unfold POST.
      rewrite POST_try_validated by assumption.
      erewrite bind_return by (apply select_model_default; exact Hnot).
      reflexivity. }
    rewrite E; repeat split.
    exists "不支持的 AI 提供商"; split; reflexivity.
  - assert (E : POST w {| req_json := inr body |} = (config_missing, [])).
    { unfold POST.
      rewrite POST_try_validation; trivial.
      + destruct (truthy_field_object _ _ Hkey) as [cfg Hcfg].
        assert (Hconfig : truthy (field body "apiConfig") = true) by now rewrite Hcfg.
        destruct (truthy_field_object _ _ Hconfig) as [props ->]; reflexivity.
      + rewrite Hprovider; apply andb_false_r. }
    rewrite E; repeat split; try discriminate.
    exists "API 配置缺失，请先配置 AI 提供商"; split; reflexivity.
Qed.

Lemma POST_rejects_unknown_provider_witness :
  (exists message,
      error_response (fst (POST (Mock.platform Mock.offline) Mock.request_for_unknown))
                     400 message)
  /\ (truthy (VStr "anthropic") = true ->
      error_response (fst (POST (Mock.platform Mock.offline) Mock.request_for_unknown))
                     400 "不支持的 AI 提供商")
  /\ upstream_calls (snd (POST (Mock.platform Mock.offline) Mock.request_for_unknown)) = []
  /\ snd (POST (Mock.platform Mock.offline) Mock.request_for_unknown) = [].
Proof.
  apply (POST_rejects_unknown_provider (Mock.platform Mock.offline)
           (Mock.chat_body [Mock.hello] "<root/>" (Mock.api_config "anthropic" "sk-test"))).
  - reflexivity.
  - simpl; intros [H | [H | [H | [H | []]]]]; discriminate H.
Defined.

(** ** The SiliconFlow clause *)

(** In the scope the handler starts with, the clause logs its first
    line, reads [enhancedMessages] and throws: nothing after the read
    runs. *)
Lemma siliconflow_before_declaration {A : Type} (w : Platform) (apiKey model : value)
      (s : Scope) :
  enhancedMessages s = None ->
  @siliconflow w A apiKey model s
  = (Throw (ReferenceError "Cannot access 'enhancedMessages' before initialization"),
     {| enhancedMessages := None;
        trace := (trace s
                  ++ [console_log "SiliconFlow: Direct API call to chat/completions"])%list |}).
Proof.
  intros Hs.
  unfold siliconflow, bind, emit, read_enhancedMessages; cbn [enhancedMessages trace].
  rewrite Hs; reflexivity.
Qed.

Lemma POST_try_siliconflow (w : Platform) (body : value) :
  truthy (field (field body "apiConfig") "apiKey") = true ->
  field (field body "apiConfig") "provider" = VStr "siliconflow" ->
  POST_try w {| req_json := inr body |} initial_scope
  = (Throw (ReferenceError "Cannot access 'enhancedMessages' before initialization"),
     {| enhancedMessages := None;
        trace := [console_log "SiliconFlow: Direct API call to chat/completions"] |}).
Proof.
  intros Hkey Hprovider.
  rewrite POST_try_validated by (trivial; now rewrite Hprovider).
  rewrite Hprovider.
  apply bind_throw.
  unfold select_model; cbn [strict_eq_str String.eqb Ascii.eqb Bool.eqb].
  apply (siliconflow_before_declaration w _ _ initial_scope); reflexivity.
Qed.

(** C4. For a request with provider [siliconflow] and non-empty
    [apiKey], the [siliconflow] clause reads [enhancedMessages] before
    its declaration has run: the handler throws a [ReferenceError] before
    any request is sent to SiliconFlow, the outer [catch] answers with
    status 500 and the body [{error: "Internal server error"}], and the
    only effects are the two console lines. *)
Theorem POST_siliconflow_throws (w : Platform) (body : value) :
  truthy (field (field body "apiConfig") "apiKey") = true ->
  field (field body "apiConfig") "provider" = VStr "siliconflow" ->
  fst (POST_try w {| req_json := inr body |} initial_scope)
  = Throw (ReferenceError "Cannot access 'enhancedMessages' before initialization")
  /\ error_response (fst (POST w {| req_json := inr body |})) 500 "Internal server error"
  /\ upstream_calls (snd (POST w {| req_json := inr body |})) = []
  /\ snd (POST w {| req_json := inr body |})
     = [console_log "SiliconFlow: Direct API call to chat/completions";
        console_error "Error in chat route:"].
Proof.
  intros Hkey Hprovider.
  unfold POST.
  rewrite POST_try_siliconflow by assumption.
  repeat split.
Qed.

Lemma POST_siliconflow_throws_witness :
  fst (POST_try (Mock.platform (Mock.upstream_ok "ok")) Mock.request_for_siliconflow
                initial_scope)
  = Throw (ReferenceError "Cannot access 'enhancedMessages' before initialization")
  /\ error_response
       (fst (POST (Mock.platform (Mock.upstream_ok "ok")) Mock.request_for_siliconflow))
       500 "Internal server error"
  /\ upstream_calls
       (snd (POST (Mock.platform (Mock.upstream_ok "ok")) Mock.request_for_siliconflow))
     = []
  /\ snd (POST (Mock.platform (Mock.upstream_ok "ok")) Mock.request_for_siliconflow)
     = [console_log "SiliconFlow: Direct API call to chat/completions";
        console_error "Error in chat route:"].
Proof.
  apply (POST_siliconflow_throws (Mock.platform (Mock.upstream_ok "ok"))
           (Mock.chat_body [Mock.hello] "<root/>" (Mock.api_config "siliconflow" "sk-test")));
    reflexivity.
Defined.

(** ** Error surfacing *)

(** C9. Whatever the body of the [try] block throws, the handler answers
    with status 500 and the fixed body [{error: "Internal server
    error"}]; a response the body returns (the structured 400 responses
    among them) is passed on as it is.  The error callback of the stream
    response maps an [Error] to its message, a string to itself, [null]
    and [undefined] to "unknown error", and any other value to its JSON
    text. *)
Theorem POST_reports_exceptions (w : Platform) (req : Request) (e : thrown) (s : Scope) :
  POST_try w req initial_scope = (Throw e, s) ->
  error_response (fst (POST w req)) 500 "Internal server error"
  /\ (forall (req' : Request) (r : Response) (s' : Scope),
         POST_try w req' initial_scope = (Return r, s')
         \/ POST_try w req' initial_scope = (Normal r, s') ->
         fst (POST w req') = r)
  /\ (forall name message, errorHandler w (Error name message) = message)
  /\ (forall text, errorHandler w (Thrown (VStr text)) = text)
  /\ errorHandler w (Thrown VNull) = "unknown error"
  /\ errorHandler w (Thrown VUndefined) = "unknown error"
  /\ (forall v, nullish v = false -> is_string v = false ->
                errorHandler w (Thrown v) = JSON_stringify w v).
Proof.
  intros Hthrow.
  unfold POST; rewrite Hthrow.
  repeat split.
  - intros req' r s' [Hreturn | Hnormal];
      [now rewrite Hreturn | now rewrite Hnormal].
  - intros v Hnull Hstring; destruct v; simpl in *; congruence.
Qed.

Lemma POST_reports_exceptions_witness :
  POST_try (Mock.platform Mock.offline) Mock.request_null initial_scope
  = (Throw (TypeError "Cannot read properties of null or undefined: messages"),
     initial_scope)
  /\ error_response (fst (POST (Mock.platform Mock.offline) Mock.request_null))
                    500 "Internal server error".
Proof.
  split; [reflexivity |].
  refine (proj1 (POST_reports_exceptions (Mock.platform Mock.offline) Mock.request_null
                   (TypeError "Cannot read properties of null or undefined: messages")
                   initial_scope _)).
  reflexivity.
Defined.

(** *** Requests outside the shape the handler expects

    The validation of C1 is reached only when the body can be read: a
    body that is no JSON, or the JSON [null], ends in the [catch].  So
    does a request that passes the validation with an empty message
    list. *)

Lemma POST_unreadable_body (w : Platform) (e : thrown) :
  POST w {| req_json := inl e |}
  = (internal_server_error, [console_error "Error in chat route:"]).
Proof. reflexivity. Qed.

Lemma POST_null_body (w : Platform) :
  POST w {| req_json := inr VNull |}
  = (internal_server_error, [console_error "Error in chat route:"]).
Proof. reflexivity. Qed.

Lemma POST_empty_messages (w : Platform) (body : value) :
  field body "messages" = VArr [] ->
  truthy (field (field body "apiConfig") "apiKey") = true ->
  field (field body "apiConfig") "provider" = VStr "openai" ->
  POST w {| req_json := inr body |}
  = (internal_server_error, [console_error "Error in chat route:"]).
Proof.
  intros Hmessages Hkey Hprovider.
  unfold POST.
  rewrite POST_try_validated by (trivial; now rewrite Hprovider).
  rewrite Hprovider, Hmessages.
  reflexivity.
Qed.

(** *** What the clause does once [enhancedMessages] holds a value

    No request reaches this state: the declaration runs after the
    [switch].  The lemmas record what lines 57-115 compute from it. *)

Section AfterDeclaration.

Variable w : Platform.
Variable A : Type.
Variables apiKey model : value.
Variable enhanced : list ModelMessage.
Variable t : list event.
Variable request : FetchRequest.

Hypothesis Hrequest : siliconflow_request w apiKey model enhanced = inr request.

(** One request is sent, to the fixed endpoint, and nothing else goes
    upstream. *)
Lemma siliconflow_one_fetch :
  upstream_calls
    (trace (snd (@siliconflow w A apiKey model
                   {| enhancedMessages := Some enhanced; trace := t |})))
  = (upstream_calls t ++ [fetch_call request])%list.
Proof.
  unfold siliconflow, bind, emit, read_enhancedMessages; cbn [enhancedMessages trace].
  rewrite Hrequest; cbn [lift ret].
  destruct (fetch w _) as [e | response]; cbn [lift throw ret]; [only_fetch |].
  destruct (ok response); cbn [negb].
  - destruct (json response) as [e | result]; cbn [lift throw ret]; [only_fetch |].
    destruct (get result "choices") as [e | choices]; cbn [lift throw ret];
      [only_fetch |].
    destruct (content_match _) as [e | [xml |]]; cbn [lift throw ret return_];
      only_fetch.
  - destruct (json response) as [e | errorData]; cbn [lift throw ret]; [only_fetch |].
    destruct (get errorData "error") as [e | error]; cbn [lift throw ret return_];
      [only_fetch |].
    destruct (ToString w _) as [e | message]; cbn [lift throw ret return_];
      only_fetch.
Qed.

(** The request: a POST with the bearer token, the configured or the
    default model, temperature 0 and the flattened messages. *)
Lemma siliconflow_request_shape (token : string) :
  ToString w apiKey = inr token ->
  url request = "https://api.siliconflow.cn/v1/chat/completions"
  /\ method request = "POST"
  /\ headers request
     = [("Authorization", "Bearer " ++ token); ("Content-Type", "application/json")]
  /\ body request
     = JSON_stringify w
         (VObj [("model", or_else model (VStr "Qwen/Qwen2.5-72B-Instruct"));
                ("messages",
                 VArr (map (fun msg =>
                              VObj [("role", VStr (role msg));
                                    ("content",
                                     match content msg with
                                     | VStr text => VStr text
                                     | other => VStr (JSON_stringify w other)
                                     end)])
                           enhanced));
                ("temperature", VNum 0%float)]).
Proof.
  intros Htoken.
  revert Hrequest; unfold siliconflow_request; rewrite Htoken.
  intros [= <-]; cbn [url method headers body].
  repeat split.
  replace (map (siliconflow_message w) enhanced)
    with (map (fun msg =>
                 VObj [("role", VStr (role msg));
                       ("content",
                        match content msg with
                        | VStr text => VStr text
                        | other => VStr (JSON_stringify w other)
                        end)])
              enhanced); [reflexivity |].
  apply map_ext; intros msg; unfold siliconflow_message.
  destruct (content msg); reflexivity.
Qed.

(** An upstream answer outside 200..299 is passed on with its status
    and the message of its JSON body, or its status text. *)
Lemma siliconflow_upstream_failure (response : FetchResponse) (errorData : value)
      (message : string) :
  fetch w request = inr response ->
  ok response = false ->
  json response = inr errorData ->
  nullish errorData = false ->
  ToString w (or_else (opt_field (field errorData "error") "message")
                      (VStr (statusText response)))
  = inr message ->
  fst (@siliconflow w A apiKey model {| enhancedMessages := Some enhanced; trace := t |})
  = Return
      (Response_json
         (VObj [("error", VStr ("SiliconFlow API错误: " ++ message))])
         (status response)).
Proof.
  intros Hfetch Hok Hjson Hdata Hmessage.
  unfold siliconflow, bind, emit, read_enhancedMessages; cbn [enhancedMessages trace].
  rewrite Hrequest; cbn [lift ret].
  rewrite Hfetch; cbn [lift ret]; rewrite Hok; cbn [negb].
  rewrite Hjson; cbn [lift ret].
  unfold get; rewrite Hdata; cbn [lift ret].
  rewrite Hmessage; reflexivity.
Qed.

(** A completion whose first choice is a text: two frames, the first
    with the inside of the fenced [xml] block tagged for
    [display_diagram], or else with the text as it is. *)
Lemma siliconflow_upstream_success (response : FetchResponse) (result : value)
      (text : string) :
  fetch w request = inr response ->
  ok response = true ->
  json response = inr result ->
  nullish result = false ->
  opt_field (opt_field (opt_index0 (field result "choices")) "message") "content"
  = VStr text ->
  fst (@siliconflow w A apiKey model {| enhancedMessages := Some enhanced; trace := t |})
  = Return
      (Response_new
         ("data: "
          ++ JSON_stringify w
               match match_xml_fence text with
               | Some xml =>
                   VObj [("type", VStr "text"); ("text", VStr xml);
                         ("tool", VStr "display_diagram")]
               | None => VObj [("type", VStr "text"); ("text", VStr text)]
               end
          ++ nl ++ nl ++ "data: [DONE]" ++ nl ++ nl)
         [("Content-Type", "text/event-stream");
          ("Cache-Control", "no-cache");
          ("Connection", "keep-alive")]).
Proof.
  intros Hfetch Hok Hjson Hresult Hcontent.
  unfold siliconflow, bind, emit, read_enhancedMessages; cbn [enhancedMessages trace].
  rewrite Hrequest; cbn [lift ret].
  rewrite Hfetch; cbn [lift ret]; rewrite Hok; cbn [negb].
  rewrite Hjson; cbn [lift ret].
  unfold get; rewrite Hresult; cbn [lift ret].
  rewrite Hcontent.
  destruct text as [| c text'].
  - reflexivity.
  - cbn [or_else truthy content_match lift ret].
    destruct (match_xml_fence (String c text')); reflexivity.
Qed.

End AfterDeclaration.

(** The pattern on the reply of the spec's example. *)
Lemma match_xml_fence_example :
  match_xml_fence Mock.fenced_reply = Some "<root/>".
Proof. reflexivity. Qed.

(** ** Context assembly *)

Section Assembly.

Variable w : Platform.

Lemma last_element_messages (before : list value) (lastMessage : value) :
  last_element w (VArr (before ++ [lastMessage])) = inr lastMessage.
Proof. unfold last_element; now rewrite last_last. Qed.

(** On parts none of which is [null] the callbacks of [find] and
    [filter] do not throw: the two loops are the list functions. *)
Lemma find_by_type_find (ty : string) (items : list value) :
  (forall part, In part items -> nullish part = false) ->
  find_by_type ty items
  = inr match find (fun part => strict_eq_str (field part "type") ty) items with
        | Some part => part
        | None => VUndefined
        end.
Proof.
  induction items as [| part rest IH]; intros Hparts; [reflexivity |].
  cbn [find_by_type find]; unfold part_has_type.
  rewrite get_not_nullish by (apply Hparts; now left).
  destruct (strict_eq_str (field part "type") ty); [reflexivity |].
  apply IH; intros x Hx; apply Hparts; now right.
Qed.

Lemma filter_by_type_filter (ty : string) (items : list value) :
  (forall part, In part items -> nullish part = false) ->
  filter_by_type ty items
  = inr (filter (fun part => strict_eq_str (field part "type") ty) items).
Proof.
  induction items as [| part rest IH]; intros Hparts; [reflexivity |].
  cbn [filter_by_type filter]; unfold part_has_type.
  rewrite get_not_nullish by (apply Hparts; now left).
  rewrite IH by (intros x Hx; apply Hparts; now right).
  reflexivity.
Qed.

(** [lastMessageText] before [|| '']: the [text] of the first part of
    type [text]. *)
Lemma find_text_parts (parts : value) (items : list value) :
  parts = VArr items \/ (nullish parts = true /\ items = []) ->
  (forall part, In part items -> nullish part = false) ->
  find_text parts
  = inr match find (fun part => strict_eq_str (field part "type") "text") items with
        | Some part => field part "text"
        | None => VUndefined
        end.
Proof.
  intros [-> | [Hparts ->]] Hitems.
  - unfold find_text; rewrite find_by_type_find by exact Hitems.
    destruct (find _ items) as [part |] eqn:Hfound; [| reflexivity].
    apply find_some in Hfound as [Hin _].
    unfold opt_field; now rewrite (Hitems part Hin).
  - destruct parts; try discriminate Hparts; reflexivity.
Qed.

(** [fileParts]: the parts of type [file], in their order. *)
Lemma filter_files_parts (parts : value) (items : list value) :
  parts = VArr items \/ (nullish parts = true /\ items = []) ->
  (forall part, In part items -> nullish part = false) ->
  filter_files parts
  = inr (filter (fun part => strict_eq_str (field part "type") "file") items).
Proof.
  intros [-> | [Hparts ->]] Hitems.
  - unfold filter_files; now apply filter_by_type_filter.
  - destruct parts; try discriminate Hparts; reflexivity.
Qed.

Lemma nth_error_last {A : Type} (init : list A) (x : A) :
  nth_error (init ++ [x]) (length (init ++ [x]) - 1) = Some x.
Proof.
  rewrite length_app; cbn [length].
  replace (length init + 1 - 1) with (length init) by lia.
  rewrite nth_error_app2 by lia.
  now rewrite Nat.sub_diag.
Qed.

Lemma list_last_case {A : Type} (l : list A) :
  l = [] \/ exists init x, l = (init ++ [x])%list.
Proof.
  destruct l as [| a l]; [now left | right].
  destruct (exists_last (l := a :: l)) as (init & x & E); [discriminate |].
  eauto.
Qed.

(** The assembly, from what its reads and conversions deliver: it
    completes normally, has no effect besides the binding, and leaves in
    [enhancedMessages] the converted messages, the last one rewritten
    when it is a user's. *)
Lemma assemble_context_with (messages xml lastMessage parts text : value)
      (fileParts : list value) (formatted : string)
      (modelMessages : list ModelMessage) (s : Scope) :
  last_element w messages = inr lastMessage ->
  get lastMessage "parts" = inr parts ->
  find_text parts = inr text ->
  filter_files parts = inr fileParts ->
  formattedTextContent w xml (or_else text (VStr EmptyString)) = inr formatted ->
  convertToModelMessages w messages = inr modelMessages ->
  exists enhanced,
    assemble_context w messages xml s
    = (Normal tt, {| enhancedMessages := Some enhanced; trace := trace s |})
    /\ (forall earlier lastModelMessage,
           modelMessages = (earlier ++ [lastModelMessage])%list ->
           role lastModelMessage = "user" ->
           enhanced
           = (earlier
              ++ [with_content lastModelMessage
                    (VArr (contentParts formatted fileParts))])%list)
    /\ (forall earlier lastModelMessage,
           modelMessages = (earlier ++ [lastModelMessage])%list ->
           role lastModelMessage <> "user" ->
           enhanced = modelMessages)
    /\ (modelMessages = [] -> enhanced = []).
Proof.
  intros Hlast Hparts Hfind Hfilter Hformatted Hconvert.
  assert (Hrun : assemble_context w messages xml s
                 = (if (1 <=? length modelMessages)%nat then
                      match nth_error modelMessages (length modelMessages - 1) with
                      | Some lm =>
                          if String.eqb (role lm) "user" then
                            assign_enhancedMessages
                              (removelast modelMessages
                               ++ [with_content lm
                                     (VArr (contentParts formatted fileParts))])
                          else ret tt
                      | None => ret tt
                      end
                    else ret tt)
                     {| enhancedMessages := Some modelMessages; trace := trace s |}).
  { unfold assemble_context.
    rewrite Hlast; cbn [lift bind ret].
    rewrite Hparts; cbn [lift bind ret].
    rewrite Hfind; cbn [lift bind ret].
    rewrite Hfilter; cbn [lift bind ret].
    rewrite Hformatted; cbn [lift bind ret].
    rewrite Hconvert; cbn [lift bind ret].
    reflexivity. }
  rewrite Hrun; clear Hrun.
  destruct (list_last_case modelMessages) as [-> | (init & lm & ->)].
  - exists []; split; [reflexivity |].
    split; [intros earlier l E; now destruct earlier |].
    split; [intros earlier l E; now destruct earlier | reflexivity].
  - rewrite nth_error_last, removelast_last.
    replace (1 <=? length (init ++ [lm]))%nat with true
      by (symmetry; apply Nat.leb_le; rewrite length_app; cbn; lia).
    destruct (String.eqb (role lm) "user") eqn:Hrole.
    + eexists; split; [reflexivity |].
      split; [intros earlier l E _; apply app_inj_tail in E as [<- <-]; reflexivity |].
      split; [| intros E; now destruct init].
      intros earlier l E Hother; apply app_inj_tail in E as [<- <-].
      apply String.eqb_eq in Hrole; contradiction.
    + eexists; split; [reflexivity |].
      split; [| split; [reflexivity | intros E; now destruct init]].
      intros earlier l E Huser; apply app_inj_tail in E as [<- <-].
      rewrite Huser in Hrole; discriminate.
Qed.

(** The assembly on a message list whose last message is an object with
    no [parts] or with an array of parts that are not [null], when the
    two holes of the template convert to strings. *)
Lemma assemble_context_runs (before items : list value) (lastMessage xml : value)
      (xml_text user_text : string) (modelMessages : list ModelMessage) (s : Scope) :
  nullish lastMessage = false ->
  field lastMessage "parts" = VArr items
  \/ (nullish (field lastMessage "parts") = true /\ items = []) ->
  (forall part, In part items -> nullish part = false) ->
  ToString w (or_else xml (VStr EmptyString)) = inr xml_text ->
  ToString w
    (or_else match find (fun part => strict_eq_str (field part "type") "text") items with
             | Some part => field part "text"
             | None => VUndefined
             end
             (VStr EmptyString))
  = inr user_text ->
  convertToModelMessages w (VArr (before ++ [lastMessage])) = inr modelMessages ->
  exists enhanced,
    assemble_context w (VArr (before ++ [lastMessage])) xml s
    = (Normal tt, {| enhancedMessages := Some enhanced; trace := trace s |})
    /\ (forall earlier lastModelMessage,
           modelMessages = (earlier ++ [lastModelMessage])%list ->
           role lastModelMessage = "user" ->
           enhanced
           = (earlier
              ++ [ {| role := role lastModelMessage;
                      content :=
                        VArr (VObj [("type", VStr "text");
                                    ("text", VStr (template xml_text user_text))]
                              :: map (fun filePart =>
                                        VObj [("type", VStr "image");
                                              ("image", field filePart "url");
                                              ("mimeType", field filePart "mediaType")])
                                     (filter (fun part =>
                                                strict_eq_str (field part "type") "file")
                                             items));
                      others := others lastModelMessage |} ])%list)
    /\ (forall earlier lastModelMessage,
           modelMessages = (earlier ++ [lastModelMessage])%list ->
           role lastModelMessage <> "user" ->
           enhanced = modelMessages)
    /\ (modelMessages = [] -> enhanced = []).
Proof.
  intros Hlast Hparts Hitems Hxml Htext Hconvert.
  destruct (assemble_context_with (VArr (before ++ [lastMessage])) xml lastMessage
              (field lastMessage "parts")
              match find (fun part => strict_eq_str (field part "type") "text") items with
              | Some part => field part "text"
              | None => VUndefined
              end
              (filter (fun part => strict_eq_str (field part "type") "file") items)
              (template xml_text user_text) modelMessages s)
    as (enhanced & Hrun & Huser & Hother & Hempty).
  - apply last_element_messages.
  - now apply get_not_nullish.
  - now apply find_text_parts.
  - now apply filter_files_parts.
  - unfold formattedTextContent; now rewrite Hxml, Htext.
  - exact Hconvert.
  - exists enhanced; split; [exact Hrun |].
    split; [exact Huser | split; assumption].
Qed.

Lemma respond_runs (selectedModel : LanguageModel) (enhanced : list ModelMessage)
      (t : list event) :
  respond w selectedModel {| enhancedMessages := Some enhanced; trace := t |}
  = (Normal
       (toUIMessageStreamResponse
          {| system := systemMessage; model := selectedModel; messages := enhanced;
             tools := declared_tools; temperature := 0 |}
          (errorHandler w)),
     {| enhancedMessages := Some enhanced;
        trace := (t ++ [console_log "Enhanced messages:";
                       streamText_call
                         {| system := systemMessage; model := selectedModel;
                            messages := enhanced; tools := declared_tools;
                            temperature := 0 |}])%list |}).
Proof.
  unfold respond, bind, emit, read_enhancedMessages, ret; cbn [enhancedMessages trace].
  now rewrite <- app_assoc.
Qed.

End Assembly.

(** C7, as the code has it.  Let the message list be non-empty, its
    last message an object whose [parts] are absent or an array without
    [null], and let the two holes of the template convert to strings
    (neither the diagram XML nor the text is an object with a [toString]
    property of its own).  When the last turn, as the conversion
    delivers it, is a user turn, the assembly replaces the content of
    that turn, and nothing else, by a list that starts with one text
    part (the diagram XML and the user's text, which is the text of the
    first text part, each between triple quotes, verbatim) and continues
    with one image entry per file part of the last message posted, in
    their order; the role and the other fields of the last turn and all
    earlier turns are kept, and the streaming call that follows receives
    exactly this list.  The keys of the message and of its parts are
    read by name: their order and any other key do not matter. *)
Theorem assemble_context_rewrites_last_turn
        (w : Platform) (before items : list value) (lastMessage xml : value)
        (xml_text user_text : string)
        (earlier : list ModelMessage) (lastModelMessage : ModelMessage)
        (selectedModel : LanguageModel) (s : Scope) :
  nullish lastMessage = false ->
  field lastMessage "parts" = VArr items
  \/ (nullish (field lastMessage "parts") = true /\ items = []) ->
  (forall part, In part items -> nullish part = false) ->
  ToString w (or_else xml (VStr EmptyString)) = inr xml_text ->
  ToString w
    (or_else match find (fun part => strict_eq_str (field part "type") "text") items with
             | Some part => field part "text"
             | None => VUndefined
             end
             (VStr EmptyString))
  = inr user_text ->
  convertToModelMessages w (VArr (before ++ [lastMessage]))
  = inr (earlier ++ [lastModelMessage])%list ->
  role lastModelMessage = "user" ->
  let synthetic :=
    VObj [("type", VStr "text");
          ("text", VStr ("
Current diagram XML:
" ++ dq ++ dq ++ dq ++ "xml
" ++ xml_text ++ "
" ++ dq ++ dq ++ dq ++ "
User input:
" ++ dq ++ dq ++ dq ++ "md
" ++ user_text ++ "
" ++ dq ++ dq ++ dq))] in
  let images :=
    map (fun filePart =>
           VObj [("type", VStr "image");
                 ("image", field filePart "url");
                 ("mimeType", field filePart "mediaType")])
        (filter (fun part => strict_eq_str (field part "type") "file") items) in
  let rewritten :=
    (earlier
     ++ [ {| role := role lastModelMessage;
             content := VArr (synthetic :: images);
             others := others lastModelMessage |} ])%list in
  let args :=
    {| system := systemMessage; model := selectedModel; messages := rewritten;
       tools := declared_tools; temperature := 0 |} in
  assemble_context w (VArr (before ++ [lastMessage])) xml s
  = (Normal tt, {| enhancedMessages := Some rewritten; trace := trace s |})
  /\ bind (assemble_context w (VArr (before ++ [lastMessage])) xml)
          (fun _ => respond w selectedModel) s
     = (Normal (toUIMessageStreamResponse args (errorHandler w)),
        {| enhancedMessages := Some rewritten;
           trace := (trace s ++ [console_log "Enhanced messages:";
                                 streamText_call args])%list |}).
Proof.
  intros Hlast Hparts Hitems Hxml Htext Hconvert Huser synthetic images rewritten args.
  destruct (assemble_context_runs w before items lastMessage xml xml_text user_text _ s
              Hlast Hparts Hitems Hxml Htext Hconvert)
    as (enhanced & Hrun & Hrewritten & _ & _).
  specialize (Hrewritten earlier lastModelMessage eq_refl Huser).
  assert (E : enhanced = rewritten) by exact Hrewritten.
  rewrite E in Hrun.
  split; [exact Hrun |].
  erewrite bind_normal by exact Hrun.
  apply respond_runs.
Qed.

Lemma assemble_context_rewrites_last_turn_witness :
  assemble_context (Mock.platform Mock.offline) (VArr [Mock.hello_again])
                   (VStr "<root/>") initial_scope
  = (Normal tt,
     {| enhancedMessages :=
          Some [ {| role := "user";
                    content :=
                      VArr [VObj [("type", VStr "text");
                                  ("text", VStr ("
Current diagram XML:
" ++ dq ++ dq ++ dq ++ "xml
<root/>
" ++ dq ++ dq ++ dq ++ "
User input:
" ++ dq ++ dq ++ dq ++ "md
Draw a cat
" ++ dq ++ dq ++ dq))];
                            VObj [("type", VStr "image");
                                  ("image", VStr "data:image/png;base64,AAAA");
                                  ("mimeType", VStr "image/png")]];
                    others := [] |} ];
        trace := [] |}).
Proof.
  refine (proj1 (assemble_context_rewrites_last_turn
                   (Mock.platform Mock.offline) []
                   [VObj [("text", VStr "Draw a cat"); ("state", VStr "done");
                          ("type", VStr "text")];
                    VObj [("url", VStr "data:image/png;base64,AAAA");
                          ("filename", VStr "cat.png");
                          ("type", VStr "file");
                          ("mediaType", VStr "image/png")]]
                   Mock.hello_again (VStr "<root/>") "<root/>" "Draw a cat" []
                   {| role := "user";
                      content := field Mock.hello_again "parts";
                      others := [] |}
                   (openai (VStr "gpt-4")) initial_scope
                   eq_refl (or_introl eq_refl) _ eq_refl eq_refl eq_refl eq_refl)).
  intros part [<- | [<- | []]]; reflexivity.
Defined.

(** What the claim leaves out: on a message list whose last turn is a
    user turn with a [null] among its parts, and on a diagram XML that
    is an object with a [toString] property of its own, the assembly
    throws and leaves nothing in [enhancedMessages]; the handler answers
    with the fixed 500 and makes no streaming call. *)
Lemma assemble_context_rewrites_last_turn_counterexample :
  (convertToModelMessages (Mock.platform Mock.offline) (VArr [Mock.torn])
   = inr [ {| role := "user"; content := field Mock.torn "parts"; others := [] |} ]
   /\ assemble_context (Mock.platform Mock.offline) (VArr [Mock.torn]) (VStr "<root/>")
                       initial_scope
      = (Throw (TypeError "Cannot read properties of null or undefined: type"),
         initial_scope)
   /\ POST (Mock.platform Mock.offline)
           (Mock.request (Mock.chat_body [Mock.torn] "<root/>"
                            (Mock.api_config "openai" "sk-test")))
      = (internal_server_error, [console_error "Error in chat route:"]))
  /\ (convertToModelMessages (Mock.platform Mock.offline) (VArr [Mock.hello])
      = inr [ {| role := "user"; content := field Mock.hello "parts"; others := [] |} ]
      /\ assemble_context (Mock.platform Mock.offline) (VArr [Mock.hello])
                          (VObj [("toString", VNum 1%float)]) initial_scope
         = (Throw (TypeError "Cannot convert object to primitive value"), initial_scope)).
Proof. repeat split. Qed.

(** ** The streaming path *)

Lemma select_model_streaming (w : Platform) (provider : string) (apiKey model : value)
      (s : Scope) :
  In provider ["openai"; "openrouter"; "google"] ->
  exists selectedModel,
    select_model w (VStr provider) apiKey model s = (Normal selectedModel, s)
    /\ (provider = "openai" -> selectedModel = openai (or_else model (VStr "gpt-4")))
    /\ (provider = "openrouter" ->
        selectedModel = openrouter apiKey (or_else model (VStr "openai/gpt-4o")))
    /\ (provider = "google" ->
        selectedModel = googleProvider apiKey (or_else model (VStr "gemini-1.5-pro"))).
Proof.
  intros [<- | [<- | [<- | []]]]; eexists; (split; [reflexivity |]);
    repeat split; intros; try discriminate; reflexivity.
Qed.

(** Past the validation and the [switch], a streaming provider leaves
    the assembly and the streaming call to run. *)
Lemma POST_try_streaming (w : Platform) (body : value) (provider : string) :
  truthy (field (field body "apiConfig") "apiKey") = true ->
  field (field body "apiConfig") "provider" = VStr provider ->
  In provider ["openai"; "openrouter"; "google"] ->
  exists selectedModel,
    POST_try w {| req_json := inr body |} initial_scope
    = bind (assemble_context w (field body "messages") (field body "xml"))
           (fun _ => respond w selectedModel) initial_scope
    /\ (provider = "openai" ->
        selectedModel
        = openai (or_else (field (field body "apiConfig") "model") (VStr "gpt-4")))
    /\ (provider = "openrouter" ->
        selectedModel
        = openrouter (field (field body "apiConfig") "apiKey")
            (or_else (field (field body "apiConfig") "model") (VStr "openai/gpt-4o")))
    /\ (provider = "google" ->
        selectedModel
        = googleProvider (field (field body "apiConfig") "apiKey")
            (or_else (field (field body "apiConfig") "model") (VStr "gemini-1.5-pro"))).
Proof.
  intros Hkey Hprovider Hknown.
  destruct (select_model_streaming w provider (field (field body "apiConfig") "apiKey")
              (field (field body "apiConfig") "model") initial_scope Hknown)
    as (selectedModel & Hselect & Hmodels).
  exists selectedModel; split; [| exact Hmodels].
  rewrite POST_try_validated; trivial.
  - rewrite Hprovider; now erewrite bind_normal by exact Hselect.
  - rewrite Hprovider; destruct Hknown as [<- | [<- | [<- | []]]]; reflexivity.
Qed.

(** C8, as the code has it.  For a request with provider [openai],
    [openrouter] or [google] and a non-empty API key, whose message list
    is non-empty with a last message that is an object with no [parts]
    or with an array of parts without [null], whose template holes
    convert to strings and whose messages the conversion accepts, the
    handler makes one upstream call, the streaming chat completion, with
    temperature 0, the fixed system prompt, the rewritten message list
    and exactly the tools [display_diagram] (one parameter, the string
    [xml]) and [edit_diagram] (one parameter [edits], an array of objects
    with the strings [search] and [replace]); the response is the stream
    of that call with [errorHandler] as its error callback.  The
    rewritten list is the converted list with the content of its last
    turn replaced, when that is a user turn, by the text part of the
    template followed by one image entry per file part; it is the
    converted list itself when the last turn is not a user's or the list
    is empty.  The model is the configured one, and [gpt-4],
    [openai/gpt-4o] or [gemini-1.5-pro] when [apiConfig.model] is
    absent. *)
Theorem POST_streams (w : Platform) (body : value) (before items : list value)
        (lastMessage : value) (xml_text user_text : string)
        (modelMessages : list ModelMessage) (provider : string) :
  field body "messages" = VArr (before ++ [lastMessage]) ->
  nullish lastMessage = false ->
  field lastMessage "parts" = VArr items
  \/ (nullish (field lastMessage "parts") = true /\ items = []) ->
  (forall part, In part items -> nullish part = false) ->
  ToString w (or_else (field body "xml") (VStr EmptyString)) = inr xml_text ->
  ToString w
    (or_else match find (fun part => strict_eq_str (field part "type") "text") items with
             | Some part => field part "text"
             | None => VUndefined
             end
             (VStr EmptyString))
  = inr user_text ->
  convertToModelMessages w (field body "messages") = inr modelMessages ->
  truthy (field (field body "apiConfig") "apiKey") = true ->
  field (field body "apiConfig") "provider" = VStr provider ->
  In provider ["openai"; "openrouter"; "google"] ->
  let apiKey := field (field body "apiConfig") "apiKey" in
  let configured := field (field body "apiConfig") "model" in
  let synthetic :=
    VObj [("type", VStr "text");
          ("text", VStr ("
Current diagram XML:
" ++ dq ++ dq ++ dq ++ "xml
" ++ xml_text ++ "
" ++ dq ++ dq ++ dq ++ "
User input:
" ++ dq ++ dq ++ dq ++ "md
" ++ user_text ++ "
" ++ dq ++ dq ++ dq))] in
  let images :=
    map (fun filePart =>
           VObj [("type", VStr "image");
                 ("image", field filePart "url");
                 ("mimeType", field filePart "mediaType")])
        (filter (fun part => strict_eq_str (field part "type") "file") items) in
  exists args : StreamTextArgs,
    POST w {| req_json := inr body |}
    = (toUIMessageStreamResponse args (errorHandler w),
       [console_log "Enhanced messages:"; streamText_call args])
    /\ upstream_calls (snd (POST w {| req_json := inr body |})) = [streamText_call args]
    /\ temperature args = 0%Z
    /\ system args = systemMessage
    /\ (forall earlier lastModelMessage,
           modelMessages = (earlier ++ [lastModelMessage])%list ->
           role lastModelMessage = "user" ->
           messages args
           = (earlier
              ++ [ {| role := role lastModelMessage;
                      content := VArr (synthetic :: images);
                      others := others lastModelMessage |} ])%list)
    /\ (forall earlier lastModelMessage,
           modelMessages = (earlier ++ [lastModelMessage])%list ->
           role lastModelMessage <> "user" ->
           messages args = modelMessages)
    /\ (modelMessages = [] -> messages args = [])
    /\ tools args = [("display_diagram", display_diagram); ("edit_diagram", edit_diagram)]
    /\ inputSchema display_diagram
       = z_object [("xml", z_string "XML string to be displayed on draw.io")]
    /\ inputSchema edit_diagram
       = z_object
           [("edits",
             z_array
               (z_object
                  [("search",
                    z_string "Exact lines to search for (including whitespace and indentation)");
                   ("replace", z_string "Replacement lines")])
               "Array of search/replace pairs to apply sequentially")]
    /\ (provider = "openai" ->
        model args = openai (or_else configured (VStr "gpt-4"))
        /\ (configured = VUndefined -> model args = openai (VStr "gpt-4")))
    /\ (provider = "openrouter" ->
        model args = openrouter apiKey (or_else configured (VStr "openai/gpt-4o"))
        /\ (configured = VUndefined ->
            model args = openrouter apiKey (VStr "openai/gpt-4o")))
    /\ (provider = "google" ->
        model args = googleProvider apiKey (or_else configured (VStr "gemini-1.5-pro"))
        /\ (configured = VUndefined ->
            model args = googleProvider apiKey (VStr "gemini-1.5-pro"))).
Proof.
  intros Hmessages Hlast Hparts Hitems Hxml Htext Hconvert Hkey Hprovider Hknown
         apiKey configured synthetic images.
  destruct (POST_try_streaming w body provider Hkey Hprovider Hknown)
    as (selectedModel & Htry & Hopenai & Hopenrouter & Hgoogle).
  rewrite Hmessages in Hconvert.
  destruct (assemble_context_runs w before items lastMessage (field body "xml")
              xml_text user_text _ initial_scope Hlast Hparts Hitems Hxml Htext Hconvert)
    as (enhanced & Hrun & Huser & Hother & Hempty).
  rewrite <- Hmessages in Hrun.
  assert (E : POST w {| req_json := inr body |}
              = (toUIMessageStreamResponse
                   {| system := systemMessage; model := selectedModel;
                      messages := enhanced; tools := declared_tools;
                      temperature := 0 |}
                   (errorHandler w),
                 [console_log "Enhanced messages:";
                  streamText_call
                    {| system := systemMessage; model := selectedModel;
                       messages := enhanced; tools := declared_tools;
                       temperature := 0 |}])).
  { unfold POST; rewrite Htry.
    erewrite bind_normal by exact Hrun.
    cbn [trace initial_scope].
    rewrite respond_runs; reflexivity. }
  eexists; split; [exact E |].
  rewrite E; cbn [fst snd model temperature system tools messages].
  repeat match goal with |- _ /\ _ => split end; try reflexivity; try assumption.
  - intros Hp; split; [now apply Hopenai |].
    intros Habsent; rewrite (Hopenai Hp); fold configured; rewrite Habsent; reflexivity.
  - intros Hp; split; [now apply Hopenrouter |].
    intros Habsent; rewrite (Hopenrouter Hp); fold configured; rewrite Habsent;
      reflexivity.
  - intros Hp; split; [now apply Hgoogle |].
    intros Habsent; rewrite (Hgoogle Hp); fold configured; rewrite Habsent; reflexivity.
Qed.

Lemma POST_streams_witness :
  exists args : StreamTextArgs,
    POST (Mock.platform Mock.offline) Mock.request_for_openai
    = (toUIMessageStreamResponse args (errorHandler (Mock.platform Mock.offline)),
       [console_log "Enhanced messages:"; streamText_call args])
    /\ temperature args = 0%Z
    /\ system args = systemMessage
    /\ model args = openai (VStr "gpt-4")
    /\ messages args
       = [ {| role := "user";
              content :=
                VArr [VObj [("type", VStr "text");
                            ("text", VStr ("
Current diagram XML:
" ++ dq ++ dq ++ dq ++ "xml
<root/>
" ++ dq ++ dq ++ dq ++ "
User input:
" ++ dq ++ dq ++ dq ++ "md
Draw a cat
" ++ dq ++ dq ++ dq))];
                      VObj [("type", VStr "image");
                            ("image", VStr "data:image/png;base64,AAAA");
                            ("mimeType", VStr "image/png")]];
              others := [] |} ].
Proof.
  destruct (POST_streams (Mock.platform Mock.offline)
              (Mock.chat_body [Mock.hello] "<root/>" (Mock.api_config "openai" "sk-test"))
              []
              [VObj [("type", VStr "step-start")];
               VObj [("type", VStr "text"); ("text", VStr "Draw a cat")];
               VObj [("type", VStr "file");
                     ("mediaType", VStr "image/png");
                     ("url", VStr "data:image/png;base64,AAAA")]]
              Mock.hello "<root/>" "Draw a cat"
              [ {| role := "user"; content := field Mock.hello "parts"; others := [] |} ]
              "openai" eq_refl eq_refl (or_introl eq_refl))
    as (args & Hpost & _ & Htemperature & Hsystem & Hmessages & _ & _ & _ & _ & _
        & Hopenai & _); try reflexivity.
  - intros part [<- | [<- | [<- | []]]]; reflexivity.
  - now left.
  - exists args; repeat split; try assumption.
    + exact (proj2 (Hopenai eq_refl) eq_refl).
    + exact (Hmessages [] _ eq_refl eq_refl).
Defined.

(** What the claim leaves out: a request for [openai] with a key and an
    empty message list is answered with the fixed 500, and no streaming
    call is made; so is one whose diagram XML is an object with a
    [toString] property of its own. *)
Lemma POST_streams_counterexample :
  POST (Mock.platform Mock.offline)
       (Mock.request (Mock.chat_body [] "<root/>" (Mock.api_config "openai" "sk-test")))
  = (internal_server_error, [console_error "Error in chat route:"])
  /\ upstream_calls
       (snd (POST (Mock.platform Mock.offline)
               (Mock.request (Mock.chat_body [] "<root/>"
                                (Mock.api_config "openai" "sk-test")))))
     = []
  /\ POST (Mock.platform Mock.offline)
          (Mock.request
             (VObj [("messages", VArr [Mock.hello]);
                    ("xml", VObj [("toString", VNum 1%float)]);
                    ("apiConfig", Mock.api_config "openai" "sk-test")]))
     = (internal_server_error, [console_error "Error in chat route:"]).
Proof. repeat split. Qed.

(** ** The SiliconFlow path as requests meet it *)

(** C3, at the request of the spec's example: the upstream would answer
    200 with a fenced [xml] block, and the handler answers 500 without
    asking it. *)
Lemma POST_siliconflow_fenced_reply :
  POST (Mock.platform (Mock.upstream_ok Mock.fenced_reply)) Mock.request_for_siliconflow
  = (internal_server_error,
     [console_log "SiliconFlow: Direct API call to chat/completions";
      console_error "Error in chat route:"]).
Proof. reflexivity. Qed.

(** C5, at the request of the spec's example: the upstream would answer
    401 with [{error: {message: "bad key"}}], and the handler answers 500
    with the fixed message. *)
Lemma POST_siliconflow_upstream_error :
  POST (Mock.platform (Mock.upstream_error 401 "Unauthorized" "bad key"))
       Mock.request_for_siliconflow
  = (internal_server_error,
     [console_log "SiliconFlow: Direct API call to chat/completions";
      console_error "Error in chat route:"])
  /\ status_of (fst (POST (Mock.platform (Mock.upstream_error 401 "Unauthorized" "bad key"))
                          Mock.request_for_siliconflow))
     <> 401%Z.
Proof. split; [reflexivity | discriminate]. Qed.

(** C6, at a SiliconFlow request: no request at all is sent to the
    completions endpoint. *)
Lemma POST_siliconflow_sends_nothing :
  upstream_calls
    (snd (POST (Mock.platform (Mock.upstream_ok "Hello")) Mock.request_for_siliconflow))
  = [].
Proof. reflexivity. Qed.

(* ================================================================== *)
(** * Properties of the configuration store *)
(* ================================================================== *)

Import ApiConfigDialog.

Lemma getItem_setItem (storage : Storage) (key text : string) :
  getItem (setItem storage key text) key = Some text.
Proof.
  induction storage as [| [k v] rest IH]; cbn [setItem getItem].
  - now rewrite String.eqb_refl.
  - destruct (String.eqb k key) eqn:E; cbn [getItem]; now rewrite E.
Qed.

(** What the mount effect does with a stored text that is not empty. *)
Lemma load_stored (browser : Browser) (storage : Storage) (text : string) :
  getItem storage storage_key = Some text ->
  text <> EmptyString ->
  load browser storage
  = match load_try browser text with
    | inr parsed => (parsed, [])
    | inl error =>
        (config_value default_config, [("Failed to parse saved config:", error)])
    end.
Proof.
  intros Hget Hne; unfold load; rewrite Hget.
  destruct text; [contradiction | reflexivity].
Qed.

(** The provider table has one entry per id. *)
Lemma find_provider (p : ProviderInfo) :
  In p providers ->
  find (fun q => strict_eq_str (VStr (id p)) (id q)) providers = Some p.
Proof.
  intros [<- | [<- | [<- | [<- | []]]]]; reflexivity.
Qed.

Lemma find_all_false {A : Type} (f : A -> bool) (l : list A) :
  (forall x, In x l -> f x = false) -> find f l = None.
Proof.
  induction l as [| a l IH]; intros Hall; [reflexivity |].
  cbn [find]; rewrite (Hall a (or_introl eq_refl)).
  apply IH; intros x Hx; apply Hall; now right.
Qed.

Lemma find_no_provider (name : string) :
  (forall p, In p providers -> id p <> name) ->
  find (fun q => strict_eq_str (VStr name) (id q)) providers = None.
Proof.
  intros Hnone; apply find_all_false; intros q Hq.
  apply String.eqb_neq; intros ->; exact (Hnone q Hq eq_refl).
Qed.

(** C10, as the code has it.  Saving a config and loading it again
    yields the same config when its [model] is a non-empty string; a
    [model] that is absent or empty is replaced by the default model of
    the config's provider when the provider table declares that provider,
    and is left as it is otherwise.  A stored text that [JSON.parse]
    refuses, or whose reading throws in any other way, is logged and the
    default config (provider [openai], empty key, model [gpt-4]) is kept;
    loading itself never throws.  The browser's [JSON.parse] is assumed
    to read back the text [JSON.stringify] wrote for the config. *)
Theorem save_then_load (browser : Browser) (cfg : ApiConfig) (storage : Storage) :
  round_trips browser (config_value cfg) ->
  let reloaded := load browser (handleSave browser (config_value cfg) storage) in
  (forall m, model cfg = Some m -> m <> EmptyString ->
             reloaded = (config_value cfg, []))
  /\ (forall p, model cfg = None \/ model cfg = Some EmptyString ->
                In p providers -> id p = provider cfg ->
                reloaded = (config_value (with_model cfg (defaultModel p)), []))
  /\ (model cfg = None \/ model cfg = Some EmptyString ->
      (forall p, In p providers -> id p <> provider cfg) ->
      reloaded = (config_value cfg, []))
  /\ (forall (stored : Storage) (text : string) (error : thrown),
         getItem stored storage_key = Some text ->
         text <> EmptyString ->
         JSON_parse browser text = inl error
         \/ load_try browser text = inl error ->
         load browser stored
         = (config_value default_config, [("Failed to parse saved config:", error)])).
Proof.
  intros [Hne Hparse] reloaded.
  assert (Hload : reloaded
                  = match load_try browser (JSON_stringify browser (config_value cfg)) with
                    | inr parsed => (parsed, [])
                    | inl error =>
                        (config_value default_config,
                         [("Failed to parse saved config:", error)])
                    end).
  { apply load_stored; [apply getItem_setItem | exact Hne]. }
  unfold load_try in Hload; rewrite Hparse in Hload.
  destruct cfg as [prov key m]; cbn [model provider apiKey] in *.
  repeat match goal with |- _ /\ _ => split end.
  - intros m' -> Hm'.
    rewrite Hload; destruct m'; [contradiction | reflexivity].
  - intros p Hmodel Hp Hid; subst prov.
    rewrite Hload.
    destruct Hmodel as [-> | ->];
      cbn [config_value model provider apiKey app get nullish field own String.eqb
           Ascii.eqb Bool.eqb truthy negb];
      rewrite (find_provider p Hp); reflexivity.
  - intros Hmodel Hnone.
    rewrite Hload.
    destruct Hmodel as [-> | ->];
      cbn [config_value model provider apiKey app get nullish field own String.eqb
           Ascii.eqb Bool.eqb truthy negb];
      rewrite (find_no_provider prov Hnone); reflexivity.
  - intros stored text error Hget Htext Herror.
    rewrite (load_stored browser stored text Hget Htext).
    destruct Herror as [Herror | Herror].
    + unfold load_try; now rewrite Herror.
    + now rewrite Herror.
Qed.

Lemma save_then_load_witness :
  round_trips Mock.browser (config_value Mock.gemini_without_model)
  /\ load Mock.browser
          (handleSave Mock.browser (config_value Mock.gemini_without_model) [])
     = (config_value {| provider := "google"; apiKey := "AIza-test";
                        model := Some "gemini-1.5-pro" |}, []).
Proof.
  assert (H : round_trips Mock.browser (config_value Mock.gemini_without_model)).
  { split; [discriminate | reflexivity]. }
  split; [exact H |].
  refine (proj1 (proj2 (save_then_load Mock.browser Mock.gemini_without_model [] H))
                {| id := "google";
                   name := "Google Gemini";
                   models := ["gemini-1.5-pro"; "gemini-1.5-flash"];
                   defaultModel := "gemini-1.5-pro";
                   placeholder := "AIza...";
                   apiUrl := "https://aistudio.google.com/app/apikey";
                   modelsUrl := "https://ai.google.dev/gemini-api/docs/models/gemini";
                   getModelsApi := None |} _ _ _).
  - left; reflexivity.
  - right; right; left; reflexivity.
  - reflexivity.
Defined.

(** An empty stored text is discarded without a log, whatever the
    browser's [JSON.parse] would say of it. *)
Lemma load_empty_text (browser : Browser) (storage : Storage) :
  getItem storage storage_key = Some EmptyString ->
  load browser storage = (config_value default_config, []).
Proof. intros Hget; unfold load; now rewrite Hget. Qed.

(** C10 as stated fails twice.  A config whose [model] is present and
    empty is written as it is, and comes back with the provider's default
    model: not equal in all fields, although no field was absent from the
    stored object.  And a stored text that is empty, which [JSON.parse]
    refuses, is discarded without being logged. *)
Lemma save_then_load_counterexample :
  (Mock.stringify (config_value Mock.openai_with_empty_model)
   = "{" ++ Route.dq ++ "provider" ++ Route.dq ++ ":" ++ Route.dq ++ "openai" ++ Route.dq
     ++ "," ++ Route.dq ++ "apiKey" ++ Route.dq ++ ":" ++ Route.dq ++ "sk-test" ++ Route.dq
     ++ "," ++ Route.dq ++ "model" ++ Route.dq ++ ":" ++ Route.dq ++ Route.dq ++ "}"
   /\ round_trips Mock.browser (config_value Mock.openai_with_empty_model)
   /\ fst (load Mock.browser
                (handleSave Mock.browser (config_value Mock.openai_with_empty_model) []))
      = config_value {| provider := "openai"; apiKey := "sk-test";
                        model := Some "gpt-4" |}
   /\ fst (load Mock.browser
                (handleSave Mock.browser (config_value Mock.openai_with_empty_model) []))
      <> config_value Mock.openai_with_empty_model)
  /\ ((exists error, JSON_parse Mock.browser EmptyString = inl error)
      /\ load Mock.browser [(storage_key, EmptyString)]
         = (config_value default_config, [])).
Proof.
  split; [split; [reflexivity | split; [| split]] | split].
  - split; [discriminate | reflexivity].
  - reflexivity.
  - discriminate.
  - eexists; reflexivity.
  - reflexivity.
Qed.

(* ================================================================== *)
(** * Further properties of the chat proxy *)
(* ================================================================== *)

(** ** Every way the handler can end *)

(** The assembly either throws before it has touched the scope, or
    initialises [enhancedMessages]; it never leaves the handler and has
    no effect on the trace. *)
Lemma assemble_context_outcome (w : Platform) (messages xml : value) (s : Scope) :
  (exists e, assemble_context w messages xml s = (Throw e, s))
  \/ (exists enhanced,
         assemble_context w messages xml s
         = (Normal tt, {| enhancedMessages := Some enhanced; trace := trace s |})).
Proof.
  unfold assemble_context, bind.
  destruct (last_element w messages) as [e | lastMessage]; cbn [lift throw ret];
    [left; eauto |].
  destruct (get lastMessage "parts") as [e | parts]; cbn [lift throw ret];
    [left; eauto |].
  destruct (find_text parts) as [e | text]; cbn [lift throw ret]; [left; eauto |].
  destruct (filter_files parts) as [e | fileParts]; cbn [lift throw ret];
    [left; eauto |].
  destruct (formattedTextContent w xml _) as [e | formatted]; cbn [lift throw ret];
    [left; eauto |].
  destruct (convertToModelMessages w messages) as [e | modelMessages];
    cbn [lift throw ret]; [left; eauto |].
  right.
  unfold assign_enhancedMessages at 1, read_enhancedMessages;
    cbn [enhancedMessages trace].
  destruct (1 <=? length modelMessages)%nat; [| eexists; reflexivity].
  destruct (nth_error modelMessages (length modelMessages - 1)) as [lm |];
    [| eexists; reflexivity].
  destruct (String.eqb (role lm) "user"); eexists; reflexivity.
Qed.

(** The [switch], entered before the declaration of [enhancedMessages]:
    it binds a model, refuses the provider, or throws in the SiliconFlow
    clause after its first console line. *)
Lemma select_model_outcome (w : Platform) (provider apiKey model : value) :
  (exists selectedModel,
      select_model w provider apiKey model initial_scope
      = (Normal selectedModel, initial_scope))
  \/ select_model w provider apiKey model initial_scope
     = (Return unsupported_provider, initial_scope)
  \/ (exists e,
         select_model w provider apiKey model initial_scope
         = (Throw e,
            {| enhancedMessages := None;
               trace := [console_log "SiliconFlow: Direct API call to chat/completions"] |})).
Proof.
  unfold select_model.
  destruct (strict_eq_str provider "openai"); [left; eexists; reflexivity |].
  destruct (strict_eq_str provider "openrouter"); [left; eexists; reflexivity |].
  destruct (strict_eq_str provider "google"); [left; eexists; reflexivity |].
  destruct (strict_eq_str provider "siliconflow"); [| right; left; reflexivity].
  right; right; eexists.
  apply (siliconflow_before_declaration w apiKey model initial_scope); reflexivity.
Qed.

(** X1. Whatever the request and whatever the runtime, the handler ends
    in one of four ways: the 400 of the validation with no effect, the
    400 of the unknown provider with no effect, the fixed 500 without
    any upstream call, or the stream response of the one [streamText]
    call it made.  So the status is 200, 400 or 500, at most one upstream
    call is made, that call is never a [fetch], and an error response
    means that nothing was sent upstream. *)
Theorem POST_outcomes (w : Platform) (req : Request) :
  (POST w req = (config_missing, [])
   \/ POST w req = (unsupported_provider, [])
   \/ (fst (POST w req) = internal_server_error
       /\ upstream_calls (snd (POST w req)) = [])
   \/ (exists args,
          POST w req
          = (toUIMessageStreamResponse args (errorHandler w),
             [console_log "Enhanced messages:"; streamText_call args])))
  /\ In (status_of (fst (POST w req))) [200%Z; 400%Z; 500%Z]
  /\ (length (upstream_calls (snd (POST w req))) <= 1)%nat
  /\ (forall request, ~ In (fetch_call request) (snd (POST w req)))
  /\ (status_of (fst (POST w req)) <> 200%Z -> upstream_calls (snd (POST w req)) = []).
Proof.
  assert (Hcases :
            POST w req = (config_missing, [])
            \/ POST w req = (unsupported_provider, [])
            \/ (POST w req = (internal_server_error, [console_error "Error in chat route:"])
                \/ POST w req
                   = (internal_server_error,
                      [console_log "SiliconFlow: Direct API call to chat/completions";
                       console_error "Error in chat route:"]))
            \/ (exists args,
                   POST w req
                   = (toUIMessageStreamResponse args (errorHandler w),
                      [console_log "Enhanced messages:"; streamText_call args]))).
  { destruct req as [[e | body]]; [right; right; left; left; reflexivity |].
    destruct (nullish body) eqn:Hbody.
    { destruct body; try discriminate Hbody; right; right; left; left; reflexivity. }
    destruct (truthy (field body "apiConfig")
              && truthy (field (field body "apiConfig") "apiKey")
              && truthy (field (field body "apiConfig") "provider")) eqn:Hconfig.
    2: { left; unfold POST; now rewrite POST_try_validation. }
    apply andb_prop in Hconfig as [Hconfig Hprovider].
    apply andb_prop in Hconfig as [_ Hkey].
    unfold POST; rewrite POST_try_validated by assumption.
    destruct (select_model_outcome w (field (field body "apiConfig") "provider")
                (field (field body "apiConfig") "apiKey")
                (field (field body "apiConfig") "model"))
      as [[selectedModel Hselect] | [Hselect | [e Hselect]]].
    2: { erewrite bind_return by exact Hselect. right; left; reflexivity. }
    2: { erewrite bind_throw by exact Hselect. right; right; left; right; reflexivity. }
    erewrite bind_normal by exact Hselect.
    destruct (assemble_context_outcome w (field body "messages") (field body "xml")
                initial_scope) as [[e Hrun] | [enhanced Hrun]].
    { erewrite bind_throw by exact Hrun. right; right; left; left; reflexivity. }
    erewrite bind_normal by exact Hrun.
    right; right; right.
    cbn [trace initial_scope]; rewrite respond_runs.
    eexists; reflexivity. }
  destruct Hcases as [E | [E | [[E | E] | [args E]]]]; rewrite E;
    (split; [tauto || (right; right; right; eexists; reflexivity) |]);
    cbn [fst snd status_of config_missing unsupported_provider internal_server_error
         upstream_calls filter is_upstream length In];
    repeat split; try tauto; try lia; try discriminate;
    try (intros request [H | [H | H]]; (discriminate H || contradiction));
    try (intros request [H | H]; (discriminate H || contradiction));
    try (intros H; now contradiction H).
Qed.

(** X2. A body that cannot be read as JSON, or that is the JSON [null],
    is answered with the fixed 500: the validation and its 400 are never
    reached, nothing is sent upstream, and the one effect is the console
    line of the [catch]. *)
Theorem POST_unreadable_or_null_body (w : Platform) (req : Request) :
  (exists e, req_json req = inl e) \/ req_json req = inr VNull ->
  POST w req = (internal_server_error, [console_error "Error in chat route:"]).
Proof.
  intros [[e He] | Hnull]; destruct req as [body]; cbn [req_json] in *; subst body;
    reflexivity.
Qed.

Lemma POST_unreadable_or_null_body_witness :
  POST (Mock.platform Mock.offline) Mock.request_null
  = (internal_server_error, [console_error "Error in chat route:"]).
Proof.
  apply POST_unreadable_or_null_body; right; reflexivity.
Defined.

(** ** Message lists the handler cannot read *)

(** A throw of the assembly is the fixed 500, with nothing sent. *)
Lemma POST_assembly_throws (w : Platform) (body : value) (provider : string) (e : thrown) :
  truthy (field (field body "apiConfig") "apiKey") = true ->
  field (field body "apiConfig") "provider" = VStr provider ->
  In provider ["openai"; "openrouter"; "google"] ->
  assemble_context w (field body "messages") (field body "xml") initial_scope
  = (Throw e, initial_scope) ->
  POST w {| req_json := inr body |}
  = (internal_server_error, [console_error "Error in chat route:"]).
Proof.
  intros Hkey Hprovider Hknown Hthrow.
  destruct (POST_try_streaming w body provider Hkey Hprovider Hknown)
    as (selectedModel & Htry & _).
  unfold POST; rewrite Htry.
  now erewrite bind_throw by exact Hthrow.
Qed.

(** [filter] calls its callback on every element: one [null] among the
    parts makes it throw. *)
Lemma filter_by_type_nullish (ty : string) (items : list value) (x : value) :
  In x items -> nullish x = true -> exists e, filter_by_type ty items = inl e.
Proof.
  induction items as [| part rest IH]; intros Hin Hx; [contradiction |].
  cbn [filter_by_type]; unfold part_has_type, get.
  destruct Hin as [-> | Hin].
  - rewrite Hx; eauto.
  - destruct (nullish part); [eauto |].
    destruct (IH Hin Hx) as [e ->]; eauto.
Qed.

(** X3. A request that passes the validation for [openai],
    [openrouter] or [google] and whose [messages] is absent, [null], an
    empty array, or an array that ends with [null], is not refused with a
    400: reading the last message throws, the answer is the fixed 500,
    and no streaming call is made. *)
Theorem POST_without_last_message (w : Platform) (body : value) (provider : string) :
  truthy (field (field body "apiConfig") "apiKey") = true ->
  field (field body "apiConfig") "provider" = VStr provider ->
  In provider ["openai"; "openrouter"; "google"] ->
  field body "messages" = VUndefined
  \/ field body "messages" = VNull
  \/ field body "messages" = VArr []
  \/ (exists before, field body "messages" = VArr (before ++ [VNull])) ->
  POST w {| req_json := inr body |}
  = (internal_server_error, [console_error "Error in chat route:"]).
Proof.
  intros Hkey Hprovider Hknown Hmessages.
  assert (Hthrow : exists e,
             assemble_context w (field body "messages") (field body "xml") initial_scope
             = (Throw e, initial_scope)).
  { unfold assemble_context, bind.
    destruct Hmessages as [-> | [-> | [-> | [before ->]]]];
      try (eexists; reflexivity).
    rewrite last_element_messages; eexists; reflexivity. }
  destruct Hthrow as [e Hthrow].
  exact (POST_assembly_throws w body provider e Hkey Hprovider Hknown Hthrow).
Qed.

Lemma POST_without_last_message_witness :
  POST (Mock.platform Mock.offline)
       (Mock.request (Mock.chat_body [] "<root/>" (Mock.api_config "google" "AIza-test")))
  = (internal_server_error, [console_error "Error in chat route:"]).
Proof.
  apply (POST_without_last_message (Mock.platform Mock.offline)
           (Mock.chat_body [] "<root/>" (Mock.api_config "google" "AIza-test")) "google").
  - reflexivity.
  - reflexivity.
  - right; right; left; reflexivity.
  - right; right; left; reflexivity.
Defined.

(** X4. A request that passes the validation for a streaming provider
    and whose last message has [parts] that are no array (a string, a
    number, an object), or an array with a [null] in it, is answered with
    the fixed 500 and no streaming call: the [find] or the [filter] over
    the parts throws. *)
Theorem POST_malformed_parts (w : Platform) (body : value) (provider : string)
        (before : list value) (lastMessage : value) :
  truthy (field (field body "apiConfig") "apiKey") = true ->
  field (field body "apiConfig") "provider" = VStr provider ->
  In provider ["openai"; "openrouter"; "google"] ->
  field body "messages" = VArr (before ++ [lastMessage]) ->
  (exists b, field lastMessage "parts" = VBool b)
  \/ (exists n, field lastMessage "parts" = VNum n)
  \/ (exists text, field lastMessage "parts" = VStr text)
  \/ (exists props, field lastMessage "parts" = VObj props)
  \/ (exists items x,
         field lastMessage "parts" = VArr items /\ In x items /\ nullish x = true) ->
  POST w {| req_json := inr body |}
  = (internal_server_error, [console_error "Error in chat route:"]).
Proof.
  intros Hkey Hprovider Hknown Hmessages Hparts.
  assert (Hlast : nullish lastMessage = false).
  { destruct lastMessage; try reflexivity;
      destruct Hparts as [[? H] | [[? H] | [[? H] | [[? H] | (? & ? & H & _)]]]];
      discriminate H. }
  assert (Hthrow : exists e,
             assemble_context w (field body "messages") (field body "xml") initial_scope
             = (Throw e, initial_scope)).
  { unfold assemble_context, bind.
    rewrite Hmessages, last_element_messages; cbn [lift ret].
    rewrite get_not_nullish by exact Hlast; cbn [lift ret].
    destruct Hparts as [[? ->] | [[? ->] | [[? ->] | [[? ->] | (items & x & -> & Hin & Hx)]]]];
      try (eexists; reflexivity).
    cbn [find_text filter_files].
    destruct (find_by_type "text" items) as [e | found]; cbn [lift throw ret];
      [eexists; reflexivity |].
    destruct (filter_by_type_nullish "file" items x Hin Hx) as [e ->].
    eexists; reflexivity. }
  destruct Hthrow as [e Hthrow].
  exact (POST_assembly_throws w body provider e Hkey Hprovider Hknown Hthrow).
Qed.

Lemma POST_malformed_parts_witness :
  POST (Mock.platform Mock.offline)
       (Mock.request
          (VObj [("messages",
                  VArr [VObj [("role", VStr "user");
                              ("parts", VArr [VObj [("type", VStr "text");
                                                    ("text", VStr "Hi")];
                                              VNull])]]);
                 ("apiConfig", Mock.api_config "openai" "sk-test")]))
  = (internal_server_error, [console_error "Error in chat route:"]).
Proof.
  apply (POST_malformed_parts (Mock.platform Mock.offline) _ "openai" []
           (VObj [("role", VStr "user");
                  ("parts", VArr [VObj [("type", VStr "text"); ("text", VStr "Hi")];
                                  VNull])])).
  - reflexivity.
  - reflexivity.
  - left; reflexivity.
  - reflexivity.
  - do 4 right. eexists; exists VNull. split; [reflexivity |].
    split; [right; left; reflexivity | reflexivity].
Defined.

(** ** Turns the assembly leaves alone, and messages without parts *)

(** X5. When the conversion yields no message, or a last message whose
    role is not [user] (an assistant or tool turn), the handler attaches
    nothing: the streaming call receives the converted messages as they
    are, without the diagram XML and without the last message's text or
    files.  The template is built all the same before the role is
    looked at, so the last message posted must be readable (an object
    with no [parts] or an array of parts without [null]) and the two
    holes of the template must convert to strings. *)
Theorem POST_keeps_non_user_turn (w : Platform) (body : value)
        (before items : list value) (lastMessage : value) (xml_text user_text : string)
        (modelMessages : list ModelMessage) (provider : string) :
  field body "messages" = VArr (before ++ [lastMessage]) ->
  nullish lastMessage = false ->
  field lastMessage "parts" = VArr items
  \/ (nullish (field lastMessage "parts") = true /\ items = []) ->
  (forall part, In part items -> nullish part = false) ->
  ToString w (or_else (field body "xml") (VStr EmptyString)) = inr xml_text ->
  ToString w
    (or_else match find (fun part => strict_eq_str (field part "type") "text") items with
             | Some part => field part "text"
             | None => VUndefined
             end
             (VStr EmptyString))
  = inr user_text ->
  convertToModelMessages w (field body "messages") = inr modelMessages ->
  truthy (field (field body "apiConfig") "apiKey") = true ->
  field (field body "apiConfig") "provider" = VStr provider ->
  In provider ["openai"; "openrouter"; "google"] ->
  modelMessages = []
  \/ (exists earlier lastModelMessage,
         modelMessages = (earlier ++ [lastModelMessage])%list
         /\ role lastModelMessage <> "user") ->
  exists selectedModel,
    POST w {| req_json := inr body |}
    = (toUIMessageStreamResponse
         {| Route.system := systemMessage; Route.model := selectedModel;
            Route.messages := modelMessages;
            Route.tools := declared_tools; Route.temperature := 0 |}
         (errorHandler w),
       [console_log "Enhanced messages:";
        streamText_call
          {| Route.system := systemMessage; Route.model := selectedModel;
             Route.messages := modelMessages;
             Route.tools := declared_tools; Route.temperature := 0 |}]).
Proof.
  intros Hmessages Hnull Hparts Hitems Hxml Htext Hconvert Hkey Hprovider Hknown Hlast.
  destruct (POST_try_streaming w body provider Hkey Hprovider Hknown)
    as (selectedModel & Htry & _).
  exists selectedModel.
  rewrite Hmessages in Hconvert.
  destruct (assemble_context_runs w before items lastMessage (field body "xml")
              xml_text user_text _ initial_scope Hnull Hparts Hitems Hxml Htext Hconvert)
    as (enhanced & Hrun & _ & Hother & Hempty).
  assert (E : enhanced = modelMessages).
  { destruct Hlast as [-> | (earlier & lm & -> & Hrole)].
    - now apply Hempty.
    - exact (Hother earlier lm eq_refl Hrole). }
  subst enhanced.
  rewrite <- Hmessages in Hrun.
  unfold POST; rewrite Htry.
  erewrite bind_normal by exact Hrun.
  cbn [trace initial_scope]; rewrite respond_runs; reflexivity.
Qed.

Lemma POST_keeps_non_user_turn_witness :
  exists selectedModel,
    POST (Mock.platform Mock.offline)
         (Mock.request
            (Mock.chat_body [Mock.done] "<root/>" (Mock.api_config "openai" "sk-test")))
    = (toUIMessageStreamResponse
         {| Route.system := systemMessage; Route.model := selectedModel;
            Route.messages :=
              [ {| role := "assistant";
                   content := VArr [VObj [("type", VStr "text");
                                          ("text", VStr "Done.")]];
                   others := [] |} ];
            Route.tools := declared_tools; Route.temperature := 0 |}
         (errorHandler (Mock.platform Mock.offline)),
       [console_log "Enhanced messages:";
        streamText_call
          {| Route.system := systemMessage; Route.model := selectedModel;
             Route.messages :=
               [ {| role := "assistant";
                    content := VArr [VObj [("type", VStr "text");
                                           ("text", VStr "Done.")]];
                    others := [] |} ];
             Route.tools := declared_tools; Route.temperature := 0 |}]).
Proof.
  apply (POST_keeps_non_user_turn (Mock.platform Mock.offline)
           (Mock.chat_body [Mock.done] "<root/>" (Mock.api_config "openai" "sk-test"))
           [] [VObj [("type", VStr "text"); ("text", VStr "Done.")]] Mock.done
           "<root/>" "Done." _ "openai"); try reflexivity.
  - now left.
  - intros part [<- | []]; reflexivity.
  - left; reflexivity.
  - right. exists [].
    exists {| role := "assistant";
              content := VArr [VObj [("type", VStr "text"); ("text", VStr "Done.")]];
              others := [] |}.
    split; [reflexivity | discriminate].
Defined.

(** X6. A last message that has no [parts] (the property is absent or
    [null]) and a request without diagram ([xml] absent, [null] or
    empty) do not stop the handler: the user turn gets a content of one
    text part, the template with both sections empty, and no image
    entry. *)
Theorem assemble_context_without_parts
        (w : Platform) (before : list value) (lastMessage xml : value)
        (earlier : list ModelMessage) (lastModelMessage : ModelMessage) (s : Scope) :
  nullish lastMessage = false ->
  nullish (field lastMessage "parts") = true ->
  truthy xml = false ->
  convertToModelMessages w (VArr (before ++ [lastMessage]))
  = inr (earlier ++ [lastModelMessage])%list ->
  role lastModelMessage = "user" ->
  assemble_context w (VArr (before ++ [lastMessage])) xml s
  = (Normal tt,
     {| enhancedMessages :=
          Some (earlier
                ++ [ {| role := role lastModelMessage;
                        content :=
                          VArr [VObj [("type", VStr "text");
                                      ("text", VStr ("
Current diagram XML:
" ++ dq ++ dq ++ dq ++ "xml

" ++ dq ++ dq ++ dq ++ "
User input:
" ++ dq ++ dq ++ dq ++ "md

" ++ dq ++ dq ++ dq))]];
                        others := others lastModelMessage |} ])%list;
        trace := trace s |}).
Proof.
  intros Hlast Hparts Hxml Hconvert Huser.
  assert (Hfind : find_text (field lastMessage "parts") = inr VUndefined)
    by (destruct (field lastMessage "parts"); try discriminate Hparts; reflexivity).
  assert (Hfilter : filter_files (field lastMessage "parts") = inr [])
    by (destruct (field lastMessage "parts"); try discriminate Hparts; reflexivity).
  assert (Hformatted :
            formattedTextContent w xml (or_else VUndefined (VStr EmptyString))
            = inr (template EmptyString EmptyString))
    by (unfold formattedTextContent, or_else; now rewrite Hxml).
  destruct (assemble_context_with w (VArr (before ++ [lastMessage])) xml lastMessage
              (field lastMessage "parts") VUndefined [] _ _ s
              (last_element_messages w before lastMessage)
              (get_not_nullish _ _ Hlast) Hfind Hfilter Hformatted Hconvert)
    as (enhanced & Hrun & Hrewritten & _).
  rewrite Hrun, (Hrewritten earlier lastModelMessage eq_refl Huser).
  reflexivity.
Qed.

Lemma assemble_context_without_parts_witness :
  enhancedMessages
    (snd (assemble_context (Mock.platform Mock.offline)
            (VArr [VObj [("role", VStr "user")]]) VNull initial_scope))
  = Some [ {| role := "user";
              content :=
                VArr [VObj [("type", VStr "text");
                            ("text", VStr ("
Current diagram XML:
" ++ dq ++ dq ++ dq ++ "xml

" ++ dq ++ dq ++ dq ++ "
User input:
" ++ dq ++ dq ++ dq ++ "md

" ++ dq ++ dq ++ dq))]];
              others := [] |} ].
Proof.
  exact (f_equal (fun run => enhancedMessages (snd run))
           (assemble_context_without_parts (Mock.platform Mock.offline) []
              (VObj [("role", VStr "user")]) VNull []
              {| role := "user"; content := VUndefined; others := [] |} initial_scope
              eq_refl eq_refl eq_refl eq_refl eq_refl)).
Defined.

(** ** The fenced-block pattern *)

(** Induction along the steps of [skip_ws]: a white space character of
    one, two or three bytes is dropped, anything else stops the scan. *)
Lemma skip_ws_graph (P : string -> string -> Prop) :
  P EmptyString EmptyString ->
  (forall a r1, ws1 a = true -> P r1 (skip_ws r1) -> P (String a r1) (skip_ws r1)) ->
  (forall a, ws1 a = false -> P (String a EmptyString) (String a EmptyString)) ->
  (forall a b r2, ws1 a = false -> ws2 a b = true -> P r2 (skip_ws r2) ->
                  P (String a (String b r2)) (skip_ws r2)) ->
  (forall a b, ws1 a = false -> ws2 a b = false ->
               P (String a (String b EmptyString)) (String a (String b EmptyString))) ->
  (forall a b c r3, ws1 a = false -> ws2 a b = false -> ws3 a b c = true ->
                    P r3 (skip_ws r3) ->
                    P (String a (String b (String c r3))) (skip_ws r3)) ->
  (forall a b c r3, ws1 a = false -> ws2 a b = false -> ws3 a b c = false ->
                    P (String a (String b (String c r3)))
                      (String a (String b (String c r3)))) ->
  forall s, P s (skip_ws s).
Proof.
  intros Hnil H1 Hone H2 Htwo H3 Hthree s.
  remember (String.length s) as n eqn:Hn.
  revert s Hn; induction n as [n IH] using lt_wf_ind; intros s ->.
  destruct s as [| a r1]; [exact Hnil |].
  cbn [skip_ws]; destruct (ws1 a) eqn:E1.
  { apply H1; [exact E1 |]. apply (IH (String.length r1)); [cbn; lia | reflexivity]. }
  destruct r1 as [| b r2]; [now apply Hone |].
  destruct (ws2 a b) eqn:E2.
  { apply H2; trivial. apply (IH (String.length r2)); [cbn; lia | reflexivity]. }
  destruct r2 as [| c r3]; [now apply Htwo |].
  destruct (ws3 a b c) eqn:E3.
  { apply H3; trivial. apply (IH (String.length r3)); [cbn; lia | reflexivity]. }
  now apply Hthree.
Qed.

(** What [skip_ws] drops is white space only, and it drops it from the
    front. *)
Lemma skip_ws_split (s : string) :
  exists gap, s = gap ++ skip_ws s /\ skip_ws gap = EmptyString.
Proof.
  apply (skip_ws_graph (fun s rest => exists gap, s = gap ++ rest
                                                  /\ skip_ws gap = EmptyString)).
  - exists EmptyString; split; reflexivity.
  - intros a r1 E1 (gap & Hsplit & Hgap).
    exists (String a gap); split; [cbn; now rewrite <- Hsplit |].
    cbn [skip_ws]; now rewrite E1.
  - intros a _; exists EmptyString; split; reflexivity.
  - intros a b r2 E1 E2 (gap & Hsplit & Hgap).
    exists (String a (String b gap)); split; [cbn; now rewrite <- Hsplit |].
    cbn [skip_ws]; now rewrite E1, E2.
  - intros a b _ _; exists EmptyString; split; reflexivity.
  - intros a b c r3 E1 E2 E3 (gap & Hsplit & Hgap).
    exists (String a (String b (String c gap))); split; [cbn; now rewrite <- Hsplit |].
    cbn [skip_ws]; now rewrite E1, E2, E3.
  - intros a b c r3 _ _ _; exists EmptyString; split; reflexivity.
Qed.

Lemma skip_ws_idempotent (s : string) : skip_ws (skip_ws s) = skip_ws s.
Proof.
  apply (skip_ws_graph (fun _ rest => skip_ws rest = rest)); try (intros; assumption).
  - reflexivity.
  - intros a E1; cbn [skip_ws]; now rewrite E1.
  - intros a b E1 E2; cbn [skip_ws]; now rewrite E1, E2.
  - intros a b c r3 E1 E2 E3; cbn [skip_ws]; now rewrite E1, E2, E3.
Qed.

(** White space in front of a text is skipped with it. *)
Lemma skip_ws_app (gap rest : string) :
  skip_ws gap = EmptyString -> skip_ws (gap ++ rest) = skip_ws rest.
Proof.
  revert rest.
  apply (skip_ws_graph (fun gap skipped =>
                          forall rest, skipped = EmptyString ->
                                       skip_ws (gap ++ rest) = skip_ws rest));
    try (intros; discriminate).
  - reflexivity.
  - intros a r1 E1 IH rest Hempty.
    cbn [append skip_ws]; rewrite E1; now apply IH.
  - intros a b r2 E1 E2 IH rest Hempty.
    cbn [append skip_ws]; rewrite E1, E2; now apply IH.
  - intros a b c r3 E1 E2 E3 IH rest Hempty.
    cbn [append skip_ws]; rewrite E1, E2, E3; now apply IH.
Qed.

Lemma skip_ws_drop1 (a : ascii) (r1 : string) :
  ws1 a = true -> skip_ws (String a r1) = skip_ws r1.
Proof. intros E1; cbn [skip_ws]; now rewrite E1. Qed.

Lemma skip_ws_drop2 (a b : ascii) (r2 : string) :
  ws1 a = false -> ws2 a b = true -> skip_ws (String a (String b r2)) = skip_ws r2.
Proof. intros E1 E2; cbn [skip_ws]; now rewrite E1, E2. Qed.

Lemma skip_ws_drop3 (a b c : ascii) (r3 : string) :
  ws1 a = false -> ws2 a b = false -> ws3 a b c = true ->
  skip_ws (String a (String b (String c r3))) = skip_ws r3.
Proof. intros E1 E2 E3; cbn [skip_ws]; now rewrite E1, E2, E3. Qed.

Lemma skip_ws_shorter (s t : string) :
  String.length t < String.length s -> skip_ws t <> s.
Proof.
  intros Hlt E.
  assert (Hlen : String.length (skip_ws t) <= String.length t).
  { apply (skip_ws_graph (fun t skipped => String.length skipped <= String.length t));
      intros; cbn [String.length] in *; lia. }
  rewrite E in Hlen; lia.
Qed.

(** A text that [skip_ws] leaves alone starts with no white space, and
    neither does any piece cut from its front. *)
Lemma skip_ws_fixed_prefix (front rest : string) :
  skip_ws (front ++ rest) = front ++ rest -> skip_ws front = front.
Proof.
  intros Hfixed.
  destruct front as [| a front]; [reflexivity |].
  cbn [append] in Hfixed.
  destruct (ws1 a) eqn:E1.
  { rewrite skip_ws_drop1 in Hfixed by exact E1.
    exfalso; refine (skip_ws_shorter _ _ _ Hfixed); cbn; lia. }
  destruct front as [| b front]; [cbn [skip_ws]; now rewrite E1 |].
  cbn [append] in Hfixed.
  destruct (ws2 a b) eqn:E2.
  { rewrite skip_ws_drop2 in Hfixed by assumption.
    exfalso; refine (skip_ws_shorter _ _ _ Hfixed); cbn; lia. }
  destruct front as [| c front]; [cbn [skip_ws]; now rewrite E1, E2 |].
  cbn [append] in Hfixed.
  destruct (ws3 a b c) eqn:E3.
  { rewrite skip_ws_drop3 in Hfixed by assumption.
    exfalso; refine (skip_ws_shorter _ _ _ Hfixed); cbn; lia. }
  cbn [skip_ws]; now rewrite E1, E2, E3.
Qed.

Lemma prefix_split (p s : string) :
  String.prefix p s = true -> s = p ++ string_drop (String.length p) s.
Proof.
  revert s; induction p as [| a p IH]; intros s Hprefix; [reflexivity |].
  destruct s as [| b s]; [discriminate |].
  cbn [String.prefix] in Hprefix.
  destruct (ascii_dec a b) as [<- |]; [| discriminate].
  cbn; now rewrite <- IH.
Qed.

(** The lazy group: it is followed by white space and a fence, and it
    ends with no white space. *)
Lemma capture_until_fence_split (s xml : string) :
  capture_until_fence s = Some xml ->
  exists rest, s = xml ++ rest /\ String.prefix fence (skip_ws rest) = true.
Proof.
  revert xml; induction s as [| a s IH]; intros xml; cbn [capture_until_fence].
  - destruct (String.prefix fence (skip_ws EmptyString)) eqn:E; [| discriminate].
    intros [= <-]; exists EmptyString; split; [reflexivity | exact E].
  - destruct (String.prefix fence (skip_ws (String a s))) eqn:E.
    + intros [= <-]; exists (String a s); split; [reflexivity | exact E].
    + destruct (capture_until_fence s) as [xml' |]; [| discriminate].
      intros [= <-].
      destruct (IH xml' eq_refl) as (rest & -> & Hfence).
      exists rest; split; [reflexivity | exact Hfence].
Qed.

Lemma capture_until_fence_trim_end (s xml : string) :
  capture_until_fence s = Some xml -> ConfigForm.trim_end xml = xml.
Proof.
  revert xml; induction s as [| a s IH]; intros xml; cbn [capture_until_fence].
  - destruct (String.prefix fence (skip_ws EmptyString)); [| discriminate].
    intros [= <-]; reflexivity.
  - destruct (String.prefix fence (skip_ws (String a s))) eqn:E.
    + intros [= <-]; reflexivity.
    + destruct (capture_until_fence s) as [xml' |] eqn:Hcapture; [| discriminate].
      intros [= <-].
      destruct (capture_until_fence_split _ _ Hcapture) as (rest & Hsplit & Hfence).
      cbn [ConfigForm.trim_end].
      destruct (skip_ws (String a xml')) eqn:Hblank.
      * exfalso.
        assert (Hskip : skip_ws (String a xml' ++ rest) = skip_ws rest)
          by now apply skip_ws_app.
        cbn [append] in Hskip; rewrite <- Hsplit in Hskip.
        rewrite Hskip, Hfence in E; discriminate.
      * now rewrite (IH xml' eq_refl).
Qed.

Lemma match_fence_here_group (s xml : string) :
  match_fence_here s = Some xml ->
  exists gap1 gap2 post,
    s = "```xml" ++ gap1 ++ xml ++ gap2 ++ "```" ++ post
    /\ skip_ws gap1 = EmptyString
    /\ skip_ws gap2 = EmptyString
    /\ ConfigForm.trim xml = xml.
Proof.
  unfold match_fence_here.
  destruct (String.prefix "```xml" s) eqn:Hlabel; [| discriminate].
  intros Hcapture.
  apply prefix_split in Hlabel; cbn [String.length] in Hlabel.
  destruct (skip_ws_split (string_drop 6 s)) as (gap1 & Hgap1 & Hblank1).
  destruct (capture_until_fence_split _ _ Hcapture) as (rest & Hrest & Hfence).
  destruct (skip_ws_split rest) as (gap2 & Hgap2 & Hblank2).
  apply prefix_split in Hfence; cbn [String.length fence] in Hfence.
  exists gap1, gap2, (string_drop 3 (skip_ws rest)).
  repeat split; trivial.
  - rewrite Hlabel at 1; f_equal.
    rewrite Hgap1 at 1; f_equal.
    rewrite Hrest at 1; f_equal.
    rewrite Hgap2 at 1; f_equal.
    exact Hfence.
  - unfold ConfigForm.trim.
    assert (Hfront : skip_ws xml = xml).
    { apply (skip_ws_fixed_prefix xml rest).
      rewrite <- Hrest; apply skip_ws_idempotent. }
    rewrite Hfront.
    exact (capture_until_fence_trim_end _ _ Hcapture).
Qed.

(** A match is a match at some position of the reply. *)
Lemma match_xml_fence_found (s xml : string) :
  match_xml_fence s = Some xml ->
  exists pre rest, s = pre ++ rest /\ match_fence_here rest = Some xml.
Proof.
  induction s as [| a s IH]; cbn [match_xml_fence].
  - destruct (match_fence_here EmptyString) as [found |] eqn:Hhere; [| discriminate].
    intros [= <-]; exists EmptyString, EmptyString; now split.
  - destruct (match_fence_here (String a s)) as [found |] eqn:Hhere.
    + intros [= <-]; exists EmptyString, (String a s); now split.
    + intros Hlater.
      destruct (IH Hlater) as (pre & rest & -> & Hrest).
      exists (String a pre), rest; now split.
Qed.

(** X7. When the pattern matches a reply, the captured group is the
    text between the first label and the fence that follows it, cut free
    of the white space on both sides: the reply reads
    [pre ```xml gap1 group gap2 ``` post] with [gap1] and [gap2] white
    space only, and the group is its own [trim()]. *)
Theorem match_xml_fence_group (s xml : string) :
  match_xml_fence s = Some xml ->
  exists pre gap1 gap2 post,
    s = pre ++ "```xml" ++ gap1 ++ xml ++ gap2 ++ "```" ++ post
    /\ skip_ws gap1 = EmptyString
    /\ skip_ws gap2 = EmptyString
    /\ ConfigForm.trim xml = xml.
Proof.
  intros Hmatch.
  destruct (match_xml_fence_found s xml Hmatch) as (pre & rest & -> & Hhere).
  destruct (match_fence_here_group rest xml Hhere) as (gap1 & gap2 & post & -> & H).
  now exists pre, gap1, gap2, post.
Qed.

Lemma match_xml_fence_group_witness :
  exists pre gap1 gap2 post,
    Mock.fenced_reply = pre ++ "```xml" ++ gap1 ++ "<root/>" ++ gap2 ++ "```" ++ post
    /\ skip_ws gap1 = EmptyString
    /\ skip_ws gap2 = EmptyString
    /\ ConfigForm.trim "<root/>" = "<root/>".
Proof.
  exact (match_xml_fence_group Mock.fenced_reply "<root/>" eq_refl).
Defined.

(** A fence is no white space. *)
Lemma skip_ws_keeps_fence (front rest : string) :
  exists front', skip_ws (front ++ fence ++ rest) = front' ++ fence ++ rest.
Proof.
  remember (String.length front) as n eqn:Hn.
  revert front Hn; induction n as [n IH] using lt_wf_ind; intros front ->.
  destruct front as [| a front]; [exists EmptyString; reflexivity |].
  cbn [append].
  destruct (ws1 a) eqn:E1.
  { rewrite skip_ws_drop1 by exact E1.
    apply (IH (String.length front)); [cbn; lia | reflexivity]. }
  destruct front as [| b front].
  { exists (String a EmptyString).
    cbn [append fence skip_ws]; rewrite E1.
    unfold ws2, ws3; cbn [byte nat_of_ascii].
    rewrite !andb_false_r; reflexivity. }
  cbn [append].
  destruct (ws2 a b) eqn:E2.
  { rewrite skip_ws_drop2 by assumption.
    apply (IH (String.length front)); [cbn; lia | reflexivity]. }
  destruct front as [| c front].
  { exists (String a (String b EmptyString)).
    cbn [append fence skip_ws]; rewrite E1, E2.
    replace (ws3 a b "`"%char) with false; [reflexivity |].
    unfold ws3; cbn [byte].
    change (nat_of_ascii "`"%char) with 96.
    cbn [Nat.eqb Nat.leb].
    now rewrite ?andb_false_r, ?orb_false_r. }
  cbn [append].
  destruct (ws3 a b c) eqn:E3.
  { rewrite skip_ws_drop3 by assumption.
    apply (IH (String.length front)); [cbn; lia | reflexivity]. }
  exists (String a (String b (String c front))).
  cbn [append skip_ws]; now rewrite E1, E2, E3.
Qed.

Lemma string_append_assoc (a b c : string) : (a ++ b) ++ c = a ++ b ++ c.
Proof. induction a as [| x a IH]; cbn [append]; [reflexivity | now rewrite IH]. Qed.

Lemma prefix_app (p rest : string) : String.prefix p (p ++ rest) = true.
Proof.
  induction p as [| a p IH]; cbn [append String.prefix].
  - now destruct rest.
  - destruct (ascii_dec a a); [exact IH | contradiction].
Qed.

Lemma capture_until_fence_finds (front rest : string) :
  capture_until_fence (front ++ fence ++ rest) <> None.
Proof.
  induction front as [| a front IH]; cbn [append capture_until_fence].
  - change (capture_until_fence (fence ++ rest))
      with (if String.prefix fence (skip_ws (fence ++ rest))
            then Some EmptyString
            else option_map (String "`"%char)
                            (capture_until_fence ("``" ++ rest))).
    change (skip_ws (fence ++ rest)) with (fence ++ rest).
    rewrite prefix_app; discriminate.
  - destruct (String.prefix fence (skip_ws (String a (front ++ fence ++ rest))));
      [discriminate |].
    destruct (capture_until_fence (front ++ fence ++ rest)); [discriminate | contradiction].
Qed.

Lemma match_xml_fence_here (s xml : string) :
  match_fence_here s = Some xml -> match_xml_fence s = Some xml.
Proof. intros Hhere; destruct s; cbn [match_xml_fence]; now rewrite Hhere. Qed.

Lemma match_xml_fence_later (a : ascii) (s : string) :
  (exists xml, match_xml_fence s = Some xml) ->
  exists xml, match_xml_fence (String a s) = Some xml.
Proof.
  intros [xml Hlater]; cbn [match_xml_fence].
  destruct (match_fence_here (String a s)) as [found |]; eauto.
Qed.

(** X8. The pattern matches a reply exactly when the reply contains
    the label [```xml] and, somewhere after it, another fence; a reply
    without the label or with an unclosed block has no match, and its
    text would be framed as it is. *)
Theorem match_xml_fence_exists (s : string) :
  (exists xml, match_xml_fence s = Some xml)
  <-> (exists pre mid post, s = pre ++ "```xml" ++ mid ++ "```" ++ post).
Proof.
  split.
  - intros [xml Hmatch].
    destruct (match_xml_fence_found s xml Hmatch) as (pre & rest & -> & Hhere).
    destruct (match_fence_here_group rest xml Hhere) as (gap1 & gap2 & post & -> & _).
    exists pre, (gap1 ++ xml ++ gap2), post.
    do 2 f_equal.
    now rewrite !string_append_assoc.
  - intros (pre & mid & post & ->).
    induction pre as [| a pre IH].
    + destruct (match_fence_here ("```xml" ++ mid ++ "```" ++ post)) as [xml |] eqn:Hhere.
      * exists xml; now apply match_xml_fence_here.
      * exfalso; revert Hhere.
        unfold match_fence_here; rewrite prefix_app.
        change (string_drop 6 ("```xml" ++ mid ++ "```" ++ post))
          with (mid ++ fence ++ post).
        destruct (skip_ws_keeps_fence mid post) as [front' ->].
        apply capture_until_fence_finds.
    + now apply match_xml_fence_later.
Qed.

(* ================================================================== *)
(** * Properties of the dialog's form *)
(* ================================================================== *)

(** ** Property lists *)

Lemma own_set_own (props : list (string * value)) (key : string) (x : value) :
  own (set_own props key x) key = x.
Proof.
  induction props as [| [k v] rest IH]; cbn [set_own own].
  - now rewrite String.eqb_refl.
  - destruct (String.eqb k key) eqn:E; cbn [own]; now rewrite E.
Qed.

Lemma own_set_own_other (props : list (string * value)) (key other : string) (x : value) :
  other <> key -> own (set_own props key x) other = own props other.
Proof.
  intros Hne.
  induction props as [| [k v] rest IH]; cbn [set_own own].
  - apply String.eqb_neq in Hne; rewrite String.eqb_sym in Hne; now rewrite Hne.
  - destruct (String.eqb k key) eqn:E; cbn [own].
    + apply String.eqb_eq in E; subst k.
      apply String.eqb_neq in Hne; rewrite String.eqb_sym in Hne; now rewrite Hne.
    + now rewrite IH.
Qed.

(** ** The provider table *)

Lemma find_by_id (p : ProviderInfo) :
  In p providers ->
  find (fun q => String.eqb (id q) (id p)) providers = Some p.
Proof.
  intros [<- | [<- | [<- | [<- | []]]]]; reflexivity.
Qed.

Lemma default_model_listed (p : ProviderInfo) :
  In p providers -> In (defaultModel p) (models p).
Proof.
  intros [<- | [<- | [<- | [<- | []]]]]; left; reflexivity.
Qed.

Lemma selectedProvider_provider (c : value) (p : ProviderInfo) :
  ConfigForm.selectedProvider c = Some p ->
  In p providers /\ field c "provider" = VStr (id p).
Proof.
  intros Hsel; apply find_some in Hsel as [Hin Heq].
  split; [exact Hin | now apply strict_eq_str_true].
Qed.

Lemma selectedProvider_of (c : value) (p : ProviderInfo) :
  In p providers -> field c "provider" = VStr (id p) ->
  ConfigForm.selectedProvider c = Some p.
Proof.
  intros Hin Hprovider; unfold ConfigForm.selectedProvider.
  rewrite Hprovider; now apply find_provider.
Qed.

(** ** Choosing a provider *)

Lemma handleProviderChange_config (rt : ConfigForm.Runtime) (st : ConfigForm.State)
      (p : ProviderInfo) :
  In p providers ->
  ConfigForm.handleProviderChange rt st (id p)
  = ConfigForm.with_config st
      (VObj (set_own (set_own (ConfigForm.spread rt (ConfigForm.config st))
                              "provider" (VStr (id p)))
                     "model" (VStr (defaultModel p)))).
Proof.
  intros Hin; unfold ConfigForm.handleProviderChange.
  now rewrite find_by_id.
Qed.

(** X11. A click on the button of a provider of the table makes that
    provider the selected one and sets the model to the provider's
    default, which is one of the provider's built-in models; every other
    property of an object config (the key among them) is kept, and so
    are the fetched list, the search text and the flags. *)
Theorem handleProviderChange_selects (rt : ConfigForm.Runtime) (st : ConfigForm.State)
        (p : ProviderInfo) :
  In p providers ->
  ConfigForm.selectedProvider
    (ConfigForm.config (ConfigForm.handleProviderChange rt st (id p))) = Some p
  /\ field (ConfigForm.config (ConfigForm.handleProviderChange rt st (id p))) "model"
     = VStr (defaultModel p)
  /\ In (defaultModel p) (models p)
  /\ (forall props key,
         ConfigForm.config st = VObj props ->
         key <> "provider" -> key <> "model" ->
         field (ConfigForm.config (ConfigForm.handleProviderChange rt st (id p))) key
         = field (ConfigForm.config st) key)
  /\ ConfigForm.availableModels (ConfigForm.handleProviderChange rt st (id p))
     = ConfigForm.availableModels st
  /\ ConfigForm.modelSearchQuery (ConfigForm.handleProviderChange rt st (id p))
     = ConfigForm.modelSearchQuery st
  /\ ConfigForm.isLoadingModels (ConfigForm.handleProviderChange rt st (id p))
     = ConfigForm.isLoadingModels st
  /\ ConfigForm.isOpen (ConfigForm.handleProviderChange rt st (id p))
     = ConfigForm.isOpen st.
Proof.
  intros Hin.
  rewrite handleProviderChange_config by exact Hin.
  cbn [ConfigForm.with_config ConfigForm.config ConfigForm.availableModels
       ConfigForm.modelSearchQuery ConfigForm.isLoadingModels ConfigForm.isOpen field].
  split.
  { apply selectedProvider_of; [exact Hin |].
    cbn [field]; rewrite own_set_own_other by discriminate.
    apply own_set_own. }
  split; [apply own_set_own |].
  split; [now apply default_model_listed |].
  split; [| repeat split].
  intros props key Hconfig Hprovider Hmodel.
  rewrite Hconfig; cbn [ConfigForm.spread field].
  now rewrite !own_set_own_other by assumption.
Qed.

Lemma handleProviderChange_selects_witness :
  ConfigForm.selectedProvider
    (ConfigForm.config
       (ConfigForm.handleProviderChange (FormMock.runtime Mock.offline)
          (FormMock.state_for "openai" "sk-test" "gpt-4-turbo") "siliconflow"))
  = Some FormMock.siliconflow_entry
  /\ field (ConfigForm.config
              (ConfigForm.handleProviderChange (FormMock.runtime Mock.offline)
                 (FormMock.state_for "openai" "sk-test" "gpt-4-turbo") "siliconflow"))
           "apiKey"
     = VStr "sk-test".
Proof.
  destruct (handleProviderChange_selects (FormMock.runtime Mock.offline)
              (FormMock.state_for "openai" "sk-test" "gpt-4-turbo")
              FormMock.siliconflow_entry
              (or_intror (or_intror (or_intror (or_introl eq_refl)))))
    as (Hselected & _ & _ & Hkept & _).
  split; [exact Hselected |].
  exact (Hkept _ "apiKey" eq_refl ltac:(discriminate) ltac:(discriminate)).
Defined.

(** X12. The options of the model select after a click on a provider
    button.  While no list has been fetched they are the built-in models
    of the new provider, whatever the search text, and the model just
    set is one of them.  Once a list has been fetched the click changes
    nothing in the options: the fetched list of the provider that was
    selected before is still the one filtered and shown. *)
Theorem displayModels_after_provider_change (rt : ConfigForm.Runtime)
        (st : ConfigForm.State) (p : ProviderInfo) :
  In p providers ->
  ConfigForm.displayModels rt (ConfigForm.handleProviderChange rt st (id p))
  = match ConfigForm.availableModels st with
    | [] => inr (map VStr (models p))
    | _ :: _ => ConfigForm.displayModels rt st
    end
  /\ (ConfigForm.availableModels st = [] ->
      exists options,
        ConfigForm.displayModels rt (ConfigForm.handleProviderChange rt st (id p))
        = inr options
        /\ In (field (ConfigForm.config (ConfigForm.handleProviderChange rt st (id p)))
                     "model")
              options).
Proof.
  intros Hin.
  assert (Hselected :
            ConfigForm.selectedProvider
              (ConfigForm.config (ConfigForm.handleProviderChange rt st (id p)))
            = Some p).
  { rewrite handleProviderChange_config by exact Hin.
    apply selectedProvider_of; [exact Hin |].
    cbn [ConfigForm.with_config ConfigForm.config field].
    rewrite own_set_own_other by discriminate.
    apply own_set_own. }
  assert (Hmodel :
            field (ConfigForm.config (ConfigForm.handleProviderChange rt st (id p)))
                  "model"
            = VStr (defaultModel p)).
  { rewrite handleProviderChange_config by exact Hin.
    cbn [ConfigForm.with_config ConfigForm.config field]; apply own_set_own. }
  assert (Hdisplay :
            ConfigForm.displayModels rt (ConfigForm.handleProviderChange rt st (id p))
            = match ConfigForm.availableModels st with
              | [] => inr (map VStr (models p))
              | _ :: _ => ConfigForm.displayModels rt st
              end).
  { unfold ConfigForm.displayModels at 1; rewrite Hselected.
    rewrite handleProviderChange_config by exact Hin.
    cbn [ConfigForm.with_config ConfigForm.availableModels ConfigForm.modelSearchQuery].
    destruct (ConfigForm.availableModels st) as [| m ms] eqn:Havailable;
      [reflexivity |].
    unfold ConfigForm.displayModels; rewrite Havailable.
    destruct (ConfigForm.filteredModels rt (ConfigForm.modelSearchQuery st) (m :: ms));
      reflexivity. }
  split; [exact Hdisplay |].
  intros Hnone; rewrite Hdisplay, Hnone, Hmodel.
  eexists; split; [reflexivity |].
  apply in_map; now apply default_model_listed.
Qed.

Lemma displayModels_after_provider_change_witness :
  ConfigForm.displayModels (FormMock.runtime Mock.offline)
    (ConfigForm.handleProviderChange (FormMock.runtime Mock.offline)
       (FormMock.state_for "openai" "sk-test" "gpt-4-turbo") "google")
  = inr [VStr "gemini-1.5-pro"; VStr "gemini-1.5-flash"].
Proof.
  exact (proj1 (displayModels_after_provider_change (FormMock.runtime Mock.offline)
                  (FormMock.state_for "openai" "sk-test" "gpt-4-turbo")
                  FormMock.google_entry
                  (or_intror (or_intror (or_introl eq_refl))))).
Defined.

(** ** Saving what the form holds *)

(** The mount effect on a stored object whose [model] is truthy. *)
Lemma load_try_with_model (browser : Browser) (text : string)
      (props : list (string * value)) :
  JSON_parse browser text = inr (VObj props) ->
  truthy (own props "model") = true ->
  load_try browser text = inr (VObj props).
Proof.
  intros Hparse Hmodel; unfold load_try; rewrite Hparse.
  cbn [get nullish field]; now rewrite Hmodel.
Qed.

(** X13. Choosing a provider, saving and reloading the page: the
    config the dialog mounts with is the one that was saved, provider,
    default model and the other properties, and nothing is logged.  The
    browser's [JSON.parse] is assumed to read back the text
    [JSON.stringify] wrote for that config. *)
Theorem provider_change_survives_reload (browser : Browser) (rt : ConfigForm.Runtime)
        (st : ConfigForm.State) (p : ProviderInfo) (storage : Storage) :
  In p providers ->
  round_trips browser
    (ConfigForm.config (ConfigForm.handleProviderChange rt st (id p))) ->
  load browser
    (handleSave browser
       (ConfigForm.config (ConfigForm.handleProviderChange rt st (id p))) storage)
  = (ConfigForm.config (ConfigForm.handleProviderChange rt st (id p)), []).
Proof.
  intros Hin.
  rewrite handleProviderChange_config by exact Hin.
  cbn [ConfigForm.with_config ConfigForm.config].
  intros [Htext Hparse].
  unfold handleSave.
  erewrite load_stored; [| apply getItem_setItem | exact Htext].
  erewrite load_try_with_model; [reflexivity | exact Hparse |].
  rewrite own_set_own.
  destruct Hin as [<- | [<- | [<- | [<- | []]]]]; reflexivity.
Qed.

Lemma provider_change_survives_reload_witness :
  load Mock.browser
    (handleSave Mock.browser
       (ConfigForm.config
          (ConfigForm.handleProviderChange (FormMock.runtime Mock.offline)
             (FormMock.state_for "openai" "sk-test" "gpt-4-turbo") "openrouter"))
       [])
  = (VObj [("provider", VStr "openrouter"); ("apiKey", VStr "sk-test");
           ("model", VStr "openai/gpt-4o")], []).
Proof.
  apply (provider_change_survives_reload Mock.browser (FormMock.runtime Mock.offline)
           (FormMock.state_for "openai" "sk-test" "gpt-4-turbo")
           FormMock.openrouter_entry []).
  - right; left; reflexivity.
  - split; [vm_compute; discriminate | vm_compute; reflexivity].
Defined.

(** ** The form and the route *)

Lemma trim_end_blank (s : string) :
  ConfigForm.trim_end s = EmptyString <-> skip_ws s = EmptyString.
Proof.
  destruct s as [| c rest]; [split; reflexivity |].
  cbn [ConfigForm.trim_end].
  destruct (skip_ws (String c rest)); split; trivial; discriminate.
Qed.

Lemma trim_blank (s : string) :
  ConfigForm.trim s = EmptyString <-> skip_ws s = EmptyString.
Proof.
  unfold ConfigForm.trim; rewrite trim_end_blank.
  now rewrite skip_ws_idempotent.
Qed.

(** The Save button is enabled exactly for a string key with a
    character that is no white space. *)
Lemma save_enabled (c : value) :
  ConfigForm.save_disabled c = inr false
  <-> exists key, field c "apiKey" = VStr key /\ skip_ws key <> EmptyString.
Proof.
  unfold ConfigForm.save_disabled; split.
  - destruct (field c "apiKey") as [| | | | key | |]; try discriminate.
    destruct (ConfigForm.trim key) eqn:Htrim; [discriminate |].
    intros _; exists key; split; [reflexivity |].
    intros Hblank; apply trim_blank in Hblank; congruence.
  - intros (key & -> & Hkey).
    destruct (ConfigForm.trim key) eqn:Htrim; [| reflexivity].
    apply trim_blank in Htrim; contradiction.
Qed.

Lemma save_enabled_truthy (c : value) :
  ConfigForm.save_disabled c = inr false -> truthy (field c "apiKey") = true.
Proof.
  intros Hsave; apply save_enabled in Hsave as (key & -> & Hkey).
  destruct key; [now contradiction Hkey | reflexivity].
Qed.

(** X14. A config the dialog lets the user save (the Save button is
    enabled, the provider is one of the table) is never refused by the
    route: the answer to a request carrying it is not a 400.  For the
    provider [siliconflow], which the dialog offers, the answer is
    always the fixed 500. *)
Theorem saved_config_is_not_refused (w : Platform) (body : value) (p : ProviderInfo) :
  ConfigForm.selectedProvider (field body "apiConfig") = Some p ->
  ConfigForm.save_disabled (field body "apiConfig") = inr false ->
  status_of (fst (POST w {| req_json := inr body |})) <> 400%Z
  /\ (id p = "siliconflow" ->
      POST w {| req_json := inr body |}
      = (internal_server_error,
         [console_log "SiliconFlow: Direct API call to chat/completions";
          console_error "Error in chat route:"])).
Proof.
  intros Hselected Hsave.
  apply selectedProvider_provider in Hselected as [Hin Hprovider].
  apply save_enabled_truthy in Hsave.
  assert (Hflow :
            id p = "siliconflow" ->
            POST w {| req_json := inr body |}
            = (internal_server_error,
               [console_log "SiliconFlow: Direct API call to chat/completions";
                console_error "Error in chat route:"])).
  { intros Hid; rewrite Hid in Hprovider.
    unfold POST; now rewrite POST_try_siliconflow by assumption. }
  split; [| exact Hflow].
  assert (Hknown : In (id p) ["openai"; "openrouter"; "google"] \/ id p = "siliconflow").
  { destruct Hin as [<- | [<- | [<- | [<- | []]]]]; cbn; tauto. }
  destruct Hknown as [Hknown | Hid]; [| rewrite (Hflow Hid); discriminate].
  destruct (POST_try_streaming w body (id p) Hsave Hprovider Hknown)
    as (selectedModel & Htry & _).
  unfold POST; rewrite Htry.
  destruct (assemble_context_outcome w (field body "messages") (field body "xml")
              initial_scope) as [[e Hrun] | [enhanced Hrun]].
  - erewrite bind_throw by exact Hrun; discriminate.
  - erewrite bind_normal by exact Hrun.
    cbn [trace initial_scope]; rewrite respond_runs; discriminate.
Qed.

Lemma saved_config_is_not_refused_witness :
  status_of
    (fst (POST (Mock.platform Mock.offline)
            {| req_json :=
                 inr (Mock.chat_body [Mock.hello] "<root/>"
                        (ConfigForm.config
                           (FormMock.state_for "google" "AIza-test" "gemini-1.5-flash"))) |}))
  <> 400%Z.
Proof.
  exact (proj1 (saved_config_is_not_refused (Mock.platform Mock.offline)
                  (Mock.chat_body [Mock.hello] "<root/>"
                     (ConfigForm.config
                        (FormMock.state_for "google" "AIza-test" "gemini-1.5-flash")))
                  FormMock.google_entry eq_refl eq_refl)).
Defined.

(** X15. The default models of the dialog's table are the defaults of
    the route: for each provider of the table, a request whose config
    has no model (or an empty one) is answered, effects included, as the
    same request with the provider's default model of the table.  For
    [openai], [openrouter] and [google] the two requests bind the same
    model; for [siliconflow] both end in the fixed 500 before the model
    is looked at. *)
Theorem table_default_is_route_default (w : Platform) (body body' : value)
        (p : ProviderInfo) :
  In p providers ->
  field body "messages" = field body' "messages" ->
  field body "xml" = field body' "xml" ->
  field (field body "apiConfig") "provider" = VStr (id p) ->
  field (field body' "apiConfig") "provider" = VStr (id p) ->
  field (field body "apiConfig") "apiKey" = field (field body' "apiConfig") "apiKey" ->
  truthy (field (field body "apiConfig") "apiKey") = true ->
  truthy (field (field body "apiConfig") "model") = false ->
  field (field body' "apiConfig") "model" = VStr (defaultModel p) ->
  POST w {| req_json := inr body |} = POST w {| req_json := inr body' |}.
Proof.
  intros Hin Hmessages Hxml Hprovider Hprovider' Hkeys Hkey Hmodel Hmodel'.
  assert (Htruthy : truthy (VStr (id p)) = true)
    by (destruct Hin as [<- | [<- | [<- | [<- | []]]]]; reflexivity).
  unfold POST.
  rewrite !POST_try_validated by (rewrite <- ?Hkeys, ?Hprovider, ?Hprovider'; assumption).
  rewrite <- Hmessages, <- Hxml, <- Hkeys, Hprovider, Hprovider', Hmodel'.
  assert (Hselect :
            select_model w (VStr (id p)) (field (field body "apiConfig") "apiKey")
              (field (field body "apiConfig") "model") initial_scope
            = select_model w (VStr (id p)) (field (field body "apiConfig") "apiKey")
                (VStr (defaultModel p)) initial_scope).
  { destruct Hin as [<- | [<- | [<- | [<- | []]]]];
      unfold select_model;
      cbn [id defaultModel strict_eq_str String.eqb Ascii.eqb Bool.eqb];
      unfold or_else; rewrite ?Hmodel; reflexivity. }
  unfold bind at 1 3; now rewrite Hselect.
Qed.

Lemma table_default_is_route_default_witness :
  POST (Mock.platform Mock.offline)
    {| req_json :=
         inr (Mock.chat_body [Mock.hello] "<root/>" (Mock.api_config "google" "AIza-test")) |}
  = POST (Mock.platform Mock.offline)
      {| req_json :=
           inr (Mock.chat_body [Mock.hello] "<root/>"
                  (ConfigForm.config
                     (FormMock.state_for "google" "AIza-test" "gemini-1.5-pro"))) |}.
Proof.
  apply (table_default_is_route_default (Mock.platform Mock.offline) _ _
           FormMock.google_entry);
    solve [reflexivity | right; right; left; reflexivity].
Defined.

(** X16. For the provider [openai] the key of the request is only
    tested for presence: the model is bound without it, so two requests
    that differ in nothing but their (non-empty) keys get the same
    answer and cause the same effects. *)
Theorem POST_openai_ignores_key (w : Platform) (body body' : value) :
  field body "messages" = field body' "messages" ->
  field body "xml" = field body' "xml" ->
  field (field body "apiConfig") "provider" = VStr "openai" ->
  field (field body' "apiConfig") "provider" = VStr "openai" ->
  field (field body "apiConfig") "model" = field (field body' "apiConfig") "model" ->
  truthy (field (field body "apiConfig") "apiKey") = true ->
  truthy (field (field body' "apiConfig") "apiKey") = true ->
  POST w {| req_json := inr body |} = POST w {| req_json := inr body' |}.
Proof.
  intros Hmessages Hxml Hprovider Hprovider' Hmodel Hkey Hkey'.
  unfold POST.
  rewrite !POST_try_validated by (rewrite ?Hprovider, ?Hprovider'; trivial).
  rewrite <- Hmessages, <- Hxml, <- Hmodel, Hprovider, Hprovider'.
  reflexivity.
Qed.

Lemma POST_openai_ignores_key_witness :
  POST (Mock.platform Mock.offline)
    {| req_json :=
         inr (Mock.chat_body [Mock.hello] "<root/>" (Mock.api_config "openai" "sk-one")) |}
  = POST (Mock.platform Mock.offline)
      {| req_json :=
           inr (Mock.chat_body [Mock.hello] "<root/>" (Mock.api_config "openai" "sk-two")) |}.
Proof.
  apply POST_openai_ignores_key; reflexivity.
Defined.

(** ** Fetching the model list *)

(** The three ways [fetchModels] runs: it refuses; the key does not
    convert to a string and nothing is sent; or it sends the one request
    and settles on what came back. *)
Lemma fetchModels_cases (rt : ConfigForm.Runtime) (st : ConfigForm.State) :
  ((forall p, ConfigForm.selectedProvider (ConfigForm.config st) = Some p ->
              getModelsApi p = None \/ getModelsApi p = Some EmptyString)
   /\ ConfigForm.fetchModels rt st
      = (st, [ConfigForm.alert "message.fetchModelsUnsupported"]))
  \/ (exists p api error,
         ConfigForm.selectedProvider (ConfigForm.config st) = Some p
         /\ getModelsApi p = Some api
         /\ ConfigForm.interpolate rt (field (ConfigForm.config st) "apiKey") = inl error
         /\ ConfigForm.fetchModels rt st = ConfigForm.fetchModels_failed st [] error)
  \/ (exists p api token,
         ConfigForm.selectedProvider (ConfigForm.config st) = Some p
         /\ getModelsApi p = Some api
         /\ ConfigForm.interpolate rt (field (ConfigForm.config st) "apiKey") = inr token
         /\ ConfigForm.fetchModels rt st
            = match ConfigForm.fetchModels_try rt (ConfigForm.models_request api token) with
              | inr models =>
                  (ConfigForm.with_isLoadingModels
                     (ConfigForm.with_availableModels st models) false,
                   [ConfigForm.setIsLoadingModels true;
                    ConfigForm.fetch_call (ConfigForm.models_request api token);
                    ConfigForm.setIsLoadingModels false])
              | inl error =>
                  ConfigForm.fetchModels_failed st
                    [ConfigForm.fetch_call (ConfigForm.models_request api token)] error
              end).
Proof.
  unfold ConfigForm.fetchModels.
  destruct (ConfigForm.selectedProvider (ConfigForm.config st)) as [p |] eqn:Hselected.
  2: { left; split; [intros p Hp; discriminate Hp | reflexivity]. }
  destruct p as [i n ms d ph au mu [[| c api] |]].
  - left; split; [| reflexivity].
    intros q Hq; injection Hq as <-; right; reflexivity.
  - right.
    destruct (ConfigForm.interpolate rt (field (ConfigForm.config st) "apiKey"))
      as [error | token] eqn:Hkey.
    + left; do 3 eexists; repeat split; exact Hkey.
    + right; do 3 eexists; repeat split; exact Hkey.
  - left; split; [| reflexivity].
    intros q Hq; injection Hq as <-; left; reflexivity.
Qed.

Lemma fetchModels_supported (rt : ConfigForm.Runtime) (st : ConfigForm.State)
      (p : ProviderInfo) (api token : string) :
  ConfigForm.selectedProvider (ConfigForm.config st) = Some p ->
  getModelsApi p = Some api ->
  ConfigForm.interpolate rt (field (ConfigForm.config st) "apiKey") = inr token ->
  ConfigForm.fetchModels rt st
  = match ConfigForm.fetchModels_try rt (ConfigForm.models_request api token) with
    | inr models =>
        (ConfigForm.with_isLoadingModels
           (ConfigForm.with_availableModels st models) false,
         [ConfigForm.setIsLoadingModels true;
          ConfigForm.fetch_call (ConfigForm.models_request api token);
          ConfigForm.setIsLoadingModels false])
    | inl error =>
        ConfigForm.fetchModels_failed st
          [ConfigForm.fetch_call (ConfigForm.models_request api token)] error
    end.
Proof.
  intros Hselected Hapi Hkey.
  destruct (fetchModels_cases rt st)
    as [[Hnone _] | [(q & api' & error & Hq & _ & Hkey' & _)
                    | (q & api' & token' & Hq & Hapi' & Hkey' & Hrun)]].
  - destruct (Hnone p Hselected) as [Habsent | Hempty]; [congruence |].
    apply selectedProvider_provider in Hselected as [Hin _].
    rewrite Hempty in Hapi; injection Hapi as <-.
    destruct Hin as [<- | [<- | [<- | [<- | []]]]]; discriminate Hempty.
  - congruence.
  - rewrite Hselected in Hq; injection Hq as <-.
    rewrite Hapi in Hapi'; injection Hapi' as <-.
    rewrite Hkey in Hkey'; injection Hkey' as <-.
    exact Hrun.
Qed.



(** X18. What [fetchModels] leaves alone.  It never changes the
    config, the search text or the open flag.  If it sent a request it
    ends with the loading flag off, whatever happened to the request,
    and its last effect is the reset of that flag.  If it raised an
    alert the fetched list is the one it found.  If it sent nothing,
    then either it changed nothing and its one effect is the alert that
    the provider has no model endpoint, or the key of the config did not
    convert to a string, which is logged and reported by the error
    alert; the second case cannot occur when the key is a string. *)
Theorem fetchModels_frame (rt : ConfigForm.Runtime) (st : ConfigForm.State) :
  ConfigForm.config (fst (ConfigForm.fetchModels rt st)) = ConfigForm.config st
  /\ ConfigForm.modelSearchQuery (fst (ConfigForm.fetchModels rt st))
     = ConfigForm.modelSearchQuery st
  /\ ConfigForm.isOpen (fst (ConfigForm.fetchModels rt st)) = ConfigForm.isOpen st
  /\ ((exists request,
          In (ConfigForm.fetch_call request) (snd (ConfigForm.fetchModels rt st))) ->
      ConfigForm.isLoadingModels (fst (ConfigForm.fetchModels rt st)) = false
      /\ last (snd (ConfigForm.fetchModels rt st)) (ConfigForm.alert EmptyString)
         = ConfigForm.setIsLoadingModels false)
  /\ ((exists key, In (ConfigForm.alert key) (snd (ConfigForm.fetchModels rt st))) ->
      ConfigForm.availableModels (fst (ConfigForm.fetchModels rt st))
      = ConfigForm.availableModels st)
  /\ ((forall request,
          ~ In (ConfigForm.fetch_call request) (snd (ConfigForm.fetchModels rt st))) ->
      ConfigForm.fetchModels rt st
      = (st, [ConfigForm.alert "message.fetchModelsUnsupported"])
      \/ exists error,
          ConfigForm.interpolate rt (field (ConfigForm.config st) "apiKey") = inl error
          /\ ConfigForm.fetchModels rt st
             = (ConfigForm.with_isLoadingModels st false,
                [ConfigForm.setIsLoadingModels true;
                 ConfigForm.console_error "Error fetching models:" error;
                 ConfigForm.alert "message.fetchModelsError";
                 ConfigForm.setIsLoadingModels false]))
  /\ (forall key,
         field (ConfigForm.config st) "apiKey" = VStr key ->
         (forall request,
             ~ In (ConfigForm.fetch_call request) (snd (ConfigForm.fetchModels rt st))) ->
         ConfigForm.fetchModels rt st
         = (st, [ConfigForm.alert "message.fetchModelsUnsupported"])).
Proof.
  destruct (fetchModels_cases rt st)
    as [[_ Hrun] | [(p & api & error & _ & _ & Hkey & Hrun)
                   | (p & api & token & _ & _ & Hkey & Hrun)]];
    rewrite Hrun.
  - cbn [fst snd]; repeat split; trivial.
    + destruct H as [request [H | []]]; discriminate H.
    + destruct H as [request [H | []]]; discriminate H.
    + now left.
  - unfold ConfigForm.fetchModels_failed;
      cbn [fst snd app ConfigForm.with_isLoadingModels ConfigForm.config
           ConfigForm.modelSearchQuery ConfigForm.isOpen ConfigForm.isLoadingModels
           ConfigForm.availableModels];
      repeat split; trivial.
    + right; exists error; now split.
    + intros key Hstring; rewrite Hstring in Hkey; discriminate Hkey.
  - destruct (ConfigForm.fetchModels_try rt (ConfigForm.models_request api token))
      as [error | ms];
      unfold ConfigForm.fetchModels_failed;
      cbn [fst snd app ConfigForm.with_isLoadingModels ConfigForm.with_availableModels
           ConfigForm.config ConfigForm.modelSearchQuery ConfigForm.isOpen
           ConfigForm.isLoadingModels ConfigForm.availableModels];
      repeat split; trivial.
    + intros Hnone; exfalso; eapply Hnone; right; left; reflexivity.
    + intros key Hstring Hnone; exfalso; eapply Hnone; right; left; reflexivity.
    + intros [key Halert]; exfalso.
      repeat (destruct Halert as [Halert | Halert]; [discriminate Halert |]);
        contradiction.
    + intros Hnone; exfalso; eapply Hnone; right; left; reflexivity.
    + intros key Hstring Hnone; exfalso; eapply Hnone; right; left; reflexivity.
Qed.

(** A key that is an object with a [toString] property of its own: the
    header cannot be built, the error is logged and reported, and no
    request is sent. *)
Lemma fetchModels_unconvertible_key :
  ConfigForm.fetchModels (FormMock.runtime FormMock.models_reply) FormMock.odd_key
  = (ConfigForm.with_isLoadingModels FormMock.odd_key false,
     [ConfigForm.setIsLoadingModels true;
      ConfigForm.console_error "Error fetching models:"
        (TypeError "Cannot convert object to primitive value");
      ConfigForm.alert "message.fetchModelsError";
      ConfigForm.setIsLoadingModels false]).
Proof. reflexivity. Qed.

(** ** What a reply turns into *)

(** The entry [fetchModels] stores for one item of the reply. *)
Lemma model_info_fields (item : value) :
  nullish item = false ->
  exists info,
    ConfigForm.model_info item = inr info
    /\ ConfigForm.id info = field item "id"
    /\ ConfigForm.name info = or_else (field item "name") (field item "id")
    /\ ConfigForm.description info = field item "description".
Proof.
  intros Hitem; unfold ConfigForm.model_info.
  rewrite get_not_nullish by exact Hitem.
  eexists; repeat split.
Qed.

Lemma map_model_info_fields (items : list value) :
  (forall item, In item items -> nullish item = false) ->
  exists infos,
    ConfigForm.map_model_info items = inr infos
    /\ map ConfigForm.id infos = map (fun item => field item "id") items
    /\ map ConfigForm.name infos
       = map (fun item => or_else (field item "name") (field item "id")) items
    /\ map ConfigForm.description infos
       = map (fun item => field item "description") items.
Proof.
  induction items as [| item rest IH]; intros Hitems.
  - exists []; repeat split.
  - destruct (model_info_fields item (Hitems item (or_introl eq_refl)))
      as (info & Hinfo & Hid & Hname & Hdescription).
    destruct IH as (infos & Hinfos & Hids & Hnames & Hdescriptions).
    { intros x Hx; apply Hitems; now right. }
    exists (info :: infos); cbn [ConfigForm.map_model_info map].
    rewrite Hinfo, Hinfos, Hid, Hname, Hdescription, Hids, Hnames, Hdescriptions.
    repeat split.
Qed.

Lemma map_model_info_nullish (items : list value) (item : value) :
  In item items -> nullish item = true ->
  exists error, ConfigForm.map_model_info items = inl error.
Proof.
  induction items as [| x rest IH]; intros Hin Hitem; [contradiction |].
  cbn [ConfigForm.map_model_info].
  destruct Hin as [-> | Hin].
  - unfold ConfigForm.model_info, get; rewrite Hitem; eauto.
  - destruct (ConfigForm.model_info x); [eauto |].
    destruct (IH Hin Hitem) as [error ->]; eauto.
Qed.

(** The [try] block on a reply that is read. *)
Lemma fetchModels_try_reply (rt : ConfigForm.Runtime) (request : FetchRequest)
      (response : FetchResponse) (data : value) :
  ConfigForm.fetch rt request = inr response ->
  ok response = true ->
  json response = inr data ->
  ConfigForm.fetchModels_try rt request = ConfigForm.models_of data.
Proof.
  intros Hfetch Hok Hjson; unfold ConfigForm.fetchModels_try.
  now rewrite Hfetch, Hok, Hjson.
Qed.

(** An accepted reply with an array [data] free of [null]. *)
Lemma fetchModels_accepts (rt : ConfigForm.Runtime) (st : ConfigForm.State)
      (p : ProviderInfo) (api token : string) (response : FetchResponse) (data : value)
      (items : list value) :
  ConfigForm.selectedProvider (ConfigForm.config st) = Some p ->
  getModelsApi p = Some api ->
  ConfigForm.interpolate rt (field (ConfigForm.config st) "apiKey") = inr token ->
  ConfigForm.fetch rt (ConfigForm.models_request api token) = inr response ->
  ok response = true ->
  json response = inr data ->
  field data "data" = VArr items ->
  (forall item, In item items -> nullish item = false) ->
  exists infos,
    ConfigForm.fetchModels rt st
    = (ConfigForm.with_isLoadingModels (ConfigForm.with_availableModels st infos) false,
       [ConfigForm.setIsLoadingModels true;
        ConfigForm.fetch_call (ConfigForm.models_request api token);
        ConfigForm.setIsLoadingModels false])
    /\ map ConfigForm.id infos = map (fun item => field item "id") items
    /\ map ConfigForm.name infos
       = map (fun item => or_else (field item "name") (field item "id")) items
    /\ map ConfigForm.description infos
       = map (fun item => field item "description") items.
Proof.
  intros Hselected Hapi Hkey Hfetch Hok Hjson Hdata Hitems.
  rewrite (fetchModels_supported rt st p api token Hselected Hapi Hkey).
  rewrite (fetchModels_try_reply rt _ response data Hfetch Hok Hjson).
  unfold ConfigForm.models_of.
  assert (Hobject : nullish data = false)
    by (destruct data; try discriminate Hdata; reflexivity).
  rewrite get_not_nullish by exact Hobject; rewrite Hdata.
  destruct (map_model_info_fields items Hitems)
    as (infos & -> & Hids & Hnames & Hdescriptions).
  exists infos; repeat split; assumption.
Qed.

(** X19. A reply with a status from 200 to 299 whose JSON has an array
    [data] without [null] entries replaces the fetched list: one entry
    per item and in the same order, with the item's [id] and
    [description], and with the item's [name] when that is truthy and
    its [id] otherwise.  The effects are the flag set, the request and
    the flag reset; nothing is logged and no alert is raised.  The
    request is the one built from the key of the config, [token] being
    the key as the template literal of the header converts it. *)
Theorem fetchModels_stores_reply (rt : ConfigForm.Runtime) (st : ConfigForm.State)
        (p : ProviderInfo) (api token : string) (response : FetchResponse)
        (data : value) (items : list value) :
  ConfigForm.selectedProvider (ConfigForm.config st) = Some p ->
  getModelsApi p = Some api ->
  ConfigForm.interpolate rt (field (ConfigForm.config st) "apiKey") = inr token ->
  ConfigForm.fetch rt (ConfigForm.models_request api token) = inr response ->
  ok response = true ->
  json response = inr data ->
  field data "data" = VArr items ->
  (forall item, In item items -> nullish item = false) ->
  snd (ConfigForm.fetchModels rt st)
  = [ConfigForm.setIsLoadingModels true;
     ConfigForm.fetch_call (ConfigForm.models_request api token);
     ConfigForm.setIsLoadingModels false]
  /\ ConfigForm.isLoadingModels (fst (ConfigForm.fetchModels rt st)) = false
  /\ map ConfigForm.id (ConfigForm.availableModels (fst (ConfigForm.fetchModels rt st)))
     = map (fun item => field item "id") items
  /\ map ConfigForm.name (ConfigForm.availableModels (fst (ConfigForm.fetchModels rt st)))
     = map (fun item => or_else (field item "name") (field item "id")) items
  /\ map ConfigForm.description
         (ConfigForm.availableModels (fst (ConfigForm.fetchModels rt st)))
     = map (fun item => field item "description") items.
Proof.
  intros Hselected Hapi Hkey Hfetch Hok Hjson Hdata Hitems.
  destruct (fetchModels_accepts rt st p api token response data items
              Hselected Hapi Hkey Hfetch Hok Hjson Hdata Hitems)
    as (infos & -> & Hids & Hnames & Hdescriptions).
  cbn [fst snd ConfigForm.with_isLoadingModels ConfigForm.with_availableModels
       ConfigForm.availableModels ConfigForm.isLoadingModels].
  repeat split; assumption.
Qed.

Lemma fetchModels_stores_reply_witness :
  map ConfigForm.name
    (ConfigForm.availableModels
       (fst (ConfigForm.fetchModels (FormMock.runtime FormMock.models_reply)
               (FormMock.state_for "siliconflow" "sk-test" "deepseek-chat"))))
  = [VStr "Qwen 2.5 72B"; VStr "deepseek-chat"].
Proof.
  destruct (fetchModels_stores_reply (FormMock.runtime FormMock.models_reply)
              (FormMock.state_for "siliconflow" "sk-test" "deepseek-chat")
              FormMock.siliconflow_entry "https://api.siliconflow.cn/v1/models" "sk-test"
              {| status := 200; statusText := "OK";
                 json := inr (VObj [("data", VArr [FormMock.qwen; FormMock.deepseek])]) |}
              (VObj [("data", VArr [FormMock.qwen; FormMock.deepseek])])
              [FormMock.qwen; FormMock.deepseek]
              eq_refl eq_refl eq_refl eq_refl eq_refl eq_refl eq_refl)
    as (_ & _ & _ & Hnames & _).
  - intros item [<- | [<- | []]]; reflexivity.
  - exact Hnames.
Defined.

(** X20. A request that fails leaves the fetched list as it was.  When
    [fetch] rejects, when the status of the reply is outside 200-299,
    or when the [data] array of the reply holds a [null], the call logs
    the error, raises the alert [message.fetchModelsError] and resets
    the loading flag; the list is neither replaced nor emptied.  For a
    status outside 200-299 the error logged is
    [Failed to fetch models: ] followed by the status text, and the body
    of the reply is not read.  The request is the one built from the
    key of the config, [token] being the key as the template literal of
    the header converts it. *)
Theorem fetchModels_keeps_list_on_failure (rt : ConfigForm.Runtime)
        (st : ConfigForm.State) (p : ProviderInfo) (api token : string) :
  ConfigForm.selectedProvider (ConfigForm.config st) = Some p ->
  getModelsApi p = Some api ->
  ConfigForm.interpolate rt (field (ConfigForm.config st) "apiKey") = inr token ->
  (exists e, ConfigForm.fetch rt (ConfigForm.models_request api token) = inl e)
  \/ (exists response,
         ConfigForm.fetch rt (ConfigForm.models_request api token) = inr response
         /\ (ok response = false
             \/ exists data items item,
                 json response = inr data
                 /\ field data "data" = VArr items
                 /\ In item items
                 /\ nullish item = true)) ->
  exists error,
    ConfigForm.fetchModels rt st
    = (ConfigForm.with_isLoadingModels st false,
       [ConfigForm.setIsLoadingModels true;
        ConfigForm.fetch_call (ConfigForm.models_request api token);
        ConfigForm.console_error "Error fetching models:" error;
        ConfigForm.alert "message.fetchModelsError";
        ConfigForm.setIsLoadingModels false])
    /\ ConfigForm.availableModels (fst (ConfigForm.fetchModels rt st))
       = ConfigForm.availableModels st
    /\ (forall response,
           ConfigForm.fetch rt (ConfigForm.models_request api token) = inr response ->
           ok response = false ->
           error = Error "Error" ("Failed to fetch models: " ++ statusText response)).
Proof.
  intros Hselected Hapi Hkey Hcause.
  rewrite (fetchModels_supported rt st p api token Hselected Hapi Hkey).
  assert (Hthrows :
            exists error,
              ConfigForm.fetchModels_try rt (ConfigForm.models_request api token)
              = inl error
              /\ (forall response,
                     ConfigForm.fetch rt (ConfigForm.models_request api token)
                     = inr response ->
                     ok response = false ->
                     error
                     = Error "Error" ("Failed to fetch models: " ++ statusText response))).
  { unfold ConfigForm.fetchModels_try.
    destruct Hcause as [[e ->] | (response & -> & Hreply)].
    { eexists; split; [reflexivity | intros response H; discriminate H]. }
    destruct (ok response) eqn:Hok; cbn [negb].
    2: { eexists; split; [reflexivity |].
         now intros response' H _; injection H as <-. }
    destruct Hreply as [H | (data & items & item & -> & Hdata & Hin & Hitem)];
      [discriminate H |].
    unfold ConfigForm.models_of.
    assert (Hobject : nullish data = false)
      by (destruct data; try discriminate Hdata; reflexivity).
    rewrite get_not_nullish by exact Hobject; rewrite Hdata.
    destruct (map_model_info_nullish items item Hin Hitem) as [error ->].
    exists error; split; [reflexivity |].
    intros response' H Hnot; injection H as <-; congruence. }
  destruct Hthrows as (error & -> & Hmessage).
  exists error; repeat split; assumption.
Qed.

Lemma fetchModels_keeps_list_on_failure_witness :
  exists error,
    snd (ConfigForm.fetchModels (FormMock.runtime FormMock.unauthorized)
           (FormMock.state_for "openrouter" "sk-or-test" "openai/gpt-4o"))
    = [ConfigForm.setIsLoadingModels true;
       ConfigForm.fetch_call
         (ConfigForm.models_request "https://openrouter.ai/api/v1/models" "sk-or-test");
       ConfigForm.console_error "Error fetching models:" error;
       ConfigForm.alert "message.fetchModelsError";
       ConfigForm.setIsLoadingModels false].
Proof.
  destruct (fetchModels_keeps_list_on_failure (FormMock.runtime FormMock.unauthorized)
              (FormMock.state_for "openrouter" "sk-or-test" "openai/gpt-4o")
              FormMock.openrouter_entry "https://openrouter.ai/api/v1/models" "sk-or-test"
              eq_refl eq_refl eq_refl
              (or_intror
                 (ex_intro _ {| status := 401; statusText := "Unauthorized";
                                json := inr (VObj [("error", VStr "bad key")]) |}
                    (conj eq_refl (or_introl eq_refl)))))
    as (error & Hrun & _).
  exists error; now rewrite Hrun.
Defined.

(** X21. A reply with a status from 200 to 299 whose JSON has no [data]
    (the property is absent or [null]) counts as a success with no
    models: no alert is raised, the fetched list is emptied, and the
    model select shows the built-in models of the selected provider
    again.  The request is the one built from the key of the config,
    [token] being the key as the template literal of the header
    converts it. *)
Theorem fetchModels_without_data (rt : ConfigForm.Runtime) (st : ConfigForm.State)
        (p : ProviderInfo) (api token : string) (response : FetchResponse)
        (data : value) :
  ConfigForm.selectedProvider (ConfigForm.config st) = Some p ->
  getModelsApi p = Some api ->
  ConfigForm.interpolate rt (field (ConfigForm.config st) "apiKey") = inr token ->
  ConfigForm.fetch rt (ConfigForm.models_request api token) = inr response ->
  ok response = true ->
  json response = inr data ->
  nullish data = false ->
  nullish (field data "data") = true ->
  ConfigForm.fetchModels rt st
  = (ConfigForm.with_isLoadingModels (ConfigForm.with_availableModels st []) false,
     [ConfigForm.setIsLoadingModels true;
      ConfigForm.fetch_call (ConfigForm.models_request api token);
      ConfigForm.setIsLoadingModels false])
  /\ ConfigForm.displayModels rt (fst (ConfigForm.fetchModels rt st))
     = inr (map VStr (models p)).
Proof.
  intros Hselected Hapi Hkey Hfetch Hok Hjson Hobject Hdata.
  assert (Hrun :
            ConfigForm.fetchModels rt st
            = (ConfigForm.with_isLoadingModels (ConfigForm.with_availableModels st [])
                 false,
               [ConfigForm.setIsLoadingModels true;
                ConfigForm.fetch_call (ConfigForm.models_request api token);
                ConfigForm.setIsLoadingModels false])).
  { rewrite (fetchModels_supported rt st p api token Hselected Hapi Hkey).
    rewrite (fetchModels_try_reply rt _ response data Hfetch Hok Hjson).
    unfold ConfigForm.models_of.
    rewrite get_not_nullish by exact Hobject.
    destruct (field data "data"); try discriminate Hdata; reflexivity. }
  split; [exact Hrun |].
  rewrite Hrun; unfold ConfigForm.displayModels.
  cbn [fst ConfigForm.with_isLoadingModels ConfigForm.with_availableModels
       ConfigForm.availableModels ConfigForm.modelSearchQuery ConfigForm.config
       ConfigForm.filteredModels length Nat.ltb Nat.leb].
  now rewrite Hselected.
Qed.

Lemma fetchModels_without_data_witness :
  ConfigForm.displayModels (FormMock.runtime (FormMock.reply (VObj [("models", VArr [])])))
    (fst (ConfigForm.fetchModels
            (FormMock.runtime (FormMock.reply (VObj [("models", VArr [])])))
            (FormMock.state_for "openrouter" "sk-or-test" "openai/gpt-4o")))
  = inr (map VStr (models FormMock.openrouter_entry)).
Proof.
  exact (proj2 (fetchModels_without_data
                  (FormMock.runtime (FormMock.reply (VObj [("models", VArr [])])))
                  (FormMock.state_for "openrouter" "sk-or-test" "openai/gpt-4o")
                  FormMock.openrouter_entry "https://openrouter.ai/api/v1/models"
                  "sk-or-test"
                  {| status := 200; statusText := "OK";
                     json := inr (VObj [("models", VArr [])]) |}
                  (VObj [("models", VArr [])])
                  eq_refl eq_refl eq_refl eq_refl eq_refl eq_refl eq_refl eq_refl)).
Defined.

(** ** The search box *)

Lemma includes_empty (s : string) : ConfigForm.includes s EmptyString = true.
Proof. destruct s; reflexivity. Qed.

(** The predicate of the filter on an entry of the declared type. *)
Lemma matches_typed (rt : ConfigForm.Runtime) (query : string)
      (m : ConfigForm.ModelInfo) :
  is_string (ConfigForm.name m) = true ->
  nullish (ConfigForm.description m) = true
  \/ is_string (ConfigForm.description m) = true ->
  ConfigForm.matches rt query m
  = inr (ConfigForm.mentions rt query (ConfigForm.name m)
         || ConfigForm.mentions rt query (ConfigForm.description m)).
Proof.
  intros Hname Hdescription; unfold ConfigForm.matches, ConfigForm.lower_includes.
  destruct (ConfigForm.name m) as [| | | | n | |]; try discriminate Hname.
  cbn [ConfigForm.mentions].
  destruct (ConfigForm.includes (ConfigForm.toLowerCase rt n)
              (ConfigForm.toLowerCase rt query)); [reflexivity |].
  destruct (ConfigForm.description m) as [| | | | d | |];
    destruct Hdescription as [H | H]; try discriminate H; reflexivity.
Qed.

(** X22. On fetched entries of the declared type (the name is a
    string, the description a string or absent) the search never throws
    and keeps, in their order, exactly the entries whose name or
    description contains the search text, both sides in lower case. *)
Theorem filteredModels_keeps_matches (rt : ConfigForm.Runtime) (query : string)
        (ms : list ConfigForm.ModelInfo) :
  (forall m, In m ms ->
             is_string (ConfigForm.name m) = true
             /\ (nullish (ConfigForm.description m) = true
                 \/ is_string (ConfigForm.description m) = true)) ->
  ConfigForm.filteredModels rt query ms
  = inr (filter (fun m => ConfigForm.mentions rt query (ConfigForm.name m)
                          || ConfigForm.mentions rt query (ConfigForm.description m))
                ms).
Proof.
  induction ms as [| m rest IH]; intros Htyped; [reflexivity |].
  cbn [ConfigForm.filteredModels filter].
  destruct (Htyped m (or_introl eq_refl)) as [Hname Hdescription].
  rewrite (matches_typed rt query m Hname Hdescription).
  rewrite IH by (intros x Hx; apply Htyped; now right).
  reflexivity.
Qed.

Lemma filteredModels_keeps_matches_witness :
  ConfigForm.filteredModels (FormMock.runtime Mock.offline) "CHAT" FormMock.fetched
  = inr (filter (fun m =>
                   ConfigForm.mentions (FormMock.runtime Mock.offline) "CHAT"
                     (ConfigForm.name m)
                   || ConfigForm.mentions (FormMock.runtime Mock.offline) "CHAT"
                        (ConfigForm.description m))
                FormMock.fetched).
Proof.
  apply filteredModels_keeps_matches.
  intros m [<- | [<- | []]]; split; first [reflexivity | left; reflexivity | right; reflexivity].
Defined.

(** X23. An empty search text hides nothing: when every fetched entry
    has a string for its name, the filtered list is the fetched list,
    whatever the descriptions are.  [toLowerCase] is assumed to map the
    empty string to itself. *)
Theorem filteredModels_empty_query (rt : ConfigForm.Runtime)
        (ms : list ConfigForm.ModelInfo) :
  ConfigForm.toLowerCase rt EmptyString = EmptyString ->
  (forall m, In m ms -> is_string (ConfigForm.name m) = true) ->
  ConfigForm.filteredModels rt EmptyString ms = inr ms.
Proof.
  intros Hlower.
  induction ms as [| m rest IH]; intros Hnames; [reflexivity |].
  cbn [ConfigForm.filteredModels].
  unfold ConfigForm.matches, ConfigForm.lower_includes.
  pose proof (Hnames m (or_introl eq_refl)) as Hname.
  destruct (ConfigForm.name m) as [| | | | n | |]; try discriminate Hname.
  rewrite Hlower, includes_empty.
  rewrite IH by (intros x Hx; apply Hnames; now right).
  reflexivity.
Qed.

Lemma filteredModels_empty_query_witness :
  ConfigForm.filteredModels (FormMock.runtime Mock.offline) EmptyString FormMock.fetched
  = inr FormMock.fetched.
Proof.
  apply filteredModels_empty_query; [reflexivity |].
  intros m [<- | [<- | []]]; reflexivity.
Defined.

(** What the filter throws is a [TypeError]. *)
Lemma matches_error (rt : ConfigForm.Runtime) (query : string)
      (m : ConfigForm.ModelInfo) (error : thrown) :
  ConfigForm.matches rt query m = inl error -> exists message, error = TypeError message.
Proof.
  unfold ConfigForm.matches, ConfigForm.lower_includes.
  destruct (ConfigForm.name m) as [| | | | n | |];
    try (intros H; injection H as <-; eauto; fail).
  destruct (ConfigForm.includes (ConfigForm.toLowerCase rt n)
              (ConfigForm.toLowerCase rt query)); [discriminate |].
  destruct (ConfigForm.description m); cbn [nullish];
    try discriminate; intros H; injection H as <-; eauto.
Qed.

(** The filter calls its predicate on every entry: one name that is
    no string makes it throw, whatever the search text. *)
Lemma filteredModels_throws (rt : ConfigForm.Runtime) (query : string)
      (ms : list ConfigForm.ModelInfo) (m : ConfigForm.ModelInfo) :
  In m ms -> is_string (ConfigForm.name m) = false ->
  exists message, ConfigForm.filteredModels rt query ms = inl (TypeError message).
Proof.
  induction ms as [| x rest IH]; intros Hin Hname; [contradiction |].
  cbn [ConfigForm.filteredModels].
  destruct (ConfigForm.matches rt query x) as [error | keep] eqn:Hmatches.
  { destruct (matches_error rt query x error Hmatches) as [message ->]; eauto. }
  destruct Hin as [-> | Hin].
  - exfalso; revert Hmatches.
    unfold ConfigForm.matches, ConfigForm.lower_includes.
    destruct (ConfigForm.name m); try discriminate Hname; discriminate.
  - destruct (IH Hin Hname) as [message ->]; eauto.
Qed.

(** X24. [fetchModels] stores what the endpoint sent without looking
    at the types.  When one item of an accepted reply has neither a
    truthy string [name] nor, failing that, a string [id], the call
    still succeeds without alert, and the computation of the options of
    the model select throws a [TypeError] at the next render, whatever
    the search text.  The request is the one built from the key of the
    config, [token] being the key as the template literal of the header
    converts it. *)
Theorem nameless_model_breaks_display (rt : ConfigForm.Runtime) (st : ConfigForm.State)
        (p : ProviderInfo) (api token : string) (response : FetchResponse)
        (data : value) (items : list value) (item : value) :
  ConfigForm.selectedProvider (ConfigForm.config st) = Some p ->
  getModelsApi p = Some api ->
  ConfigForm.interpolate rt (field (ConfigForm.config st) "apiKey") = inr token ->
  ConfigForm.fetch rt (ConfigForm.models_request api token) = inr response ->
  ok response = true ->
  json response = inr data ->
  field data "data" = VArr items ->
  (forall x, In x items -> nullish x = false) ->
  In item items ->
  is_string (or_else (field item "name") (field item "id")) = false ->
  (forall key, ~ In (ConfigForm.alert key) (snd (ConfigForm.fetchModels rt st)))
  /\ exists message,
      ConfigForm.displayModels rt (fst (ConfigForm.fetchModels rt st))
      = inl (TypeError message).
Proof.
  intros Hselected Hapi Hkey Hfetch Hok Hjson Hdata Hitems Hin Hname.
  destruct (fetchModels_accepts rt st p api token response data items
              Hselected Hapi Hkey Hfetch Hok Hjson Hdata Hitems)
    as (infos & -> & _ & Hnames & _).
  cbn [fst snd].
  split.
  { intros key Halert.
    repeat (destruct Halert as [Halert | Halert]; [discriminate Halert |]);
      contradiction. }
  assert (Hbad : exists m, In m infos /\ is_string (ConfigForm.name m) = false).
  { assert (Hlisted :
              In (or_else (field item "name") (field item "id"))
                 (map ConfigForm.name infos)).
    { rewrite Hnames.
      apply (in_map (fun x => or_else (field x "name") (field x "id"))); exact Hin. }
    apply in_map_iff in Hlisted as (m & Hm & Hlisted).
    exists m; split; [exact Hlisted | now rewrite Hm]. }
  destruct Hbad as (m & Hm & Hbad).
  unfold ConfigForm.displayModels.
  cbn [ConfigForm.with_isLoadingModels ConfigForm.with_availableModels
       ConfigForm.availableModels ConfigForm.modelSearchQuery].
  destruct (filteredModels_throws rt (ConfigForm.modelSearchQuery st) infos m Hm Hbad)
    as [message ->].
  now exists message.
Qed.

Lemma nameless_model_breaks_display_witness :
  exists message,
    ConfigForm.displayModels
      (FormMock.runtime (FormMock.reply (VObj [("data", VArr [FormMock.nameless])])))
      (fst (ConfigForm.fetchModels
              (FormMock.runtime (FormMock.reply (VObj [("data", VArr [FormMock.nameless])])))
              (FormMock.state_for "siliconflow" "sk-test" "deepseek-chat")))
    = inl (TypeError message).
Proof.
  refine (proj2 (nameless_model_breaks_display
                   (FormMock.runtime
                      (FormMock.reply (VObj [("data", VArr [FormMock.nameless])])))
                   (FormMock.state_for "siliconflow" "sk-test" "deepseek-chat")
                   FormMock.siliconflow_entry "https://api.siliconflow.cn/v1/models"
                   "sk-test"
                   {| status := 200; statusText := "OK";
                      json := inr (VObj [("data", VArr [FormMock.nameless])]) |}
                   (VObj [("data", VArr [FormMock.nameless])])
                   [FormMock.nameless] FormMock.nameless
                   eq_refl eq_refl eq_refl eq_refl eq_refl eq_refl eq_refl _
                   (or_introl eq_refl) eq_refl)).
  intros x [<- | []]; reflexivity.
Defined.

(** ** A whole session *)

(** X25. A session in the dialog: the user clicks a provider of the
    table, types a key that has a character other than white space and
    picks a model.  The config then names that provider, key and model,
    the Save button is enabled, and after Save and the reload the dialog
    mounts with the same config and logs nothing.  The browser's
    [JSON.parse] is assumed to read back the text [JSON.stringify] wrote
    for that config. *)
Theorem form_session_is_saved (browser : Browser) (rt : ConfigForm.Runtime)
        (st : ConfigForm.State) (p : ProviderInfo) (key m : string) (storage : Storage) :
  In p providers ->
  skip_ws key <> EmptyString ->
  m <> EmptyString ->
  let c :=
    ConfigForm.config
      (ConfigForm.handleModelChange rt
         (ConfigForm.handleApiKeyChange rt
            (ConfigForm.handleProviderChange rt st (id p)) key) m) in
  ConfigForm.selectedProvider c = Some p
  /\ field c "apiKey" = VStr key
  /\ field c "model" = VStr m
  /\ ConfigForm.save_disabled c = inr false
  /\ (round_trips browser c -> load browser (handleSave browser c storage) = (c, [])).
Proof.
  intros Hin Hkey Hm c; subst c.
  rewrite handleProviderChange_config by exact Hin.
  unfold ConfigForm.handleModelChange, ConfigForm.handleApiKeyChange.
  cbn [ConfigForm.with_config ConfigForm.config ConfigForm.spread].
  assert (Hfield_key :
            field (VObj (set_own
                           (set_own
                              (set_own
                                 (set_own (ConfigForm.spread rt (ConfigForm.config st))
                                    "provider" (VStr (id p)))
                                 "model" (VStr (defaultModel p)))
                              "apiKey" (VStr key))
                           "model" (VStr m)))
                  "apiKey"
            = VStr key).
  { cbn [field]; rewrite own_set_own_other by discriminate. apply own_set_own. }
  split.
  { apply selectedProvider_of; [exact Hin |].
    cbn [field]; rewrite !own_set_own_other by discriminate.
    apply own_set_own. }
  split; [exact Hfield_key |].
  split; [cbn [field]; apply own_set_own |].
  split; [apply save_enabled; exists key; now split |].
  intros [Htext Hparse].
  unfold handleSave.
  erewrite load_stored; [| apply getItem_setItem | exact Htext].
  erewrite load_try_with_model; [reflexivity | exact Hparse |].
  rewrite own_set_own.
  destruct m; [now contradiction Hm | reflexivity].
Qed.

Lemma form_session_is_saved_witness :
  ConfigForm.save_disabled
    (ConfigForm.config
       (ConfigForm.handleModelChange (FormMock.runtime Mock.offline)
          (ConfigForm.handleApiKeyChange (FormMock.runtime Mock.offline)
             (ConfigForm.handleProviderChange (FormMock.runtime Mock.offline)
                ConfigForm.initial_state "google")
             " AIza-test ")
          "gemini-1.5-flash"))
  = inr false.
Proof.
  destruct (form_session_is_saved Mock.browser (FormMock.runtime Mock.offline)
              ConfigForm.initial_state FormMock.google_entry
              " AIza-test " "gemini-1.5-flash" [])
    as (_ & _ & _ & Hsave & _).
  - right; right; left; reflexivity.
  - vm_compute; discriminate.
  - discriminate.
  - exact Hsave.
Defined.

(** ** A stored config of another shape *)

(** X26. The mount effect takes any stored JSON object as the config.
    When the stored object has no string [apiKey], nothing is logged,
    the object (with its model filled in, if that was missing) becomes
    the config, and the test of the Save button, [config.apiKey.trim()],
    throws a [TypeError] when the dialog is rendered. *)
Theorem load_accepts_untyped (browser : Browser) (storage : Storage) (text : string)
        (props : list (string * value)) :
  getItem storage storage_key = Some text ->
  text <> EmptyString ->
  JSON_parse browser text = inr (VObj props) ->
  is_string (own props "apiKey") = false ->
  snd (load browser storage) = []
  /\ (forall key, key <> "model" -> field (fst (load browser storage)) key = own props key)
  /\ exists message,
      ConfigForm.save_disabled (fst (load browser storage)) = inl (TypeError message).
Proof.
  intros Hget Htext Hparse Hkey.
  assert (Hload :
            load browser storage = (VObj props, [])
            \/ exists m, load browser storage = (VObj (set_own props "model" m), [])).
  { rewrite (load_stored browser storage text Hget Htext).
    unfold load_try; rewrite Hparse; cbn [get nullish field].
    destruct (truthy (own props "model")); cbn [negb]; [now left |].
    destruct (find _ providers); [right; eexists; reflexivity | now left]. }
  assert (Hthrows :
            forall config,
              field config "apiKey" = own props "apiKey" ->
              exists message, ConfigForm.save_disabled config = inl (TypeError message)).
  { intros config Hfield; unfold ConfigForm.save_disabled; rewrite Hfield.
    destruct (own props "apiKey"); try discriminate Hkey; eauto. }
  destruct Hload as [-> | [m ->]]; cbn [fst snd].
  - split; [reflexivity | split; [reflexivity |]].
    now apply Hthrows.
  - split; [reflexivity | split].
    + intros key Hne; cbn [field]; now apply own_set_own_other.
    + apply Hthrows; cbn [field]; apply own_set_own_other; discriminate.
Qed.

Lemma load_accepts_untyped_witness :
  exists message,
    ConfigForm.save_disabled
      (fst (load Mock.browser
              [(storage_key,
                Mock.stringify (VObj [("provider", VStr "google")]))]))
    = inl (TypeError message).
Proof.
  refine (proj2 (proj2 (load_accepts_untyped Mock.browser
                          [(storage_key,
                            Mock.stringify (VObj [("provider", VStr "google")]))]
                          (Mock.stringify (VObj [("provider", VStr "google")]))
                          [("provider", VStr "google")]
                          eq_refl _ _ eq_refl))).
  - vm_compute; discriminate.
  - vm_compute; reflexivity.
Defined.
